(** * Nivesh: the payout transaction state machine

    A shallow embedding of
    - [src/lib/actions/transaction-india.actions.ts]: state machine, retry
      scheduler, reconciler;
    - [src/app/api/webhooks/razorpay/route.ts]: webhook processor;
    - [src/lib/actions/razorpay.actions.ts]: payout submitter, cancellation,
      status sync;
    with the properties of the written specification stated over it.

    Conventions of the embedding.
    - An Appwrite collection is a finite map from the document [$id] to the
      document. [listDocuments] filters it and honours [Query.limit]; the
      documents come in one fixed order.
    - A [TransactionState] is the string the document store holds: the
      TypeScript type is a union of string literals, and the code writes
      [status as TransactionState], a cast that converts nothing.
    - [Date.now()] is an argument [now] of every operation, read once per
      operation; [ID.unique()] and the random suffixes are arguments too.
    - The payout processor is a record of functions answering each request
      with a payout entity or with a thrown value; the calls made are kept
      in a trace.
    - A thrown value is an [Exn], and every [try]/[catch] of the source is a
      [match] on it. The store throws on [createDocument] with a taken
      [$id] and on [getDocument] with a missing one, and nowhere else.
    - A JavaScript number is a [number]: a finite double, given by its
      exact value, NaN or an infinity; a product is rounded to the nearest
      double. The functions on amounts take numbers. A submission takes a
      finite amount in rupees, and the amounts in paise that requests and
      documents carry are integers.
    - The JSON text of [stateHistory] is the list of transition records it
      encodes. *)

From stdpp Require Import gmap strings list fin_maps pretty.
From Stdlib Require Import ZArith QArith Qround Qabs.

Open Scope string_scope.
Open Scope list_scope.
Open Scope Z_scope.

(** ** State machine configuration *)

Module StateMachine.

(** [declare type TransactionState] of [src/types/index.d.ts]. *)
Definition TransactionState := string.

Definition TransactionState_values : list TransactionState :=
  [ "initiated"; "submitted"; "queued"; "pending"; "processing"; "completed";
    "failed"; "reversed"; "cancelled"; "refund_pending"; "refund_completed" ].

(** Membership in the declared enum. *)
Definition is_TransactionState (s : string) : bool :=
  bool_decide (s ∈ TransactionState_values).

(** [VALID_TRANSITIONS]: key = current state, value = valid next states.
    The JavaScript object is read through its own keys only. *)
Definition VALID_TRANSITIONS : gmap TransactionState (list TransactionState) :=
  list_to_map
    [ ("initiated", ["submitted"; "queued"; "pending"; "failed"; "cancelled"]);
      ("submitted", ["queued"; "pending"; "failed"; "cancelled"]);
      ("queued", ["pending"; "processing"; "cancelled"; "failed"]);
      ("pending", ["processing"; "completed"; "failed"; "reversed"]);
      ("processing", ["completed"; "failed"; "reversed"]);
      ("completed", ["reversed"; "refund_pending"]);
      ("failed", []);
      ("reversed", []);
      ("cancelled", []);
      ("refund_pending", ["refund_completed"; "failed"]);
      ("refund_completed", []) ].

Definition TERMINAL_STATES : list TransactionState :=
  [ "completed"; "failed"; "reversed"; "cancelled"; "refund_completed" ].

(** [Array.prototype.includes] on an array of strings. *)
Definition includes (l : list string) (x : string) : bool :=
  bool_decide (x ∈ l).

(** [validNextStates?.includes(toState) ?? false] *)
Definition isValidTransition (fromState toState : TransactionState) : bool :=
  match VALID_TRANSITIONS !! fromState with
  | Some validNextStates => includes validNextStates toState
  | None => false
  end.

Definition isTerminalState (state : TransactionState) : bool :=
  includes TERMINAL_STATES state.

(** [RETRY_CONFIG] *)
Record RetryConfig := {
  maxRetries : Z;
  initialDelayMs : Z;
  maxDelayMs : Z;
  backoffMultiplier : Z
}.

Definition RETRY_CONFIG : RetryConfig :=
  {| maxRetries := 3;
     initialDelayMs := 60000;
     maxDelayMs := 3600000;
     backoffMultiplier := 2 |}.

(** [Math.min(initialDelayMs * Math.pow(backoffMultiplier, retryCount),
    maxDelayMs)]; the retry count is a non-negative integer at every call. *)
Definition calculateRetryDelay (retryCount : Z) : Z :=
  let delay := initialDelayMs RETRY_CONFIG
               * backoffMultiplier RETRY_CONFIG ^ retryCount in
  Z.min delay (maxDelayMs RETRY_CONFIG).

(** The transition table as the specification prints it (section 4.1),
    one pair per directed edge. *)
Definition spec_transition_table : list (TransactionState * TransactionState) :=
  [ ("initiated", "submitted"); ("initiated", "queued"); ("initiated", "pending");
    ("initiated", "failed"); ("initiated", "cancelled");
    ("submitted", "queued"); ("submitted", "pending"); ("submitted", "failed");
    ("submitted", "cancelled");
    ("queued", "pending"); ("queued", "processing"); ("queued", "cancelled");
    ("queued", "failed");
    ("pending", "processing"); ("pending", "completed"); ("pending", "failed");
    ("pending", "reversed");
    ("processing", "completed"); ("processing", "failed");
    ("processing", "reversed");
    ("completed", "reversed"); ("completed", "refund_pending");
    ("refund_pending", "refund_completed"); ("refund_pending", "failed") ].

(** The terminal-state set as the specification prints it (section 4.1). *)
Definition spec_terminal_states : list TransactionState :=
  [ "failed"; "reversed"; "cancelled"; "refund_completed" ].

End StateMachine.

Import StateMachine.

(** ** Data model *)

(** A value thrown in the source: an [Error] with its [message], or any
    other value ([error instanceof Error] is false). *)
Inductive Exn :=
| JsError (message : string)
| JsThrown.

(** [error instanceof Error ? error.message : fallback] *)
Definition message_or (fallback : string) (e : Exn) : string :=
  match e with
  | JsError m => m
  | JsThrown => fallback
  end.

(** JavaScript truthiness of an optional string: present and not empty. *)
Definition truthy (o : option string) : bool :=
  match o with
  | Some s => bool_decide (s ≠ "")
  | None => false
  end.

(** [x || undefined] on an optional string. *)
Definition or_undefined (o : option string) : option string :=
  if truthy o then o else None.

Inductive PayoutMode := NEFT | RTGS | IMPS | UPI | card.

Definition PayoutMode_name (m : PayoutMode) : string :=
  match m with
  | NEFT => "NEFT" | RTGS => "RTGS" | IMPS => "IMPS" | UPI => "UPI"
  | card => "card"
  end.

Inductive TransitionSource := user | system | webhook | reconciliation.

(** [status_details] of a payout entity. *)
Record StatusDetails := {
  sd_source : string;
  sd_reason : string;
  sd_description : string
}.

(** Values held by the [metadata] bag of a transition record. *)
Inductive MetaValue :=
| MNull
| MString (s : string)
| MDetails (d : StatusDetails).

Definition meta_of (o : option string) : MetaValue :=
  match o with
  | Some s => MString s
  | None => MNull
  end.

Definition Metadata := list (string * MetaValue).

(** [StateTransition]: one entry of the transition history. *)
Record StateTransition := {
  fromState : TransactionState;
  toState : TransactionState;
  timestamp : Z;
  reason : option string;
  source : option TransitionSource;
  metadata : option Metadata
}.

(** [RazorpayPayout], the fields the core reads. *)
Module Payout.
Record t := mk {
  id : string;
  status : string;
  utr : option string;
  fees : Z;
  tax : Z;
  reference_id : option string;
  failure_reason : option string;
  status_details : option StatusDetails
}.
End Payout.

(** [CreatePayoutRequest] of the processor wrapper. *)
Module PayoutRequest.
Record t := mk {
  account_number : string;
  fund_account_id : option string;
  amount : Z;
  currency : string;
  mode : PayoutMode;
  purpose : string;
  queue_if_low_balance : bool;
  reference_id : string;
  narration : option string;
  notes : list (string * string)
}.
End PayoutRequest.

(** [IndianTransaction], the document of collection [transactions_india];
    its [$id] is the key it is stored under. *)
Module Txn.
Record t := mk {
  userId : string;
  transactionId : string;
  idempotencyKey : string;
  razorpayPayoutId : option string;
  razorpayContactId : option string;
  razorpayFundAccountId : option string;
  state : TransactionState;
  previousState : option TransactionState;
  stateHistory : list StateTransition;
  type : string;
  amount : Z;
  currency : string;
  mode : PayoutMode;
  purpose : string;
  beneficiaryName : string;
  beneficiaryBankAccountId : option string;
  beneficiaryVpa : option string;
  utr : option string;
  narration : option string;
  razorpayFees : option Z;
  razorpayTax : option Z;
  failureReason : option string;
  failureDescription : option string;
  retryCount : Z;
  maxRetries : Z;
  nextRetryAt : option Z;
  createdAt : Z;
  updatedAt : Z;
  submittedAt : option Z;
  completedAt : option Z;
  failedAt : option Z;
  metadata : option string
}.

Definition set_razorpayPayoutId (v : option string) (d : t) : t :=
  mk (userId d) (transactionId d) (idempotencyKey d) v (razorpayContactId d)
    (razorpayFundAccountId d) (state d) (previousState d) (stateHistory d)
    (type d) (amount d) (currency d) (mode d) (purpose d)
    (beneficiaryName d) (beneficiaryBankAccountId d) (beneficiaryVpa d)
    (utr d) (narration d) (razorpayFees d) (razorpayTax d) (failureReason d)
    (failureDescription d) (retryCount d) (maxRetries d) (nextRetryAt d)
    (createdAt d) (updatedAt d) (submittedAt d) (completedAt d) (failedAt d)
    (metadata d).

Definition set_state (v : TransactionState) (d : t) : t :=
  mk (userId d) (transactionId d) (idempotencyKey d) (razorpayPayoutId d)
    (razorpayContactId d) (razorpayFundAccountId d) v (previousState d)
    (stateHistory d) (type d) (amount d) (currency d) (mode d) (purpose d)
    (beneficiaryName d) (beneficiaryBankAccountId d) (beneficiaryVpa d)
    (utr d) (narration d) (razorpayFees d) (razorpayTax d) (failureReason d)
    (failureDescription d) (retryCount d) (maxRetries d) (nextRetryAt d)
    (createdAt d) (updatedAt d) (submittedAt d) (completedAt d) (failedAt d)
    (metadata d).

Definition set_previousState (v : option TransactionState) (d : t) : t :=
  mk (userId d) (transactionId d) (idempotencyKey d) (razorpayPayoutId d)
    (razorpayContactId d) (razorpayFundAccountId d) (state d) v
    (stateHistory d) (type d) (amount d) (currency d) (mode d) (purpose d)
    (beneficiaryName d) (beneficiaryBankAccountId d) (beneficiaryVpa d)
    (utr d) (narration d) (razorpayFees d) (razorpayTax d) (failureReason d)
    (failureDescription d) (retryCount d) (maxRetries d) (nextRetryAt d)
    (createdAt d) (updatedAt d) (submittedAt d) (completedAt d) (failedAt d)
    (metadata d).

Definition set_stateHistory (v : list StateTransition) (d : t) : t :=
  mk (userId d) (transactionId d) (idempotencyKey d) (razorpayPayoutId d)
    (razorpayContactId d) (razorpayFundAccountId d) (state d)
    (previousState d) v (type d) (amount d) (currency d) (mode d)
    (purpose d) (beneficiaryName d) (beneficiaryBankAccountId d)
    (beneficiaryVpa d) (utr d) (narration d) (razorpayFees d)
    (razorpayTax d) (failureReason d) (failureDescription d) (retryCount d)
    (maxRetries d) (nextRetryAt d) (createdAt d) (updatedAt d)
    (submittedAt d) (completedAt d) (failedAt d) (metadata d).

Definition set_utr (v : option string) (d : t) : t :=
  mk (userId d) (transactionId d) (idempotencyKey d) (razorpayPayoutId d)
    (razorpayContactId d) (razorpayFundAccountId d) (state d)
    (previousState d) (stateHistory d) (type d) (amount d) (currency d)
    (mode d) (purpose d) (beneficiaryName d) (beneficiaryBankAccountId d)
    (beneficiaryVpa d) v (narration d) (razorpayFees d) (razorpayTax d)
    (failureReason d) (failureDescription d) (retryCount d) (maxRetries d)
    (nextRetryAt d) (createdAt d) (updatedAt d) (submittedAt d)
    (completedAt d) (failedAt d) (metadata d).

Definition set_razorpayFees (v : option Z) (d : t) : t :=
  mk (userId d) (transactionId d) (idempotencyKey d) (razorpayPayoutId d)
    (razorpayContactId d) (razorpayFundAccountId d) (state d)
    (previousState d) (stateHistory d) (type d) (amount d) (currency d)
    (mode d) (purpose d) (beneficiaryName d) (beneficiaryBankAccountId d)
    (beneficiaryVpa d) (utr d) (narration d) v (razorpayTax d)
    (failureReason d) (failureDescription d) (retryCount d) (maxRetries d)
    (nextRetryAt d) (createdAt d) (updatedAt d) (submittedAt d)
    (completedAt d) (failedAt d) (metadata d).

Definition set_razorpayTax (v : option Z) (d : t) : t :=
  mk (userId d) (transactionId d) (idempotencyKey d) (razorpayPayoutId d)
    (razorpayContactId d) (razorpayFundAccountId d) (state d)
    (previousState d) (stateHistory d) (type d) (amount d) (currency d)
    (mode d) (purpose d) (beneficiaryName d) (beneficiaryBankAccountId d)
    (beneficiaryVpa d) (utr d) (narration d) (razorpayFees d) v
    (failureReason d) (failureDescription d) (retryCount d) (maxRetries d)
    (nextRetryAt d) (createdAt d) (updatedAt d) (submittedAt d)
    (completedAt d) (failedAt d) (metadata d).

Definition set_failureDescription (v : option string) (d : t) : t :=
  mk (userId d) (transactionId d) (idempotencyKey d) (razorpayPayoutId d)
    (razorpayContactId d) (razorpayFundAccountId d) (state d)
    (previousState d) (stateHistory d) (type d) (amount d) (currency d)
    (mode d) (purpose d) (beneficiaryName d) (beneficiaryBankAccountId d)
    (beneficiaryVpa d) (utr d) (narration d) (razorpayFees d)
    (razorpayTax d) (failureReason d) v (retryCount d) (maxRetries d)
    (nextRetryAt d) (createdAt d) (updatedAt d) (submittedAt d)
    (completedAt d) (failedAt d) (metadata d).

Definition set_retryCount (v : Z) (d : t) : t :=
  mk (userId d) (transactionId d) (idempotencyKey d) (razorpayPayoutId d)
    (razorpayContactId d) (razorpayFundAccountId d) (state d)
    (previousState d) (stateHistory d) (type d) (amount d) (currency d)
    (mode d) (purpose d) (beneficiaryName d) (beneficiaryBankAccountId d)
    (beneficiaryVpa d) (utr d) (narration d) (razorpayFees d)
    (razorpayTax d) (failureReason d) (failureDescription d) v
    (maxRetries d) (nextRetryAt d) (createdAt d) (updatedAt d)
    (submittedAt d) (completedAt d) (failedAt d) (metadata d).

Definition set_nextRetryAt (v : option Z) (d : t) : t :=
  mk (userId d) (transactionId d) (idempotencyKey d) (razorpayPayoutId d)
    (razorpayContactId d) (razorpayFundAccountId d) (state d)
    (previousState d) (stateHistory d) (type d) (amount d) (currency d)
    (mode d) (purpose d) (beneficiaryName d) (beneficiaryBankAccountId d)
    (beneficiaryVpa d) (utr d) (narration d) (razorpayFees d)
    (razorpayTax d) (failureReason d) (failureDescription d) (retryCount d)
    (maxRetries d) v (createdAt d) (updatedAt d) (submittedAt d)
    (completedAt d) (failedAt d) (metadata d).

Definition set_updatedAt (v : Z) (d : t) : t :=
  mk (userId d) (transactionId d) (idempotencyKey d) (razorpayPayoutId d)
    (razorpayContactId d) (razorpayFundAccountId d) (state d)
    (previousState d) (stateHistory d) (type d) (amount d) (currency d)
    (mode d) (purpose d) (beneficiaryName d) (beneficiaryBankAccountId d)
    (beneficiaryVpa d) (utr d) (narration d) (razorpayFees d)
    (razorpayTax d) (failureReason d) (failureDescription d) (retryCount d)
    (maxRetries d) (nextRetryAt d) (createdAt d) v (submittedAt d)
    (completedAt d) (failedAt d) (metadata d).

Definition set_submittedAt (v : option Z) (d : t) : t :=
  mk (userId d) (transactionId d) (idempotencyKey d) (razorpayPayoutId d)
    (razorpayContactId d) (razorpayFundAccountId d) (state d)
    (previousState d) (stateHistory d) (type d) (amount d) (currency d)
    (mode d) (purpose d) (beneficiaryName d) (beneficiaryBankAccountId d)
    (beneficiaryVpa d) (utr d) (narration d) (razorpayFees d)
    (razorpayTax d) (failureReason d) (failureDescription d) (retryCount d)
    (maxRetries d) (nextRetryAt d) (createdAt d) (updatedAt d) v
    (completedAt d) (failedAt d) (metadata d).

Definition set_completedAt (v : option Z) (d : t) : t :=
  mk (userId d) (transactionId d) (idempotencyKey d) (razorpayPayoutId d)
    (razorpayContactId d) (razorpayFundAccountId d) (state d)
    (previousState d) (stateHistory d) (type d) (amount d) (currency d)
    (mode d) (purpose d) (beneficiaryName d) (beneficiaryBankAccountId d)
    (beneficiaryVpa d) (utr d) (narration d) (razorpayFees d)
    (razorpayTax d) (failureReason d) (failureDescription d) (retryCount d)
    (maxRetries d) (nextRetryAt d) (createdAt d) (updatedAt d)
    (submittedAt d) v (failedAt d) (metadata d).

Definition set_failedAt (v : option Z) (d : t) : t :=
  mk (userId d) (transactionId d) (idempotencyKey d) (razorpayPayoutId d)
    (razorpayContactId d) (razorpayFundAccountId d) (state d)
    (previousState d) (stateHistory d) (type d) (amount d) (currency d)
    (mode d) (purpose d) (beneficiaryName d) (beneficiaryBankAccountId d)
    (beneficiaryVpa d) (utr d) (narration d) (razorpayFees d)
    (razorpayTax d) (failureReason d) (failureDescription d) (retryCount d)
    (maxRetries d) (nextRetryAt d) (createdAt d) (updatedAt d)
    (submittedAt d) (completedAt d) v (metadata d).

End Txn.

(** [WebhookEventRecord], the document of collection [webhook_events]. *)
Module Evt.
Record t := mk {
  eventId : string;
  eventType : string;
  payloadHash : string;
  processed : bool;
  createdAt : Z;
  processedAt : option Z;
  transactionId : option string;
  error : option string
}.
End Evt.

(** [RazorpayFundAccountRecord], the document of collection
    [razorpay_fund_accounts]. *)
Module FundAccount.
Record t := mk {
  userId : string;
  razorpayFundAccountId : string;
  razorpayContactId : string;
  bankAccountId : option string;
  accountHolderName : option string;
  vpaAddress : option string;
  active : bool
}.
End FundAccount.

(** [RazorpayWebhookEvent]: the parsed webhook body. *)
Module WebhookEvent.
Record t := mk {
  account_id : string;
  event : string;
  payout : option Payout.t;
  created_at : Z
}.
End WebhookEvent.

(** ** The document store and the payout processor *)

(** Calls made to the payout processor, in the order they were made. *)
Inductive ApiCall :=
| CreatePayout (request : PayoutRequest.t)
| GetPayout (payoutId : string)
| CancelPayout (payoutId : string).

(** The processor's answer to each call: a payout entity, or a throw. *)
Record RazorpayX := {
  createPayout : PayoutRequest.t → Exn + Payout.t;
  getPayout : string → Exn + Payout.t;
  cancelPayout : string → Exn + Payout.t
}.

(** The [reference_id] the wrapper [createPayout] puts in the request
    body: [params.reference_id || `payout_${Date.now()}_${random}`], the
    caller's unless it is empty. *)
Definition sent_reference_id (minted : string) (request : PayoutRequest.t)
    : string :=
  if bool_decide (PayoutRequest.reference_id request = "") then minted
  else PayoutRequest.reference_id request.

(** Everything the operations read and write: the three collections and
    the trace of processor calls. *)
Record World := mkWorld {
  transactions_india : gmap string Txn.t;
  webhook_events : gmap string Evt.t;
  razorpay_fund_accounts : gmap string FundAccount.t;
  api_calls : list ApiCall
}.

Definition with_transactions (f : gmap string Txn.t → gmap string Txn.t)
    (w : World) : World :=
  mkWorld (f (transactions_india w)) (webhook_events w)
    (razorpay_fund_accounts w) (api_calls w).

Definition with_events (f : gmap string Evt.t → gmap string Evt.t)
    (w : World) : World :=
  mkWorld (transactions_india w) (f (webhook_events w))
    (razorpay_fund_accounts w) (api_calls w).

(** The processor is called: the call is appended to the trace. *)
Definition called (c : ApiCall) (w : World) : World :=
  mkWorld (transactions_india w) (webhook_events w)
    (razorpay_fund_accounts w) (api_calls w ++ [c]).

(** [database.listDocuments(db, collection, [...queries, Query.limit(n)])]:
    the documents satisfying the queries, at most [limit] of them, each with
    its [$id]. *)
Definition listDocuments {A} (collection : gmap string A) (query : A → bool)
    (limit : nat) : list (string * A) :=
  take limit (List.filter (λ d, query d.2) (map_to_list collection)).

(** [database.updateDocument(db, collection, $id, data)]: the fields named
    in [data] are overwritten, the others are kept. [data] is the list of
    its field assignments. *)
Definition updateDocument {A} (id : string) (data : list (A → A))
    (collection : gmap string A) : gmap string A :=
  alter (λ d, foldl (λ d set, set d) d data) id collection.

(** [database.createDocument(db, collection, $id, data)]: throws when the
    [$id] is taken. *)
Definition createDocument {A} (id : string) (data : A)
    (collection : gmap string A) : option (gmap string A) :=
  match collection !! id with
  | Some _ => None
  | None => Some (<[id := data]> collection)
  end.

(** [Query.equal('transactionId', transactionId)] *)
Definition by_transactionId (transactionId : string) (t : Txn.t) : bool :=
  bool_decide (Txn.transactionId t = transactionId).

(** The stored state of the document [$id], when there is one. *)
Definition stored_state (w : World) (id : string) : option TransactionState :=
  Txn.state <$> transactions_india w !! id.

(** ** State transition action *)

(** [{ success, transaction?, error? }] *)
Inductive TransitionResult :=
| TransitionOk (transaction : Txn.t)
| TransitionError (error : string).

Definition transition_success (r : TransitionResult) : bool :=
  match r with
  | TransitionOk _ => true
  | TransitionError _ => false
  end.

Definition transition_error (r : TransitionResult) : option string :=
  match r with
  | TransitionOk _ => None
  | TransitionError e => Some e
  end.

(** The timestamp fields [transitionState] sets with the new state. *)
Definition terminal_timestamps (now : Z) (newState : TransactionState)
    (reason : option string) : list (Txn.t → Txn.t) :=
  if bool_decide (newState = "completed")
     || bool_decide (newState = "refund_completed")
  then [Txn.set_completedAt (Some now)]
  else if includes ["failed"; "reversed"; "cancelled"] newState
  then Txn.set_failedAt (Some now)
       :: (if truthy reason then [Txn.set_failureDescription reason] else [])
  else [].

Definition transitionState (now : Z) (transactionId : string)
    (newState : TransactionState) (reason : option string)
    (source : option TransitionSource) (metadata : option Metadata)
    (w : World) : TransitionResult * World :=
  let source := default system source in
  match listDocuments (transactions_india w) (by_transactionId transactionId) 1 with
  | [] => (TransitionError "Transaction not found", w)
  | (id, transaction) :: _ =>
    let currentState := Txn.state transaction in
    if negb (isValidTransition currentState newState) then
      (TransitionError
         ("Invalid state transition from " +:+ currentState +:+ " to "
          +:+ newState), w)
    else
      let stateHistory :=
        Txn.stateHistory transaction ++
        [ {| fromState := currentState;
             toState := newState;
             timestamp := now;
             reason := reason;
             source := Some source;
             metadata := metadata |} ] in
      let updateData :=
        [ Txn.set_state newState;
          Txn.set_previousState (Some currentState);
          Txn.set_stateHistory stateHistory;
          Txn.set_updatedAt now ]
        ++ terminal_timestamps now newState reason in
      let w' := with_transactions (updateDocument id updateData) w in
      match transactions_india w' !! id with
      | Some updated => (TransitionOk updated, w')
      | None => (TransitionError "Failed to transition state", w')
      end
  end.

(** ** Retry logic *)

Module RetryResult.
Record t := mk {
  success : bool;
  newState : option TransactionState;
  error : option string
}.
End RetryResult.

(** [getTransactionsForRetry]: state submitted or failed, [nextRetryAt]
    set and due, retry count below the maximum; at most 50. *)
Definition due_for_retry (now : Z) (t : Txn.t) : bool :=
  includes ["submitted"; "failed"] (Txn.state t)
  && match Txn.nextRetryAt t with
     | Some nextRetryAt => bool_decide (nextRetryAt ≤ now)
     | None => false
     end
  && bool_decide (Txn.retryCount t < maxRetries RETRY_CONFIG).

Definition getTransactionsForRetry (now : Z) (w : World) : list Txn.t :=
  snd <$> listDocuments (transactions_india w) (due_for_retry now) 50.

Section Retry.

(** [process.env.RAZORPAY_ACCOUNT_NUMBER] *)
Variable RAZORPAY_ACCOUNT_NUMBER : string.

Definition retry_request (transactionId : string) (transaction : Txn.t)
    (newRetryCount : Z) : PayoutRequest.t :=
  {| PayoutRequest.account_number := RAZORPAY_ACCOUNT_NUMBER;
     PayoutRequest.fund_account_id := Txn.razorpayFundAccountId transaction;
     PayoutRequest.amount := Txn.amount transaction;
     PayoutRequest.currency := "INR";
     PayoutRequest.mode := Txn.mode transaction;
     PayoutRequest.purpose := Txn.purpose transaction;
     PayoutRequest.queue_if_low_balance := true;
     PayoutRequest.reference_id := Txn.idempotencyKey transaction;
     PayoutRequest.narration := or_undefined (Txn.narration transaction);
     PayoutRequest.notes :=
       [("transactionId", transactionId); ("retry", pretty newRetryCount)] |}.

Definition retryTransaction (now : Z) (api : RazorpayX)
    (transactionId : string) (w : World) : RetryResult.t * World :=
  match listDocuments (transactions_india w) (by_transactionId transactionId) 1 with
  | [] => (RetryResult.mk false None (Some "Transaction not found"), w)
  | (id, transaction) :: _ =>
    if negb (includes ["submitted"; "failed"] (Txn.state transaction)) then
      (RetryResult.mk false None
         (Some ("Transaction in " +:+ Txn.state transaction
                +:+ " state is not retryable")), w)
    else if bool_decide (maxRetries RETRY_CONFIG ≤ Txn.retryCount transaction) then
      (RetryResult.mk false None (Some "Maximum retry attempts reached"), w)
    else
      let newRetryCount := Txn.retryCount transaction + 1 in
      let request := retry_request transactionId transaction newRetryCount in
      let w := called (CreatePayout request) w in
      match createPayout api request with
      | inr razorpayPayout =>
        let newState :=
          if bool_decide (Payout.status razorpayPayout = "processed")
          then "completed" else Payout.status razorpayPayout in
        let stateHistory :=
          Txn.stateHistory transaction ++
          [ {| fromState := Txn.state transaction;
               toState := newState;
               timestamp := now;
               reason := Some ("Retry " +:+ pretty newRetryCount);
               source := Some system;
               metadata :=
                 Some [("razorpayPayoutId", MString (Payout.id razorpayPayout))] |} ] in
        let updateData :=
          [ Txn.set_razorpayPayoutId (Some (Payout.id razorpayPayout));
            Txn.set_state newState;
            Txn.set_previousState (Some (Txn.state transaction));
            Txn.set_stateHistory stateHistory;
            Txn.set_retryCount newRetryCount;
            Txn.set_utr (Payout.utr razorpayPayout);
            Txn.set_razorpayFees (Some (Payout.fees razorpayPayout));
            Txn.set_razorpayTax (Some (Payout.tax razorpayPayout));
            Txn.set_updatedAt now ]
          ++ (if bool_decide (newState = "completed")
              then [Txn.set_completedAt (Some now)] else []) in
        (RetryResult.mk true (Some newState) None,
         with_transactions (updateDocument id updateData) w)
      | inl payoutError =>
        let nextRetryAt := now + calculateRetryDelay newRetryCount in
        let failedPermanently :=
          bool_decide (maxRetries RETRY_CONFIG ≤ newRetryCount) in
        let stateHistory :=
          Txn.stateHistory transaction ++
          [ {| fromState := Txn.state transaction;
               toState := if failedPermanently then "failed"
                          else Txn.state transaction;
               timestamp := now;
               reason := Some ("Retry " +:+ pretty newRetryCount +:+ " failed: "
                               +:+ message_or "Unknown error" payoutError);
               source := Some system;
               metadata := None |} ] in
        let updateData :=
          [ Txn.set_retryCount newRetryCount;
            Txn.set_nextRetryAt
              (if failedPermanently then None else Some nextRetryAt);
            Txn.set_state
              (if failedPermanently then "failed" else Txn.state transaction);
            Txn.set_stateHistory stateHistory;
            Txn.set_failureDescription
              (Some (message_or "Unknown error" payoutError));
            Txn.set_updatedAt now ]
          ++ (if failedPermanently then [Txn.set_failedAt (Some now)] else []) in
        (RetryResult.mk false
           (if failedPermanently then Some "failed" else None)
           (Some (message_or "Retry failed" payoutError)),
         with_transactions (updateDocument id updateData) w)
      end
  end.

(** [processRetries]: the counters of one run and the per-item errors.
    The store answers every query in the embedding, so the run embedded is
    the one that reaches the final [return], with [success: true]; the two
    returns with [success: false], after a failed [getTransactionsForRetry]
    and in the [catch], are not embedded. *)
Record RetrySummary := {
  rs_success : bool;
  rs_processed : Z;
  rs_succeeded : Z;
  rs_failed : Z;
  rs_errors : list string
}.

Definition retry_each (now : Z) (api : RazorpayX)
    (acc : RetrySummary * World) (transaction : Txn.t) : RetrySummary * World :=
  let '(s, w) := acc in
  let '(retryResult, w) :=
    retryTransaction now api (Txn.transactionId transaction) w in
  if RetryResult.success retryResult then
    ({| rs_success := rs_success s;
        rs_processed := rs_processed s + 1;
        rs_succeeded := rs_succeeded s + 1;
        rs_failed := rs_failed s;
        rs_errors := rs_errors s |}, w)
  else
    ({| rs_success := rs_success s;
        rs_processed := rs_processed s + 1;
        rs_succeeded := rs_succeeded s;
        rs_failed := rs_failed s + 1;
        rs_errors :=
          rs_errors s ++
          [ Txn.transactionId transaction +:+ ": "
            +:+ default "undefined" (RetryResult.error retryResult) ] |}, w).

Definition processRetries (now : Z) (api : RazorpayX) (w : World)
    : RetrySummary * World :=
  foldl (retry_each now api)
    ({| rs_success := true; rs_processed := 0; rs_succeeded := 0;
        rs_failed := 0; rs_errors := [] |}, w)
    (getTransactionsForRetry now w).

End Retry.

(** ** Reconciliation *)

Module Reconciliation.
Record t := mk {
  transactionId : string;
  previousState : TransactionState;
  newState : TransactionState;
  source : string;
  reconciled : bool;
  discrepancy : option string
}.
End Reconciliation.

(** The [switch] of [reconcileTransaction] on the processor's status. *)
Definition reconciled_state (status : string) : TransactionState :=
  if bool_decide (status = "processed") then "completed"
  else if bool_decide (status = "rejected") then "failed"
  else status.

Definition reconcileTransaction (now : Z) (api : RazorpayX)
    (transactionId : string) (w : World) : Reconciliation.t * World :=
  match listDocuments (transactions_india w) (by_transactionId transactionId) 1 with
  | [] =>
    (Reconciliation.mk transactionId "initiated" "initiated" "razorpay_sync"
       false (Some "Transaction not found"), w)
  | (id, transaction) :: _ =>
    let previousState := Txn.state transaction in
    if negb (truthy (Txn.razorpayPayoutId transaction)) then
      (Reconciliation.mk transactionId previousState previousState
         "razorpay_sync" true (Some "No Razorpay payout ID - local only"), w)
    else
      let payoutId := default "" (Txn.razorpayPayoutId transaction) in
      let w := called (GetPayout payoutId) w in
      match getPayout api payoutId with
      | inl error =>
        (Reconciliation.mk transactionId "initiated" "initiated"
           "razorpay_sync" false
           (Some (message_or "Reconciliation failed" error)), w)
      | inr razorpayPayout =>
        let razorpayState := reconciled_state (Payout.status razorpayPayout) in
        if bool_decide (razorpayState = previousState) then
          (Reconciliation.mk transactionId previousState previousState
             "razorpay_sync" true None, w)
        else if isValidTransition previousState razorpayState then
          let '(result, w) :=
            transitionState now transactionId razorpayState
              (Some ("Reconciled from Razorpay status: "
                     +:+ Payout.status razorpayPayout))
              (Some reconciliation)
              (Some [ ("razorpayStatus", MString (Payout.status razorpayPayout));
                      ("utr", meta_of (Payout.utr razorpayPayout));
                      ("failure_reason",
                       meta_of (Payout.failure_reason razorpayPayout)) ])
              w in
          (Reconciliation.mk transactionId previousState razorpayState
             "razorpay_sync" (transition_success result)
             (if transition_success result
              then Some ("State updated from " +:+ previousState +:+ " to "
                         +:+ razorpayState)
              else transition_error result), w)
        else
          (Reconciliation.mk transactionId previousState previousState
             "razorpay_sync" false
             (Some ("Invalid transition from " +:+ previousState +:+ " to "
                    +:+ razorpayState +:+ " (Razorpay: "
                    +:+ Payout.status razorpayPayout +:+ ")")), w)
      end
  end.

Record ReconciliationSummary := {
  rec_total : Z;
  rec_reconciled : Z;
  rec_discrepancies : Z;
  rec_results : list Reconciliation.t
}.

(** The query of [reconcileAllPending]. *)
Definition pending_with_payout (t : Txn.t) : bool :=
  includes ["submitted"; "queued"; "pending"; "processing"] (Txn.state t)
  && bool_decide (is_Some (Txn.razorpayPayoutId t)).

Definition reconcile_each (now : Z) (api : RazorpayX)
    (acc : ReconciliationSummary * World) (doc : string * Txn.t)
    : ReconciliationSummary * World :=
  let '(s, w) := acc in
  let '(result, w) :=
    reconcileTransaction now api (Txn.transactionId doc.2) w in
  ({| rec_total := rec_total s;
      rec_reconciled :=
        if Reconciliation.reconciled result then rec_reconciled s + 1
        else rec_reconciled s;
      rec_discrepancies :=
        if Reconciliation.reconciled result then rec_discrepancies s
        else rec_discrepancies s + 1;
      rec_results := rec_results s ++ [result] |}, w).

Definition reconcileAllPending (now : Z) (api : RazorpayX) (w : World)
    : ReconciliationSummary * World :=
  let documents :=
    listDocuments (transactions_india w) pending_with_payout 100 in
  foldl (reconcile_each now api)
    ({| rec_total := Z.of_nat (length documents); rec_reconciled := 0;
        rec_discrepancies := 0; rec_results := [] |}, w)
    documents.

(** ** Webhook processor *)

Definition PAYOUT_EVENTS : list string :=
  [ "payout.queued"; "payout.pending"; "payout.processing"; "payout.processed";
    "payout.reversed"; "payout.cancelled"; "payout.rejected"; "payout.failed" ].

Definition isPayoutEvent (eventType : string) : bool :=
  includes PAYOUT_EVENTS eventType.

Definition mapPayoutStatusToState (status : string) : TransactionState :=
  if bool_decide (status = "queued") then "queued"
  else if bool_decide (status = "pending") then "pending"
  else if bool_decide (status = "processing") then "processing"
  else if bool_decide (status = "processed") then "completed"
  else if bool_decide (status = "reversed") then "reversed"
  else if bool_decide (status = "cancelled") then "cancelled"
  else if bool_decide (status = "rejected") then "failed"
  else if bool_decide (status = "failed") then "failed"
  else "pending".

(** [{ success, transactionId?, error? }] *)
Module Processing.
Record t := mk {
  success : bool;
  transactionId : option string;
  error : option string
}.
End Processing.

(** The metadata [processPayoutEvent] builds from the payout entity. *)
Definition payout_metadata (payout : Payout.t) : Metadata :=
  [ ("razorpayPayoutId", MString (Payout.id payout));
    ("razorpayStatus", MString (Payout.status payout)) ]
  ++ (if truthy (Payout.utr payout)
      then [("utr", meta_of (Payout.utr payout))] else [])
  ++ (if truthy (Payout.failure_reason payout)
      then [("failureReason", meta_of (Payout.failure_reason payout))] else [])
  ++ match Payout.status_details payout with
     | Some details => [("statusDetails", MDetails details)]
     | None => []
     end.

Definition processPayoutEvent (now : Z) (event : WebhookEvent.t) (w : World)
    : Processing.t * World :=
  match WebhookEvent.payout event with
  | None => (Processing.mk false None (Some "No payout entity in event"), w)
  | Some payout =>
    let transactions :=
      listDocuments (transactions_india w)
        (λ t, bool_decide (Txn.razorpayPayoutId t = Some (Payout.id payout))) 1 in
    let transactions :=
      match transactions, truthy (Payout.reference_id payout) with
      | [], true =>
        listDocuments (transactions_india w)
          (λ t, bool_decide
                  (Some (Txn.idempotencyKey t) = Payout.reference_id payout)) 1
      | _, _ => transactions
      end in
    match transactions with
    | [] =>
      (Processing.mk false None
         (Some ("Transaction not found for payout " +:+ Payout.id payout)), w)
    | (id, transaction) :: _ =>
      let newState := mapPayoutStatusToState (Payout.status payout) in
      if bool_decide (newState = Txn.state transaction) then
        (Processing.mk true (Some (Txn.transactionId transaction)) None, w)
      else if negb (isValidTransition (Txn.state transaction) newState) then
        (Processing.mk false (Some (Txn.transactionId transaction))
           (Some ("Invalid transition from " +:+ Txn.state transaction
                  +:+ " to " +:+ newState)), w)
      else
        let '(result, w) :=
          transitionState now (Txn.transactionId transaction) newState
            (Some ("Webhook: " +:+ WebhookEvent.event event))
            (Some webhook) (Some (payout_metadata payout)) w in
        if negb (transition_success result) then
          (Processing.mk false (Some (Txn.transactionId transaction))
             (transition_error result), w)
        else
          let data :=
            [ Txn.set_razorpayPayoutId (Some (Payout.id payout));
              Txn.set_utr (Payout.utr payout);
              Txn.set_razorpayFees (Some (Payout.fees payout));
              Txn.set_razorpayTax (Some (Payout.tax payout)) ]
            ++ (if truthy (Payout.failure_reason payout)
                then [Txn.set_failureDescription (Payout.failure_reason payout)]
                else []) in
          (Processing.mk true (Some (Txn.transactionId transaction)) None,
           with_transactions (updateDocument id data) w)
    end
  end.

(** The body of a [NextResponse.json] answer of the webhook route. *)
Inductive ResponseBody :=
| ErrorBody (error : string)
| SuccessBody (message : string) (eventId transactionId error : option string).

Record Response := {
  http_status : Z;
  body : ResponseBody
}.

Definition json (b : ResponseBody) : Response :=
  {| http_status := 200; body := b |}.

(** The two answers that are not success-shaped. *)
Definition missing_signature : Response :=
  {| http_status := 400; body := ErrorBody "Missing signature header" |}.

Definition invalid_signature : Response :=
  {| http_status := 401; body := ErrorBody "Invalid signature" |}.

(** The answer of a delivery whose event record is already stored. *)
Definition already_processed (eventId : string) : Response :=
  json (SuccessBody "Event already processed" (Some eventId) None None).

(** The exception of [createDocument] on a taken [$id]. *)
Definition document_exists : Exn :=
  JsError "Document with the requested ID already exists.".

(** The exception of [getDocument] on a missing [$id]. *)
Definition document_missing : Exn :=
  JsError "Document with the requested ID could not be found.".

Section Webhook.

(** [verifyWebhookSignature(rawBody, signature)] of the processor wrapper:
    an HMAC check; it throws when no webhook secret is configured. *)
Variable verifyWebhookSignature : string → string → Exn + bool.

(** [JSON.parse(rawBody) as RazorpayWebhookEvent]: throws on a body that
    is not a well-formed event. *)
Variable JSON_parse : string → Exn + WebhookEvent.t.

(** [crypto.createHash('sha256').update(s).digest('hex')] *)
Variable sha256_hex : string → string.

(** [parts.join(':')], hashed, first 32 hex digits. *)
Definition generateEventId (event : WebhookEvent.t) : string :=
  let payout_id :=
    match WebhookEvent.payout event with
    | Some payout =>
      if bool_decide (Payout.id payout = "") then "unknown" else Payout.id payout
    | None => "unknown"
    end in
  let parts :=
    [ WebhookEvent.account_id event;
      WebhookEvent.event event;
      payout_id;
      pretty (WebhookEvent.created_at event) ] in
  String.substring 0 32 (sha256_hex (String.concat ":" parts)).

Definition hashPayload (payload : string) : string :=
  sha256_hex payload.

(** The [catch] of [POST]: success-shaped whatever was thrown. *)
Definition error_occurred (e : Exn) : Response :=
  json (SuccessBody "Event received but an error occurred" None None
          (Some (message_or "Unknown error" e))).

(** [POST]: one webhook delivery. [signature] is what
    [request.headers.get('x-razorpay-signature')] returns, absent or a
    string; [!signature] holds of the absent and of the empty one. [newId]
    is the [ID.unique()] of the event record. *)
Definition POST (newId : string) (now : Z) (rawBody : string)
    (signature : option string) (w : World) : Response * World :=
  if negb (truthy signature) then (missing_signature, w)
  else
    let signature := default "" signature in
    match verifyWebhookSignature rawBody signature with
    | inl e => (error_occurred e, w)
    | inr false => (invalid_signature, w)
    | inr true =>
      match JSON_parse rawBody with
      | inl e => (error_occurred e, w)
      | inr event =>
        let eventId := generateEventId event in
        let existingEvents :=
          listDocuments (webhook_events w)
            (λ r, bool_decide (Evt.eventId r = eventId)) 1 in
        match existingEvents with
        | _ :: _ => (already_processed eventId, w)
        | [] =>
          let record :=
            {| Evt.eventId := eventId;
               Evt.eventType := WebhookEvent.event event;
               Evt.payloadHash := hashPayload rawBody;
               Evt.processed := false;
               Evt.createdAt := now;
               Evt.processedAt := None;
               Evt.transactionId := None;
               Evt.error := None |} in
          match createDocument newId record (webhook_events w) with
          | None => (error_occurred document_exists, w)
          | Some events =>
            let w := with_events (λ _, events) w in
            let '(processingResult, w) :=
              if isPayoutEvent (WebhookEvent.event event)
              then processPayoutEvent now event w
              else (Processing.mk true None None, w) in
            let w :=
              with_events
                (updateDocument newId
                   [ λ r, Evt.mk (Evt.eventId r) (Evt.eventType r)
                            (Evt.payloadHash r)
                            (Processing.success processingResult)
                            (Evt.createdAt r) (Some now)
                            (Processing.transactionId processingResult)
                            (Processing.error processingResult) ]) w in
            if negb (Processing.success processingResult) then
              (json (SuccessBody "Event received but processing failed" None
                       None (Processing.error processingResult)), w)
            else
              (json (SuccessBody "Event processed successfully" (Some eventId)
                       (Processing.transactionId processingResult) None), w)
          end
        end
      end
    end.

End Webhook.

(** ** Payout submitter *)

(** A JavaScript number as the functions on amounts meet it: a finite
    double, given by its exact value, or NaN or an infinity. The two zeros
    are one. *)
Inductive number :=
| NaN
| Infinity
| NegInfinity
| Finite (q : Q).

(** [a < b] and [a <= b]: false as soon as one of the two is NaN. *)
Definition number_lt (a b : number) : bool :=
  match a, b with
  | NaN, _ | _, NaN => false
  | Infinity, _ | _, NegInfinity => false
  | NegInfinity, _ | _, Infinity => true
  | Finite p, Finite q => negb (Qle_bool q p)
  end.

Definition number_le (a b : number) : bool :=
  match a, b with
  | NaN, _ | _, NaN => false
  | NegInfinity, _ | _, Infinity => true
  | Infinity, _ | _, NegInfinity => false
  | Finite p, Finite q => Qle_bool p q
  end.

(** Two to the power [e], [e] of either sign. *)
Definition pow2 (e : Z) : Q :=
  if 0 <=? e then inject_Z (2 ^ e) else 1 # Z.to_pos (2 ^ (- e)).

(** The integer part of the binary logarithm of a positive rational. *)
Definition floor_log2 (q : Q) : Z :=
  let k := Z.log2 (Qnum q) - Z.log2 (Z.pos (Qden q)) in
  if Qle_bool (pow2 k) q then k else k - 1.

(** The nearest integer, a half going to the even neighbour. *)
Definition nearest_even (x : Q) : Z :=
  let below := Qfloor x in
  match Qcompare (x - inject_Z below)%Q (1 # 2) with
  | Lt => below
  | Gt => below + 1
  | Eq => if Z.even below then below else below + 1
  end.

(** The double nearest to a rational, as every arithmetic operation of
    JavaScript rounds its exact result: 53 significant bits, ties to the
    even significand, exponents from -1022 (below, the subnormal spacing
    2^-1074), an infinity from 2^1024 on. *)
Definition to_double (q : Q) : number :=
  if Qeq_bool q 0 then Finite 0
  else
    let magnitude := Qabs q in
    let exponent := Z.max (floor_log2 magnitude) (-1022) in
    let ulp := pow2 (exponent - 52) in
    let rounded := (inject_Z (nearest_even (magnitude / ulp)) * ulp)%Q in
    if Qle_bool (pow2 1024) rounded
    then (if Qle_bool 0 q then Infinity else NegInfinity)
    else Finite (Qred (if Qle_bool 0 q then rounded else Qopp rounded)).

Definition number_is_zero (a : number) : bool :=
  match a with
  | Finite q => Qeq_bool q 0
  | _ => false
  end.

Definition number_negative (a : number) : bool :=
  number_lt a (Finite 0).

(** [a * b] *)
Definition number_mul (a b : number) : number :=
  match a, b with
  | NaN, _ | _, NaN => NaN
  | Finite p, Finite q => to_double (p * q)%Q
  | _, _ =>
    if number_is_zero a || number_is_zero b then NaN
    else if xorb (number_negative a) (number_negative b) then NegInfinity
    else Infinity
  end.

(** [Math.round(x)]: the nearest integer, a half going upwards. *)
Definition Math_round (x : number) : number :=
  match x with
  | Finite q => Finite (inject_Z (Qfloor (q + (1 # 2))%Q))
  | _ => x
  end.

(** [Math.round(rupees * 100)] *)
Definition rupeesToPaise (rupees : number) : number :=
  Math_round (number_mul rupees (Finite (inject_Z 100))).

(** The integer a number is. The embedding keeps the amounts of requests
    and documents, which are in paise, as integers; a submission whose
    amount in paise is no integer (the product has overflowed to an
    infinity, beyond 1.79e306 rupees) is outside the embedding. *)
Definition integer_of (a : number) : Z :=
  match a with
  | Finite q => Qfloor q
  | _ => 0
  end.

(** [PAYOUT_MODE_LIMITS], in rupees; no [max] stands for [Infinity]. *)
Definition PAYOUT_MODE_LIMITS (mode : PayoutMode) : option (Z * option Z) :=
  match mode with
  | UPI => Some (1, Some 100000)
  | IMPS => Some (1, Some 500000)
  | NEFT => Some (1, None)
  | RTGS => Some (200000, None)
  | card => None
  end.

(** [validatePayoutAmount]: the error of an amount out of the limits of
    its mode, none when the amount is valid. *)
Definition validatePayoutAmount (mode : PayoutMode) (amount : number)
    : option string :=
  match PAYOUT_MODE_LIMITS mode with
  | None => Some "Card payouts not supported"
  | Some (min, max) =>
    if number_lt amount (Finite (inject_Z min)) then
      Some ("Minimum amount for " +:+ PayoutMode_name mode +:+ " is ₹"
            +:+ pretty min)
    else
      match max with
      | Some max =>
        if number_lt (Finite (inject_Z max)) amount then
          Some ("Maximum amount for " +:+ PayoutMode_name mode +:+ " is ₹"
                +:+ pretty max)
        else None
      | None => None
      end
  end.

(** [generateIdempotencyKey(prefix)]: prefix, timestamp, random hex. *)
Definition generateIdempotencyKey (now : Z) (random : string)
    (prefix : string) : string :=
  prefix +:+ "_" +:+ pretty now +:+ "_" +:+ random.

(** [CreatePayoutResponse] *)
Module Initiated.
Record t := mk {
  success : bool;
  transactionId : option string;
  razorpayPayoutId : option string;
  state : option TransactionState;
  error : option string
}.
End Initiated.

(** The values [initiatePayoutIndia] draws: the [ID.unique()] of the new
    document and the two random suffixes. *)
Record Drawn := {
  documentId : string;
  keyRandom : string;
  transactionRandom : string
}.

Section Submitter.

Variable RAZORPAY_ACCOUNT_NUMBER : string.

(** [`txn_${Date.now()}_${Math.random().toString(36).slice(2, 8)}`] *)
Definition minted_transactionId (now : Z) (drawn : Drawn) : string :=
  "txn_" +:+ pretty now +:+ "_" +:+ transactionRandom drawn.

(** [generateIdempotencyKey(`payout_${userId}`)] *)
Definition minted_idempotencyKey (now : Z) (drawn : Drawn) (userId : string)
    : string :=
  generateIdempotencyKey now (keyRandom drawn) ("payout_" +:+ userId).

(** [accountHolderName || vpaAddress] *)
Definition holder (fundAccountRecord : FundAccount.t) : option string :=
  if truthy (FundAccount.accountHolderName fundAccountRecord)
  then FundAccount.accountHolderName fundAccountRecord
  else FundAccount.vpaAddress fundAccountRecord.

(** The request of the first submission. *)
Definition initial_request (drawn : Drawn) (now : Z) (userId : string)
    (fundAccountRecord : FundAccount.t) (amount : Q) (mode : PayoutMode)
    (purpose : string) (narration : option string) : PayoutRequest.t :=
  {| PayoutRequest.account_number := RAZORPAY_ACCOUNT_NUMBER;
     PayoutRequest.fund_account_id :=
       Some (FundAccount.razorpayFundAccountId fundAccountRecord);
     PayoutRequest.amount := integer_of (rupeesToPaise (Finite amount));
     PayoutRequest.currency := "INR";
     PayoutRequest.mode := mode;
     PayoutRequest.purpose := purpose;
     PayoutRequest.queue_if_low_balance := true;
     PayoutRequest.reference_id := minted_idempotencyKey now drawn userId;
     PayoutRequest.narration :=
       if truthy narration then narration
       else Some ("Payment to "
                  +:+ default "undefined" (holder fundAccountRecord));
     PayoutRequest.notes :=
       [ ("transactionId", minted_transactionId now drawn);
         ("userId", userId) ] |}.

(** [initiatePayoutIndia(params)], the amount being finite. *)
Definition initiatePayoutIndia (drawn : Drawn) (now : Z) (api : RazorpayX)
    (userId fundAccountRecordId : string) (amount : Q) (mode : PayoutMode)
    (purpose : string) (narration : option string) (metadata : option string)
    (w : World) : Initiated.t * World :=
  let failure error := Initiated.mk false None None None (Some error) in
  match validatePayoutAmount mode (Finite amount) with
  | Some error => (failure error, w)
  | None =>
    match razorpay_fund_accounts w !! fundAccountRecordId with
    | None => (failure (message_or "Failed to initiate payout" document_missing), w)
    | Some fundAccountRecord =>
      if negb (FundAccount.active fundAccountRecord) then
        (failure "Fund account is not active", w)
      else if bool_decide (FundAccount.userId fundAccountRecord ≠ userId) then
        (failure "Fund account does not belong to user", w)
      else
        let idempotencyKey := minted_idempotencyKey now drawn userId in
        let transactionId := minted_transactionId now drawn in
        let holder := holder fundAccountRecord in
        let stateHistory :=
          [ {| fromState := "initiated"; toState := "initiated";
               timestamp := now; reason := None; source := Some user;
               metadata := None |} ] in
        let document :=
          {| Txn.userId := userId;
             Txn.transactionId := transactionId;
             Txn.idempotencyKey := idempotencyKey;
             Txn.razorpayPayoutId := None;
             Txn.razorpayContactId :=
               Some (FundAccount.razorpayContactId fundAccountRecord);
             Txn.razorpayFundAccountId :=
               Some (FundAccount.razorpayFundAccountId fundAccountRecord);
             Txn.state := "initiated";
             Txn.previousState := None;
             Txn.stateHistory := stateHistory;
             Txn.type := "transfer";
             Txn.amount := integer_of (rupeesToPaise (Finite amount));
             Txn.currency := "INR";
             Txn.mode := mode;
             Txn.purpose := purpose;
             Txn.beneficiaryName :=
               if truthy holder then default "" holder else "Unknown";
             Txn.beneficiaryBankAccountId :=
               FundAccount.bankAccountId fundAccountRecord;
             Txn.beneficiaryVpa := FundAccount.vpaAddress fundAccountRecord;
             Txn.utr := None;
             Txn.narration := narration;
             Txn.razorpayFees := None;
             Txn.razorpayTax := None;
             Txn.failureReason := None;
             Txn.failureDescription := None;
             Txn.retryCount := 0;
             Txn.maxRetries := 3;
             Txn.nextRetryAt := None;
             Txn.createdAt := now;
             Txn.updatedAt := now;
             Txn.submittedAt := None;
             Txn.completedAt := None;
             Txn.failedAt := None;
             Txn.metadata := metadata |} in
        match createDocument (documentId drawn) document (transactions_india w) with
        | None => (failure (message_or "Failed to initiate payout" document_exists), w)
        | Some transactions =>
          let w := with_transactions (λ _, transactions) w in
          let request :=
            initial_request drawn now userId fundAccountRecord amount mode
              purpose narration in
          let w := called (CreatePayout request) w in
          match createPayout api request with
          | inr razorpayPayout =>
            let newState := Payout.status razorpayPayout in
            let stateHistory :=
              stateHistory ++
              [ {| fromState := "initiated"; toState := newState;
                   timestamp := now; reason := None; source := Some system;
                   metadata :=
                     Some [("razorpayPayoutId",
                            MString (Payout.id razorpayPayout))] |} ] in
            let data :=
              [ Txn.set_razorpayPayoutId (Some (Payout.id razorpayPayout));
                Txn.set_state newState;
                Txn.set_previousState (Some "initiated");
                Txn.set_stateHistory stateHistory;
                Txn.set_utr (Payout.utr razorpayPayout);
                Txn.set_razorpayFees (Some (Payout.fees razorpayPayout));
                Txn.set_razorpayTax (Some (Payout.tax razorpayPayout));
                Txn.set_submittedAt (Some now);
                Txn.set_updatedAt now ] in
            (Initiated.mk true (Some transactionId)
               (Some (Payout.id razorpayPayout)) (Some newState) None,
             with_transactions (updateDocument (documentId drawn) data) w)
          | inl payoutError =>
            let stateHistory :=
              stateHistory ++
              [ {| fromState := "initiated"; toState := "submitted";
                   timestamp := now;
                   reason := Some (message_or "Unknown error" payoutError);
                   source := Some system; metadata := None |} ] in
            let data :=
              [ Txn.set_state "submitted";
                Txn.set_previousState (Some "initiated");
                Txn.set_stateHistory stateHistory;
                Txn.set_failureDescription
                  (Some (message_or "Unknown error" payoutError));
                Txn.set_nextRetryAt (Some (now + 60000));
                Txn.set_updatedAt now ] in
            (Initiated.mk false (Some transactionId) None (Some "submitted")
               (Some (message_or "Failed to create payout" payoutError)),
             with_transactions (updateDocument (documentId drawn) data) w)
          end
        end
    end
  end.

End Submitter.

(** [cancelPayoutIndia]: only a queued payout is cancelled; the error of a
    refused cancellation, none on success. *)
Definition cancelPayoutIndia (now : Z) (api : RazorpayX)
    (transactionId userId : string) (w : World) : option string * World :=
  match listDocuments (transactions_india w)
          (λ t, by_transactionId transactionId t
                && bool_decide (Txn.userId t = userId)) 1 with
  | [] => (Some "Transaction not found", w)
  | (id, transaction) :: _ =>
    let currentState := Txn.state transaction in
    if bool_decide (currentState ≠ "queued") then
      (Some ("Cannot cancel payout in " +:+ currentState +:+ " state"), w)
    else
      let data :=
        [ Txn.set_state "cancelled";
          Txn.set_previousState (Some currentState);
          Txn.set_stateHistory
            (Txn.stateHistory transaction ++
             [ {| fromState := currentState; toState := "cancelled";
                  timestamp := now; reason := None; source := Some user;
                  metadata := None |} ]);
          Txn.set_updatedAt now ] in
      if negb (truthy (Txn.razorpayPayoutId transaction)) then
        (None, with_transactions (updateDocument id data) w)
      else
        let payoutId := default "" (Txn.razorpayPayoutId transaction) in
        let w := called (CancelPayout payoutId) w in
        match cancelPayout api payoutId with
        | inl error => (Some (message_or "Failed to cancel payout" error), w)
        | inr _ => (None, with_transactions (updateDocument id data) w)
        end
  end.

(** [syncPayoutStatus]: the status query of the submitter module; it
    copies the processor's status into the record without consulting the
    transition table. The state it reports and the error, if any. *)
Definition synced_state (status : string) (current : TransactionState)
    : TransactionState :=
  if bool_decide (status = "processed") then "completed"
  else if bool_decide (status = "rejected") then "failed"
  else if bool_decide (status = "queued") then "queued"
  else if bool_decide (status = "pending") then "pending"
  else if bool_decide (status = "processing") then "processing"
  else if bool_decide (status = "reversed") then "reversed"
  else if bool_decide (status = "cancelled") then "cancelled"
  else if bool_decide (status = "failed") then "failed"
  else current.

Definition syncPayoutStatus (now : Z) (api : RazorpayX)
    (transactionId : string) (w : World)
    : (option TransactionState * option string) * World :=
  match listDocuments (transactions_india w) (by_transactionId transactionId) 1 with
  | [] => ((None, Some "Transaction not found"), w)
  | (id, transaction) :: _ =>
    if negb (truthy (Txn.razorpayPayoutId transaction)) then
      ((Some (Txn.state transaction), None), w)
    else
      let payoutId := default "" (Txn.razorpayPayoutId transaction) in
      let w := called (GetPayout payoutId) w in
      match getPayout api payoutId with
      | inl error =>
        ((None, Some (message_or "Failed to sync payout status" error)), w)
      | inr razorpayPayout =>
        let newState :=
          synced_state (Payout.status razorpayPayout) (Txn.state transaction) in
        if bool_decide (newState ≠ Txn.state transaction) then
          let updateData :=
            [ Txn.set_state newState;
              Txn.set_previousState (Some (Txn.state transaction));
              Txn.set_stateHistory
                (Txn.stateHistory transaction ++
                 [ {| fromState := Txn.state transaction; toState := newState;
                      timestamp := now; reason := None;
                      source := Some reconciliation; metadata := None |} ]);
              Txn.set_utr (Payout.utr razorpayPayout);
              Txn.set_razorpayFees (Some (Payout.fees razorpayPayout));
              Txn.set_razorpayTax (Some (Payout.tax razorpayPayout));
              Txn.set_updatedAt now ]
            ++ (if bool_decide (newState = "completed")
                then [Txn.set_completedAt (Some now)]
                else if includes ["failed"; "reversed"; "cancelled"] newState
                then Txn.set_failedAt (Some now)
                     :: (if truthy (Payout.failure_reason razorpayPayout)
                         then [Txn.set_failureDescription
                                 (Payout.failure_reason razorpayPayout)]
                         else [])
                else []) in
          ((Some newState, None),
           with_transactions (updateDocument id updateData) w)
        else ((Some newState, None), w)
      end
  end.

(** ** Sample data

    One fund account, one payout of Rs 500 over UPI, and the worlds used
    to evaluate the operations on concrete inputs. *)

Definition sample_transaction (state : TransactionState) (retryCount : Z)
    (nextRetryAt : option Z) (razorpayPayoutId : option string) : Txn.t :=
  {| Txn.userId := "user_1";
     Txn.transactionId := "txn_1700000000000_ab12cd";
     Txn.idempotencyKey := "payout_user_1_1700000000000_0011223344556677";
     Txn.razorpayPayoutId := razorpayPayoutId;
     Txn.razorpayContactId := Some "cont_1";
     Txn.razorpayFundAccountId := Some "fa_1";
     Txn.state := state;
     Txn.previousState := Some "initiated";
     Txn.stateHistory :=
       [ {| fromState := "initiated"; toState := "initiated";
            timestamp := 1700000000000; reason := None; source := Some user;
            metadata := None |} ];
     Txn.type := "transfer";
     Txn.amount := 50000;
     Txn.currency := "INR";
     Txn.mode := UPI;
     Txn.purpose := "payout";
     Txn.beneficiaryName := "Asha";
     Txn.beneficiaryBankAccountId := None;
     Txn.beneficiaryVpa := Some "asha@upi";
     Txn.utr := None;
     Txn.narration := None;
     Txn.razorpayFees := None;
     Txn.razorpayTax := None;
     Txn.failureReason := None;
     Txn.failureDescription := None;
     Txn.retryCount := retryCount;
     Txn.maxRetries := 3;
     Txn.nextRetryAt := nextRetryAt;
     Txn.createdAt := 1700000000000;
     Txn.updatedAt := 1700000000000;
     Txn.submittedAt := None;
     Txn.completedAt := None;
     Txn.failedAt := None;
     Txn.metadata := None |}.

Definition sample_fund_account : FundAccount.t :=
  {| FundAccount.userId := "user_1";
     FundAccount.razorpayFundAccountId := "fa_1";
     FundAccount.razorpayContactId := "cont_1";
     FundAccount.bankAccountId := None;
     FundAccount.accountHolderName := Some "Asha";
     FundAccount.vpaAddress := Some "asha@upi";
     FundAccount.active := true |}.

(** A world holding the one transaction under [$id] doc_1. *)
Definition sample_world (t : Txn.t) : World :=
  {| transactions_india := {[ "doc_1" := t ]};
     webhook_events := ∅;
     razorpay_fund_accounts := {[ "fund_1" := sample_fund_account ]};
     api_calls := [] |}.

(** A world with no transaction yet. *)
Definition empty_world : World :=
  {| transactions_india := ∅;
     webhook_events := ∅;
     razorpay_fund_accounts := {[ "fund_1" := sample_fund_account ]};
     api_calls := [] |}.

Definition sample_payout (status : string) : Payout.t :=
  {| Payout.id := "pout_1";
     Payout.status := status;
     Payout.utr := None;
     Payout.fees := 0;
     Payout.tax := 0;
     Payout.reference_id := Some "payout_user_1_1700000000000_0011223344556677";
     Payout.failure_reason := None;
     Payout.status_details := None |}.

(** A processor answering every call with a payout in the given status. *)
Definition answering (status : string) : RazorpayX :=
  {| createPayout := λ _, inr (sample_payout status);
     getPayout := λ _, inr (sample_payout status);
     cancelPayout := λ _, inr (sample_payout status) |}.

(** A processor that cannot be reached. *)
Definition unreachable : RazorpayX :=
  {| createPayout := λ _, inl (JsError "connect ETIMEDOUT");
     getPayout := λ _, inl (JsError "connect ETIMEDOUT");
     cancelPayout := λ _, inl (JsError "connect ETIMEDOUT") |}.

Definition sample_drawn : Drawn :=
  {| documentId := "doc_1";
     keyRandom := "0011223344556677";
     transactionRandom := "ab12cd" |}.

Definition sample_event (event status : string) : WebhookEvent.t :=
  {| WebhookEvent.account_id := "acc_1";
     WebhookEvent.event := event;
     WebhookEvent.payout := Some (sample_payout status);
     WebhookEvent.created_at := 1700000100 |}.

(** Stand-ins for the three collaborators of the webhook route: a
    signature check accepting one signature, a parser knowing three bodies,
    and a digest. *)
Definition sample_verify (rawBody signature : string) : Exn + bool :=
  inr (bool_decide (signature = "3f5a9c")).

Definition sample_parse (rawBody : string) : Exn + WebhookEvent.t :=
  if bool_decide (rawBody = "body: payout.processed for pout_1")
  then inr (sample_event "payout.processed" "processed")
  else if bool_decide (rawBody = "body: payout.queued for pout_1, scheduled")
  then inr (sample_event "payout.queued" "scheduled")
  else if bool_decide (rawBody = "body: payout.reversed for pout_1")
  then inr (sample_event "payout.reversed" "reversed")
  else inl (JsError "Unexpected token b in JSON at position 0").

Definition sample_digest (s : string) : string := s.

(** The payout status vocabulary and its mapping to internal states, as
    the specification prints the table (section 6). *)
Definition spec_status_mapping : list (string * TransactionState) :=
  [ ("queued", "queued"); ("processing", "processing");
    ("pending", "pending"); ("processed", "completed");
    ("reversed", "reversed"); ("cancelled", "cancelled");
    ("rejected", "failed"); ("failed", "failed") ].

Definition payout_status_vocabulary : list string :=
  spec_status_mapping.*1.

(** ** Observations *)

(** The retry bookkeeping of the document [$id]: state, retry count, next
    retry time and failure time. *)
Definition retry_bookkeeping (w : World) (id : string)
    : option (TransactionState * Z * option Z * option Z) :=
  (λ t, (Txn.state t, Txn.retryCount t, Txn.nextRetryAt t, Txn.failedAt t))
  <$> transactions_india w !! id.

(** A processor that refuses every payout creation. *)
Definition refuses (api : RazorpayX) : Prop :=
  ∀ request, ∃ e, createPayout api request = inl e.

(** The document a transaction id denotes when no other stored document
    carries that id. *)
Definition denotes (w : World) (transactionId id : string) (t : Txn.t) : Prop :=
  transactions_india w !! id = Some t
  ∧ Txn.transactionId t = transactionId
  ∧ ∀ id' t', transactions_india w !! id' = Some t' →
              Txn.transactionId t' = transactionId → id' = id.



(** The world after a retry that reached the processor: the one document
    rewritten, the call appended to the trace. *)
Definition retried (w : World) (id : string) (t' : Txn.t)
    (request : PayoutRequest.t) : World :=
  mkWorld (<[id := t']> (transactions_india w)) (webhook_events w)
    (razorpay_fund_accounts w) (api_calls w ++ [CreatePayout request]).

(** ** Further operations of the cited modules *)

(** [isTerminalStatus] of the processor wrapper. *)
Definition isTerminalStatus (status : string) : bool :=
  includes ["processed"; "reversed"; "cancelled"; "rejected"; "failed"] status.

(** [canCancelPayout] of the processor wrapper. *)
Definition canCancelPayout (status : string) : bool :=
  bool_decide (status = "queued").

(** [getRecommendedPayoutMode(amount, urgent)], the amount in rupees. *)
Definition getRecommendedPayoutMode (amount : number) (urgent : bool)
    : PayoutMode :=
  if number_le amount (Finite (inject_Z 100000)) && urgent then UPI
  else if number_le amount (Finite (inject_Z 500000)) && urgent then IMPS
  else if number_le (Finite (inject_Z 200000)) amount then RTGS
  else NEFT.

(** An amount, in rupees, within the limits of a mode. *)
Definition within_limits (mode : PayoutMode) (amount : Q) : Prop :=
  match mode with
  | UPI => (inject_Z 1 <= amount ∧ amount <= inject_Z 100000)%Q
  | IMPS => (inject_Z 1 <= amount ∧ amount <= inject_Z 500000)%Q
  | NEFT => (inject_Z 1 <= amount)%Q
  | RTGS => (inject_Z 200000 <= amount)%Q
  | card => False
  end.

(** [getTransaction]: the first document carrying the transaction id. *)
Definition getTransaction (transactionId : string) (w : World)
    : string + Txn.t :=
  match listDocuments (transactions_india w) (by_transactionId transactionId) 1 with
  | [] => inl "Transaction not found"
  | (_, transaction) :: _ => inr transaction
  end.

(** The statistics [getTransactionStats] reports. *)
Record Stats := {
  st_total : Z;
  st_completed : Z;
  st_pending : Z;
  st_failed : Z;
  st_totalAmount : Z;
  st_completedAmount : Z
}.

(** One turn of the loop of [getTransactionStats]. *)
Definition count_transaction (stats : Stats) (tx : Txn.t) : Stats :=
  let totalAmount := st_totalAmount stats + Txn.amount tx in
  if bool_decide (Txn.state tx = "completed")
     || bool_decide (Txn.state tx = "refund_completed")
  then {| st_total := st_total stats;
          st_completed := st_completed stats + 1;
          st_pending := st_pending stats;
          st_failed := st_failed stats;
          st_totalAmount := totalAmount;
          st_completedAmount := st_completedAmount stats + Txn.amount tx |}
  else if includes ["failed"; "reversed"; "cancelled"] (Txn.state tx)
  then {| st_total := st_total stats;
          st_completed := st_completed stats;
          st_pending := st_pending stats;
          st_failed := st_failed stats + 1;
          st_totalAmount := totalAmount;
          st_completedAmount := st_completedAmount stats |}
  else {| st_total := st_total stats;
          st_completed := st_completed stats;
          st_pending := st_pending stats + 1;
          st_failed := st_failed stats;
          st_totalAmount := totalAmount;
          st_completedAmount := st_completedAmount stats |}.

Section Defaults.

(** The page size of [listDocuments] when the queries carry no
    [Query.limit]. *)
Variable defaultLimit : nat.

(** [getTransactionStats(userId)] *)
Definition getTransactionStats (userId : string) (w : World) : Stats :=
  let docs :=
    snd <$> listDocuments (transactions_india w)
              (λ t, bool_decide (Txn.userId t = userId)) defaultLimit in
  foldl count_transaction
    {| st_total := Z.of_nat (length docs); st_completed := 0; st_pending := 0;
       st_failed := 0; st_totalAmount := 0; st_completedAmount := 0 |}
    docs.

End Defaults.

(** [deactivateFundAccount]: the account is deactivated at the processor,
    then in the store; the error, none on success. The record of the
    embedding carries no [updatedAt], which the update stamps as well. *)
Definition deactivateFundAccount
    (setFundAccountActive : string → bool → Exn + unit)
    (fundAccountRecordId : string) (w : World) : option string * World :=
  match razorpay_fund_accounts w !! fundAccountRecordId with
  | None =>
    (Some (message_or "Failed to deactivate fund account" document_missing), w)
  | Some record =>
    match setFundAccountActive (FundAccount.razorpayFundAccountId record) false with
    | inl error =>
      (Some (message_or "Failed to deactivate fund account" error), w)
    | inr _ =>
      (None,
       mkWorld (transactions_india w) (webhook_events w)
         (updateDocument fundAccountRecordId
            [ λ f, FundAccount.mk (FundAccount.userId f)
                     (FundAccount.razorpayFundAccountId f)
                     (FundAccount.razorpayContactId f)
                     (FundAccount.bankAccountId f)
                     (FundAccount.accountHolderName f)
                     (FundAccount.vpaAddress f) false ]
            (razorpay_fund_accounts w))
         (api_calls w))
    end
  end.

(** ** Measures and invariants of a transaction record *)

(** How far a state is along the life cycle. *)
Definition state_rank (state : TransactionState) : nat :=
  if bool_decide (state = "initiated") then 0
  else if bool_decide (state = "submitted") then 1
  else if bool_decide (state = "queued") then 2
  else if bool_decide (state = "pending") then 3
  else if bool_decide (state = "processing") then 4
  else if bool_decide (state = "completed") then 5
  else if bool_decide (state = "refund_pending") then 6
  else 7.

(** A sequence of states each reached from the one before by a valid
    transition. *)
Fixpoint valid_path (path : list TransactionState) : Prop :=
  match path with
  | fromState :: (toState :: _) as rest =>
    isValidTransition fromState toState = true ∧ valid_path rest
  | _ => True
  end.

(** The fields no operation writes after the record is created. *)
Definition created_fields (t : Txn.t) :=
  (Txn.userId t, Txn.transactionId t, Txn.idempotencyKey t,
   Txn.razorpayContactId t, Txn.razorpayFundAccountId t, Txn.type t,
   Txn.amount t, Txn.currency t, Txn.mode t, Txn.purpose t,
   (Txn.beneficiaryName t, Txn.beneficiaryBankAccountId t,
    Txn.beneficiaryVpa t, Txn.narration t, Txn.failureReason t,
    Txn.maxRetries t, Txn.createdAt t, Txn.metadata t)).

(** The last record of the history leads to the stored state. *)
Definition history_agrees (t : Txn.t) : Prop :=
  toState <$> last (Txn.stateHistory t) = Some (Txn.state t).

(** One step of a record: the created fields are kept, the retry count
    does not decrease, and either history and state are kept, or one
    transition record is appended that leads from the state before to the
    state after. *)
Definition evolves (t t' : Txn.t) : Prop :=
  created_fields t' = created_fields t
  ∧ Txn.retryCount t ≤ Txn.retryCount t'
  ∧ ((Txn.stateHistory t' = Txn.stateHistory t ∧ Txn.state t' = Txn.state t)
     ∨ ∃ record,
         Txn.stateHistory t' = Txn.stateHistory t ++ [record]
         ∧ fromState record = Txn.state t
         ∧ toState record = Txn.state t').

(** The operation from [w] to [w'] adds and removes no document and takes
    every document one step on. *)
Definition documents_evolve (w w' : World) : Prop :=
  ∀ id,
    match transactions_india w !! id, transactions_india w' !! id with
    | Some t, Some t' => evolves t t'
    | None, None => True
    | _, _ => False
    end.

(** The operation from [w] to [w'] adds and removes no document, keeps the
    created fields of every document and only extends its history. *)
Definition documents_extend (w w' : World) : Prop :=
  ∀ id,
    match transactions_india w !! id, transactions_india w' !! id with
    | Some t, Some t' =>
      created_fields t' = created_fields t
      ∧ Txn.stateHistory t `prefix_of` Txn.stateHistory t'
    | None, None => True
    | _, _ => False
    end.

(** Every stored history leads to the stored state. *)
Definition histories_agree (w : World) : Prop :=
  ∀ id t, transactions_india w !! id = Some t → history_agrees t.

(** The retry count of every stored document is within the maximum. *)
Definition retries_bounded (w : World) : Prop :=
  ∀ id t, transactions_india w !! id = Some t →
          Txn.retryCount t ≤ maxRetries RETRY_CONFIG.

(** Every stored state is a state of the enum. *)
Definition states_in_enum (w : World) : Prop :=
  ∀ id t, transactions_india w !! id = Some t →
          is_TransactionState (Txn.state t) = true.

(** The summary of a run of the retry scheduler over no transaction. *)
Definition no_retries : RetrySummary :=
  {| rs_success := true; rs_processed := 0; rs_succeeded := 0;
     rs_failed := 0; rs_errors := [] |}.

(** The trace grows by calls that create no payout. *)
Definition creates_no_payout (w w' : World) : Prop :=
  ∀ request, CreatePayout request ∈ api_calls w' →
             CreatePayout request ∈ api_calls w.

(** An operation stores no state outside the enum: every document keeps
    its state or takes a state of the enum, and none is added or removed. *)
Definition writes_enum_states (w w' : World) : Prop :=
  ∀ id,
    match transactions_india w !! id, transactions_india w' !! id with
    | Some t, Some t' =>
      Txn.state t' = Txn.state t ∨ is_TransactionState (Txn.state t') = true
    | None, None => True
    | _, _ => False
    end.

(** * Properties *)

(** ** The transition table *)

(** A closed decidable proposition is settled by evaluation. *)
Ltac by_compute := apply (bool_decide_unpack _); vm_compute; exact I.

Section TransitionTable.

(** [VALID_TRANSITIONS] read at an arbitrary key. *)
Lemma VALID_TRANSITIONS_lookup (fromState : string) (next : list string) :
  VALID_TRANSITIONS !! fromState = Some next →
  (fromState, next) ∈
    [ ("initiated", ["submitted"; "queued"; "pending"; "failed"; "cancelled"]);
      ("submitted", ["queued"; "pending"; "failed"; "cancelled"]);
      ("queued", ["pending"; "processing"; "cancelled"; "failed"]);
      ("pending", ["processing"; "completed"; "failed"; "reversed"]);
      ("processing", ["completed"; "failed"; "reversed"]);
      ("completed", ["reversed"; "refund_pending"]);
      ("failed", []); ("reversed", []); ("cancelled", []);
      ("refund_pending", ["refund_completed"; "failed"]);
      ("refund_completed", []) ].
Proof.
  unfold VALID_TRANSITIONS. intros H.
  apply elem_of_list_to_map_2 in H. exact H.
Qed.

Lemma includes_true (l : list string) (x : string) :
  includes l x = true ↔ x ∈ l.
Proof. unfold includes. apply bool_decide_eq_true. Qed.

Lemma includes_cons (l : list string) (a x : string) :
  includes (a :: l) x = bool_decide (x = a) || includes l x.
Proof.
  unfold includes. rewrite <- bool_decide_or.
  apply bool_decide_ext, elem_of_cons.
Qed.

Lemma includes_nil (x : string) : includes [] x = false.
Proof. unfold includes. apply bool_decide_eq_false, not_elem_of_nil. Qed.

Lemma isValidTransition_sound (fromState toState : TransactionState) :
  isValidTransition fromState toState = true →
  (fromState, toState) ∈ spec_transition_table.
Proof.
  unfold isValidTransition.
  destruct (VALID_TRANSITIONS !! fromState) as [next|] eqn:Hnext; [|done].
  intros Hin. apply includes_true in Hin.
  apply VALID_TRANSITIONS_lookup in Hnext.
  unfold spec_transition_table.
  repeat (apply elem_of_cons in Hnext as [Hnext|Hnext];
          [ injection Hnext as -> ->; clear -Hin;
            repeat (apply elem_of_cons in Hin as [->|Hin]; [by_compute|]);
            by apply elem_of_nil in Hin | ]).
  by apply elem_of_nil in Hnext.
Qed.

Lemma isValidTransition_complete (fromState toState : TransactionState) :
  (fromState, toState) ∈ spec_transition_table →
  isValidTransition fromState toState = true.
Proof.
  unfold spec_transition_table. intros Hin.
  repeat (apply elem_of_cons in Hin as [Hin|Hin];
          [ injection Hin as -> ->; vm_compute; reflexivity | ]).
  by apply elem_of_nil in Hin.
Qed.

(** Every transition of the table goes forward in the life cycle. *)
Lemma state_rank_increases fromState toState :
  isValidTransition fromState toState = true →
  (state_rank fromState < state_rank toState)%nat.
Proof.
  intros Hin%isValidTransition_sound. unfold spec_transition_table in Hin.
  repeat (apply elem_of_cons in Hin as [Hin|Hin];
          [injection Hin as -> ->; vm_compute; lia|]).
  by apply elem_of_nil in Hin.
Qed.

(** The four terminal states of the specification have no outgoing
    transition. *)
Lemma terminal_no_transition (state toState : TransactionState) :
  state ∈ spec_terminal_states → isValidTransition state toState = false.
Proof.
  unfold spec_terminal_states. intros Hterm.
  repeat (apply elem_of_cons in Hterm as [->|Hterm];
          [vm_compute; reflexivity|]).
  by apply elem_of_nil in Hterm.
Qed.

(** C2. [isValidTransition] is true on exactly the pairs of the
    specification's transition table and false on every other pair; the
    four states failed, reversed, cancelled and refund_completed have no
    valid outgoing transition. *)
Theorem isValidTransition_table :
  (∀ fromState toState : TransactionState,
     isValidTransition fromState toState = true
     ↔ (fromState, toState) ∈ spec_transition_table)
  ∧ (∀ fromState toState : TransactionState,
       (fromState, toState) ∉ spec_transition_table →
       isValidTransition fromState toState = false)
  ∧ (∀ fromState toState : TransactionState,
       fromState ∈ spec_terminal_states →
       isValidTransition fromState toState = false).
Proof.
  split; [|split].
  - intros f t. split.
    + apply isValidTransition_sound.
    + apply isValidTransition_complete.
  - intros f t Hnot.
    destruct (isValidTransition f t) eqn:E; [|done].
    by apply isValidTransition_sound in E.
  - intros f t Hterm. by apply terminal_no_transition.
Qed.

End TransitionTable.

(** ** Terminal states *)

(** C9, as the specification states it, fails on completed:
    [isTerminalState] answers true there although completed is not in the
    specification's terminal-state set. *)
Lemma isTerminalState_completed :
  isTerminalState "completed" = true ∧ ("completed" ∉ spec_terminal_states)
  ∧ (¬ (∀ state, isTerminalState state = true ↔ state ∈ spec_terminal_states)).
Proof.
  split; [reflexivity|]. split.
  - by_compute.
  - intros H. assert (Hc : "completed" ∈ spec_terminal_states) by (by apply H).
    revert Hc. by_compute.
Qed.

(** C9, amended. [isTerminalState] is the membership test of the five
    states completed, failed, reversed, cancelled and refund_completed: the
    four of the specification and completed; it is false on the six other
    states of the enum and on every other string. *)
Theorem isTerminalState_five :
  (∀ state : TransactionState,
     isTerminalState state = true
     ↔ state = "completed" ∨ state ∈ spec_terminal_states)
  ∧ (∀ state : TransactionState,
       state ∈ ["initiated"; "submitted"; "queued"; "pending"; "processing";
                "refund_pending"] →
       isTerminalState state = false).
Proof.
  split.
  - intros state. unfold isTerminalState, TERMINAL_STATES, spec_terminal_states.
    rewrite includes_true, elem_of_cons. reflexivity.
  - intros state Hin.
    repeat (apply elem_of_cons in Hin as [->|Hin]; [reflexivity|]).
    by apply elem_of_nil in Hin.
Qed.

(** ** The document store *)

Section StoreFacts.

Context {A : Type}.
Implicit Types (collection : gmap string A) (query : A → bool).

(** Every listed document is stored under its [$id] and satisfies the
    query. *)
Lemma listDocuments_elem collection query limit id d :
  (id, d) ∈ listDocuments collection query limit →
  collection !! id = Some d ∧ query d = true.
Proof.
  unfold listDocuments. intros Hin.
  apply elem_of_take in Hin as (i & Hi & _).
  apply list_elem_of_lookup_2 in Hi.
  apply list_elem_of_In, filter_In in Hi as [Hi Hq].
  apply list_elem_of_In, elem_of_map_to_list in Hi. done.
Qed.

Lemma listDocuments_head collection query limit id d rest :
  listDocuments collection query limit = (id, d) :: rest →
  collection !! id = Some d ∧ query d = true.
Proof.
  intros H. apply (listDocuments_elem collection query limit).
  rewrite H. apply list_elem_of_here.
Qed.

(** An empty listing under a positive limit: no stored document
    satisfies the query. *)
Lemma listDocuments_nil collection query limit id d :
  listDocuments collection query (S limit) = [] →
  collection !! id = Some d → query d = false.
Proof.
  unfold listDocuments. intros Hnil Hd.
  destruct (query d) eqn:Hq; [|done].
  assert (Hin : In (id, d) (List.filter (λ d, query d.2) (map_to_list collection))).
  { apply filter_In. split; [|done].
    by apply list_elem_of_In, elem_of_map_to_list. }
  destruct (List.filter _ _); [destruct Hin | discriminate].
Qed.

(** A stored document satisfying the query is found under a positive
    limit. *)
Lemma listDocuments_found collection query limit id d :
  collection !! id = Some d → query d = true →
  ∃ id' d' rest, listDocuments collection query (S limit) = (id', d') :: rest.
Proof.
  intros Hd Hq.
  destruct (listDocuments collection query (S limit)) as [|[id' d'] rest] eqn:E.
  - by rewrite (listDocuments_nil _ _ _ _ _ E Hd) in Hq.
  - eauto.
Qed.

(** A listing limited to one document holds at most one. *)
Lemma listDocuments_one collection query id d rest :
  listDocuments collection query 1 = (id, d) :: rest → rest = [].
Proof.
  unfold listDocuments. destruct (List.filter _ _) as [|x [|y l]]; simpl;
    intros H; inversion H; done.
Qed.

(** The document satisfying the query alone is the one found. *)
Lemma listDocuments_unique collection query id d :
  collection !! id = Some d → query d = true →
  (∀ id' d', collection !! id' = Some d' → query d' = true → id' = id) →
  listDocuments collection query 1 = [(id, d)].
Proof.
  intros Hd Hq Huniq.
  destruct (listDocuments_found _ _ 0 _ _ Hd Hq) as (id' & d' & rest & E).
  pose proof (listDocuments_one _ _ _ _ _ E) as ->.
  destruct (listDocuments_head _ _ _ _ _ _ E) as [Hd' Hq'].
  pose proof (Huniq _ _ Hd' Hq') as ->.
  rewrite E. congruence.
Qed.

(** No stored document satisfies the query: the listing is empty. *)
Lemma listDocuments_none collection query limit :
  (∀ id d, collection !! id = Some d → query d = false) →
  listDocuments collection query limit = [].
Proof.
  intros Hnone.
  destruct (listDocuments collection query limit) as [|[k d] rest] eqn:E;
    [done|].
  assert (Hin : (k, d) ∈ listDocuments collection query limit)
    by (rewrite E; apply list_elem_of_here).
  apply listDocuments_elem in Hin as [Hk Hq].
  by rewrite (Hnone k d Hk) in Hq.
Qed.

Lemma updateDocument_lookup id (data : list (A → A)) collection :
  updateDocument id data collection !! id
  = (λ d, foldl (λ d set, set d) d data) <$> collection !! id.
Proof. unfold updateDocument. by rewrite lookup_alter_eq. Qed.

Lemma updateDocument_lookup_ne id id' (data : list (A → A)) collection :
  id ≠ id' →
  updateDocument id data collection !! id' = collection !! id'.
Proof. intros. unfold updateDocument. by rewrite lookup_alter_ne. Qed.

End StoreFacts.

(** ** The state-transition write *)

Lemma denotes_listed w transactionId id t :
  denotes w transactionId id t →
  listDocuments (transactions_india w) (by_transactionId transactionId) 1
  = [(id, t)].
Proof.
  intros (Hd & Htid & Huniq). apply listDocuments_unique; [done| |].
  - unfold by_transactionId. by apply bool_decide_eq_true.
  - intros id' t' Hd' Hq. apply (Huniq id' t' Hd').
    unfold by_transactionId in Hq. by apply bool_decide_eq_true in Hq.
Qed.

(** Writing a stored document through [updateDocument] stores the
    document rebuilt from the one read. *)
Lemma with_transactions_update w id (t : Txn.t) data :
  transactions_india w !! id = Some t →
  with_transactions (updateDocument id data) w
  = with_transactions (insert id (foldl (λ d set, set d) t data)) w.
Proof.
  intros Hd. unfold with_transactions. f_equal.
  apply map_eq. intros k. destruct (decide (id = k)) as [->|Hne].
  - by rewrite updateDocument_lookup, Hd, lookup_insert_eq.
  - by rewrite updateDocument_lookup_ne, lookup_insert_ne.
Qed.

(** No transaction carries the id: the write is refused and nothing is
    stored. *)
Lemma transitionState_not_found now transactionId newState reason source
    metadata w :
  (∀ id t, transactions_india w !! id = Some t →
           Txn.transactionId t ≠ transactionId) →
  transitionState now transactionId newState reason source metadata w
  = (TransitionError "Transaction not found", w).
Proof.
  intros Hnone. unfold transitionState.
  destruct (listDocuments _ _ 1) as [|[id t] rest] eqn:E; [done|].
  apply listDocuments_head in E as [Hd Hq].
  unfold by_transactionId in Hq. apply bool_decide_eq_true in Hq.
  by destruct (Hnone id t Hd).
Qed.

(** C3, as the specification states it, fails: the write takes no
    expected state and raises no conflict. A caller that read the state
    pending and asks for completed is served although the stored state has
    moved to processing in between: the write succeeds and the record
    changes. *)
Lemma transitionState_no_conflict :
  let w := sample_world (sample_transaction "processing" 0 None (Some "pout_1")) in
  let expectedCurrentState := "pending" in
  let '(result, w') :=
    transitionState 1700000200000 "txn_1700000000000_ab12cd" "completed"
      None (Some reconciliation) None w in
  stored_state w "doc_1" = Some "processing"
  ∧ expectedCurrentState ≠ "processing"
  ∧ isValidTransition expectedCurrentState "completed" = true
  ∧ transition_success result = true
  ∧ transition_error result = None
  ∧ stored_state w' "doc_1" = Some "completed".
Proof. vm_compute. repeat split. discriminate. Qed.

(** C3, amended. [transitionState] takes no expected state. It reads the
    stored state itself and decides on it alone: when no document carries
    the transaction id it fails with the not-found error, and when the
    transition from the stored state to the new state is not in the table
    it fails with the invalid-transition error, leaving the world unchanged
    in both cases; otherwise it succeeds and, in one document update, sets
    the new state, records the stored state as previous state, appends one
    transition record to the history and sets [updatedAt], [completedAt]
    (completed, refund_completed) or [failedAt] and the failure description
    (failed, reversed, cancelled), every other field and document being
    kept. *)
Theorem transitionState_decides_on_stored_state
    now transactionId newState reason source metadata w :
  ((∀ id t, transactions_india w !! id = Some t →
            Txn.transactionId t ≠ transactionId) →
   transitionState now transactionId newState reason source metadata w
   = (TransitionError "Transaction not found", w))
  ∧ ∀ id t,
  denotes w transactionId id t →
  if isValidTransition (Txn.state t) newState then
    ∃ updated,
      transitionState now transactionId newState reason source metadata w
      = (TransitionOk updated, with_transactions (insert id updated) w)
      ∧ Txn.state updated = newState
      ∧ Txn.previousState updated = Some (Txn.state t)
      ∧ Txn.stateHistory updated
        = Txn.stateHistory t ++
          [ {| fromState := Txn.state t; toState := newState;
               timestamp := now; reason := reason;
               source := Some (default system source);
               metadata := metadata |} ]
      ∧ Txn.updatedAt updated = now
      ∧ Txn.completedAt updated
        = (if includes ["completed"; "refund_completed"] newState
           then Some now else Txn.completedAt t)
      ∧ Txn.failedAt updated
        = (if includes ["failed"; "reversed"; "cancelled"] newState
           then Some now else Txn.failedAt t)
      ∧ Txn.failureDescription updated
        = (if includes ["failed"; "reversed"; "cancelled"] newState
              && truthy reason
           then reason else Txn.failureDescription t)
      ∧ Txn.transactionId updated = Txn.transactionId t
      ∧ Txn.idempotencyKey updated = Txn.idempotencyKey t
      ∧ Txn.amount updated = Txn.amount t
      ∧ Txn.retryCount updated = Txn.retryCount t
      ∧ Txn.nextRetryAt updated = Txn.nextRetryAt t
      ∧ Txn.razorpayPayoutId updated = Txn.razorpayPayoutId t
  else
    transitionState now transactionId newState reason source metadata w
    = (TransitionError ("Invalid state transition from " +:+ Txn.state t
                        +:+ " to " +:+ newState), w).
Proof.
  split; [apply transitionState_not_found|].
  intros id t Hden. pose proof (denotes_listed _ _ _ _ Hden) as Hlist.
  destruct Hden as (Hd & _ & _).
  unfold transitionState. rewrite Hlist.
  destruct (isValidTransition (Txn.state t) newState) eqn:Hvalid; simpl; [|done].
  rewrite updateDocument_lookup, Hd. simpl.
  erewrite with_transactions_update by exact Hd.
  eexists. split; [reflexivity|].
  unfold terminal_timestamps.
  assert (Hc : includes ["completed"; "refund_completed"] newState
               = bool_decide (newState = "completed")
                 || bool_decide (newState = "refund_completed")).
  { by rewrite !includes_cons, includes_nil, orb_false_r. }
  rewrite Hc.
  destruct (bool_decide (newState = "completed")) eqn:E1; simpl.
  { apply bool_decide_eq_true in E1 as ->. by repeat split. }
  destruct (bool_decide (newState = "refund_completed")) eqn:E2; simpl.
  { apply bool_decide_eq_true in E2 as ->. by repeat split. }
  destruct (includes ["failed"; "reversed"; "cancelled"] newState) eqn:E3; simpl.
  - destruct (truthy reason) eqn:E4; by repeat split.
  - by repeat split.
Qed.

(** ** Retry scheduler *)

Section RetryFacts.

Variable account : string.

(** A document is still denoted by its transaction id after it is
    rewritten in place with the same id, whatever the processor trace. *)
Lemma denotes_insert w transactionId id t t' calls :
  denotes w transactionId id t →
  Txn.transactionId t' = transactionId →
  denotes
    (mkWorld (<[id := t']> (transactions_india w)) (webhook_events w)
       (razorpay_fund_accounts w) calls)
    transactionId id t'.
Proof.
  intros (Hd & Htid & Huniq) Htid'. split; [|split]; simpl.
  - apply lookup_insert_eq.
  - done.
  - intros id' t'' Hd' Ht''. destruct (decide (id = id')) as [->|Hne]; [done|].
    rewrite lookup_insert_ne in Hd' by done. eauto.
Qed.

(** A transaction that is not retryable: an error, no processor call,
    nothing stored. *)
Lemma retryTransaction_not_retryable now api transactionId w id t :
  denotes w transactionId id t →
  includes ["submitted"; "failed"] (Txn.state t) = false →
  retryTransaction account now api transactionId w
  = (RetryResult.mk false None
       (Some ("Transaction in " +:+ Txn.state t +:+ " state is not retryable")),
     w).
Proof.
  intros Hden Hstate. unfold retryTransaction.
  rewrite (denotes_listed _ _ _ _ Hden), Hstate. reflexivity.
Qed.

(** A transaction out of retries: an error, no processor call, nothing
    stored. *)
Lemma retryTransaction_exhausted now api transactionId w id t :
  denotes w transactionId id t →
  includes ["submitted"; "failed"] (Txn.state t) = true →
  maxRetries RETRY_CONFIG ≤ Txn.retryCount t →
  retryTransaction account now api transactionId w
  = (RetryResult.mk false None (Some "Maximum retry attempts reached"), w).
Proof.
  intros Hden Hstate Hmax. unfold retryTransaction.
  rewrite (denotes_listed _ _ _ _ Hden), Hstate. simpl negb. cbv iota.
  rewrite bool_decide_eq_true_2 by done. done.
Qed.

(** A retry the processor refuses. *)
Lemma retryTransaction_refused now api transactionId w id t e :
  denotes w transactionId id t →
  includes ["submitted"; "failed"] (Txn.state t) = true →
  Txn.retryCount t < maxRetries RETRY_CONFIG →
  createPayout api (retry_request account transactionId t (Txn.retryCount t + 1))
  = inl e →
  let failedPermanently :=
    bool_decide (maxRetries RETRY_CONFIG ≤ Txn.retryCount t + 1) in
  ∃ t',
    retryTransaction account now api transactionId w
    = (RetryResult.mk false (if failedPermanently then Some "failed" else None)
         (Some (message_or "Retry failed" e)),
       retried w id t'
         (retry_request account transactionId t (Txn.retryCount t + 1)))
    ∧ Txn.state t' = (if failedPermanently then "failed" else Txn.state t)
    ∧ Txn.retryCount t' = Txn.retryCount t + 1
    ∧ Txn.nextRetryAt t'
      = (if failedPermanently then None
         else Some (now + calculateRetryDelay (Txn.retryCount t + 1)))
    ∧ Txn.failedAt t' = (if failedPermanently then Some now else Txn.failedAt t)
    ∧ Txn.transactionId t' = Txn.transactionId t
    ∧ Txn.idempotencyKey t' = Txn.idempotencyKey t.
Proof.
  intros Hden Hstate Hcount Hapi fp.
  pose proof (denotes_listed _ _ _ _ Hden) as Hlist.
  destruct Hden as (Hd & _ & _).
  unfold retryTransaction. rewrite Hlist, Hstate. simpl negb. cbv iota.
  rewrite bool_decide_eq_false_2 by lia.
  cbv zeta. rewrite Hapi.
  rewrite (with_transactions_update _ _ t) by exact Hd.
  fold fp. eexists. split; [reflexivity|].
  destruct fp; by repeat split.
Qed.

(** A retry the processor accepts. *)
Lemma retryTransaction_accepted now api transactionId w id t payout :
  denotes w transactionId id t →
  includes ["submitted"; "failed"] (Txn.state t) = true →
  Txn.retryCount t < maxRetries RETRY_CONFIG →
  createPayout api (retry_request account transactionId t (Txn.retryCount t + 1))
  = inr payout →
  let newState :=
    if bool_decide (Payout.status payout = "processed") then "completed"
    else Payout.status payout in
  ∃ t',
    retryTransaction account now api transactionId w
    = (RetryResult.mk true (Some newState) None,
       retried w id t'
         (retry_request account transactionId t (Txn.retryCount t + 1)))
    ∧ Txn.state t' = newState
    ∧ Txn.retryCount t' = Txn.retryCount t + 1
    ∧ Txn.transactionId t' = Txn.transactionId t
    ∧ Txn.idempotencyKey t' = Txn.idempotencyKey t.
Proof.
  intros Hden Hstate Hcount Hapi newState.
  pose proof (denotes_listed _ _ _ _ Hden) as Hlist.
  destruct Hden as (Hd & _ & _).
  unfold retryTransaction. rewrite Hlist, Hstate. simpl negb. cbv iota.
  rewrite bool_decide_eq_false_2 by lia.
  cbv zeta. rewrite Hapi.
  rewrite (with_transactions_update _ _ t) by exact Hd.
  fold newState. eexists. split; [reflexivity|].
  destruct (bool_decide (newState = "completed")); by repeat split.
Qed.

(** Every idempotency key the submitter mints is non-empty. *)
Lemma minted_idempotencyKey_nonempty now drawn userId :
  minted_idempotencyKey now drawn userId ≠ "".
Proof. discriminate. Qed.

(** The processor calls of one retry. *)
Lemma retryTransaction_calls
    now api transactionId w id t :
  denotes w transactionId id t →
  let '(result, w') := retryTransaction account now api transactionId w in
  (∀ request, CreatePayout request ∈ api_calls w' →
     CreatePayout request ∈ api_calls w
     ∨ PayoutRequest.reference_id request = Txn.idempotencyKey t)
  ∧ (includes ["submitted"; "failed"] (Txn.state t) = true →
     Txn.retryCount t < maxRetries RETRY_CONFIG →
     ∃ request,
       api_calls w' = api_calls w ++ [CreatePayout request]
       ∧ PayoutRequest.reference_id request = Txn.idempotencyKey t)
  ∧ (includes ["submitted"; "failed"] (Txn.state t) = false →
     result
     = RetryResult.mk false None
         (Some ("Transaction in " +:+ Txn.state t +:+ " state is not retryable"))
     ∧ w' = w)
  ∧ Txn.idempotencyKey <$> transactions_india w' !! id
    = Some (Txn.idempotencyKey t).
Proof.
  intros Hden.
  assert (Hkey : Txn.idempotencyKey <$> transactions_india w !! id
                 = Some (Txn.idempotencyKey t)).
  { destruct Hden as (-> & _). done. }
  destruct (includes ["submitted"; "failed"] (Txn.state t)) eqn:Hstate.
  2:{ rewrite (retryTransaction_not_retryable _ _ _ _ _ _ Hden Hstate).
      repeat split; try done; auto. }
  destruct (decide (Txn.retryCount t < maxRetries RETRY_CONFIG)) as [Hlt|Hge].
  2:{ rewrite (retryTransaction_exhausted _ _ _ _ _ _ Hden Hstate) by lia.
      repeat split; try done; auto. }
  destruct (createPayout api
              (retry_request account transactionId t (Txn.retryCount t + 1)))
    as [e|payout] eqn:Hapi.
  - destruct (retryTransaction_refused now _ _ _ _ _ _ Hden Hstate Hlt Hapi)
      as (t' & -> & _ & _ & _ & _ & _ & Hk).
    simpl. rewrite lookup_insert_eq. simpl. rewrite Hk.
    repeat split; try done.
    + intros request [Hin|Hin]%elem_of_app; [by left|right].
      apply list_elem_of_singleton in Hin. by injection Hin as ->.
    + intros _ _. eexists. split; reflexivity.
  - destruct (retryTransaction_accepted now _ _ _ _ _ _ Hden Hstate Hlt Hapi)
      as (t' & -> & _ & _ & _ & Hk).
    simpl. rewrite lookup_insert_eq. simpl. rewrite Hk.
    repeat split; try done.
    + intros request [Hin|Hin]%elem_of_app; [by left|right].
      apply list_elem_of_singleton in Hin. by injection Hin as ->.
    + intros _ _. eexists. split; reflexivity.
Qed.

(** C6. [retryTransaction] calls the payout creation of the processor at
    most once, with [reference_id] equal to the stored idempotency key of
    the transaction, which it leaves as it is; a transaction whose state is
    neither submitted nor failed (queued, pending, processing among them)
    gets an error, no processor call, and no change. The key being
    non-empty, as every key the submitter mints is, the wrapper sends it
    as it is. *)
Theorem retryTransaction_reuses_idempotency_key
    now api transactionId w id t :
  denotes w transactionId id t →
  let '(result, w') := retryTransaction account now api transactionId w in
  (∀ request, CreatePayout request ∈ api_calls w' →
     CreatePayout request ∈ api_calls w
     ∨ PayoutRequest.reference_id request = Txn.idempotencyKey t)
  ∧ (includes ["submitted"; "failed"] (Txn.state t) = true →
     Txn.retryCount t < maxRetries RETRY_CONFIG →
     ∃ request,
       api_calls w' = api_calls w ++ [CreatePayout request]
       ∧ PayoutRequest.reference_id request = Txn.idempotencyKey t)
  ∧ (includes ["submitted"; "failed"] (Txn.state t) = false →
     result
     = RetryResult.mk false None
         (Some ("Transaction in " +:+ Txn.state t +:+ " state is not retryable"))
     ∧ w' = w)
  ∧ Txn.idempotencyKey <$> transactions_india w' !! id
    = Some (Txn.idempotencyKey t)
  ∧ (Txn.idempotencyKey t ≠ "" →
     ∀ request minted,
       CreatePayout request ∈ api_calls w' →
       CreatePayout request ∈ api_calls w
       ∨ sent_reference_id minted request = Txn.idempotencyKey t).
Proof.
  intros Hden.
  pose proof (retryTransaction_calls now api transactionId w id t Hden) as H.
  destruct (retryTransaction account now api transactionId w) as [result w'].
  destruct H as (Hcalls & Hretried & Hrefused & Hkey).
  repeat split; [exact Hcalls|exact Hretried|by apply Hrefused..|exact Hkey|].
  intros Hnonempty request minted Hin.
  destruct (Hcalls request Hin) as [Hold|Href]; [by left|right].
  unfold sent_reference_id. rewrite Href.
  by rewrite bool_decide_eq_false_2.
Qed.

End RetryFacts.

(** ** Backoff schedule *)

Section Backoff.

Variable account : string.

(** A submission the processor refuses leaves the new transaction in
    submitted, due for a first retry one minute later. *)
Lemma initiatePayoutIndia_refused drawn now api userId fundAccountRecordId
    amount mode purpose narration metadata w fundAccountRecord e :
  validatePayoutAmount mode (Finite amount) = None →
  razorpay_fund_accounts w !! fundAccountRecordId = Some fundAccountRecord →
  FundAccount.active fundAccountRecord = true →
  FundAccount.userId fundAccountRecord = userId →
  transactions_india w !! documentId drawn = None →
  (∀ id t, transactions_india w !! id = Some t →
           Txn.transactionId t ≠ minted_transactionId now drawn) →
  createPayout api
    (initial_request account drawn now userId fundAccountRecord amount mode
       purpose narration) = inl e →
  ∃ w' t,
    initiatePayoutIndia account drawn now api userId fundAccountRecordId amount
      mode purpose narration metadata w
    = (Initiated.mk false (Some (minted_transactionId now drawn)) None
         (Some "submitted") (Some (message_or "Failed to create payout" e)),
       w')
    ∧ denotes w' (minted_transactionId now drawn) (documentId drawn) t
    ∧ Txn.state t = "submitted"
    ∧ Txn.retryCount t = 0
    ∧ Txn.nextRetryAt t = Some (now + 60000)
    ∧ Txn.failedAt t = None.
Proof.
  intros Hvalid Hfund Hactive Huser Hfresh Hnew Hapi.
  unfold initiatePayoutIndia.
  rewrite Hvalid, Hfund, Hactive. simpl negb. cbv iota.
  rewrite bool_decide_eq_false_2 by (intros H; by apply H).
  unfold createDocument. rewrite Hfresh. cbv zeta. rewrite Hapi.
  eexists _, _. split; [reflexivity|].
  unfold with_transactions, called, updateDocument. simpl.
  rewrite alter_insert_eq. simpl.
  split.
  - split; [apply lookup_insert_eq|]. split; [reflexivity|].
    intros id' t' Hd' Ht'.
    destruct (decide (documentId drawn = id')) as [|Hne]; [done|].
    simpl in Hd'. rewrite lookup_insert_ne in Hd' by done.
    by destruct (Hnew _ _ Hd').
  - by repeat split.
Qed.

(** The delay never exceeds the ceiling, and is the ceiling from the
    sixth retry on. *)
Lemma calculateRetryDelay_le_max retryCount :
  calculateRetryDelay retryCount ≤ maxDelayMs RETRY_CONFIG.
Proof. unfold calculateRetryDelay. apply Z.le_min_r. Qed.

Lemma calculateRetryDelay_capped retryCount :
  6 ≤ retryCount → calculateRetryDelay retryCount = maxDelayMs RETRY_CONFIG.
Proof.
  intros Hsix. unfold calculateRetryDelay. simpl.
  apply Z.min_r.
  assert (2 ^ 6 ≤ 2 ^ retryCount) by (apply Z.pow_le_mono_r; lia).
  lia.
Qed.

(** One refused retry of a submitted transaction, in terms of the retry
    bookkeeping. *)
Lemma retryTransaction_refused_step now api transactionId w id t :
  denotes w transactionId id t →
  Txn.state t = "submitted" →
  Txn.retryCount t < maxRetries RETRY_CONFIG →
  refuses api →
  let failedPermanently :=
    bool_decide (maxRetries RETRY_CONFIG ≤ Txn.retryCount t + 1) in
  ∃ result w' t',
    retryTransaction account now api transactionId w = (result, w')
    ∧ denotes w' transactionId id t'
    ∧ RetryResult.newState result
      = (if failedPermanently then Some "failed" else None)
    ∧ Txn.state t' = (if failedPermanently then "failed" else "submitted")
    ∧ Txn.retryCount t' = Txn.retryCount t + 1
    ∧ Txn.nextRetryAt t'
      = (if failedPermanently then None
         else Some (now + calculateRetryDelay (Txn.retryCount t + 1)))
    ∧ Txn.failedAt t' = (if failedPermanently then Some now else Txn.failedAt t).
Proof.
  intros Hden Hstate Hcount Hapi fp.
  destruct (Hapi (retry_request account transactionId t (Txn.retryCount t + 1)))
    as [e He].
  assert (Hretryable : includes ["submitted"; "failed"] (Txn.state t) = true)
    by (by rewrite Hstate).
  destruct (retryTransaction_refused account now _ _ _ _ _ _
              Hden Hretryable Hcount He)
    as (t' & Heq & Hs & Hc & Hn & Hf & Ht & _).
  rewrite Hstate in Hs.
  eexists _, _, t'. split; [exact Heq|].
  split; [|by repeat split].
  unfold retried. eapply denotes_insert; [exact Hden|].
  rewrite Ht. by destruct Hden as (_ & ? & _).
Qed.

(** The bookkeeping of a denoted document. *)
Lemma retry_bookkeeping_denoted w transactionId id t :
  denotes w transactionId id t →
  retry_bookkeeping w id
  = Some (Txn.state t, Txn.retryCount t, Txn.nextRetryAt t, Txn.failedAt t).
Proof. intros (Hd & _). unfold retry_bookkeeping. by rewrite Hd. Qed.

(** C5. A payout whose submission and every retry the processor refuses:
    the submission schedules the first retry 60 s later, the first and the
    second failed retry schedule the next one 120 s and 240 s later, each
    delay being [calculateRetryDelay] of the retry count then stored, and
    the third failed retry leaves the transaction failed, with [failedAt]
    set and [nextRetryAt] cleared. *)
Theorem backoff_schedule drawn now0 now1 now2 now3 api0 api1 api2 api3
    userId fundAccountRecordId amount mode purpose narration metadata w
    fundAccountRecord :
  validatePayoutAmount mode (Finite amount) = None →
  razorpay_fund_accounts w !! fundAccountRecordId = Some fundAccountRecord →
  FundAccount.active fundAccountRecord = true →
  FundAccount.userId fundAccountRecord = userId →
  transactions_india w !! documentId drawn = None →
  (∀ id t, transactions_india w !! id = Some t →
           Txn.transactionId t ≠ minted_transactionId now0 drawn) →
  refuses api0 → refuses api1 → refuses api2 → refuses api3 →
  let transactionId := minted_transactionId now0 drawn in
  let '(_, w0) :=
    initiatePayoutIndia account drawn now0 api0 userId fundAccountRecordId
      amount mode purpose narration metadata w in
  let '(_, w1) := retryTransaction account now1 api1 transactionId w0 in
  let '(_, w2) := retryTransaction account now2 api2 transactionId w1 in
  let '(result, w3) := retryTransaction account now3 api3 transactionId w2 in
  retry_bookkeeping w0 (documentId drawn)
  = Some ("submitted", 0, Some (now0 + 60000), None)
  ∧ retry_bookkeeping w1 (documentId drawn)
    = Some ("submitted", 1, Some (now1 + 120000), None)
  ∧ retry_bookkeeping w2 (documentId drawn)
    = Some ("submitted", 2, Some (now2 + 240000), None)
  ∧ retry_bookkeeping w3 (documentId drawn) = Some ("failed", 3, None, Some now3)
  ∧ RetryResult.newState result = Some "failed"
  ∧ calculateRetryDelay 0 = 60000
  ∧ calculateRetryDelay 1 = 120000
  ∧ calculateRetryDelay 2 = 240000
  ∧ (∀ retryCount,
       calculateRetryDelay retryCount = Z.min (60000 * 2 ^ retryCount) 3600000)
  ∧ (∀ retryCount, calculateRetryDelay retryCount ≤ 3600000).
Proof.
  intros Hvalid Hfund Hactive Huser Hfresh Hnew H0 H1 H2 H3 transactionId.
  destruct (H0 (initial_request account drawn now0 userId fundAccountRecord
                  amount mode purpose narration)) as [e0 He0].
  destruct (initiatePayoutIndia_refused drawn now0 api0 userId
              fundAccountRecordId amount mode purpose narration metadata w
              fundAccountRecord e0 Hvalid Hfund Hactive Huser Hfresh Hnew He0)
    as (w0 & t0 & Heq0 & Hden0 & Hs0 & Hc0 & Hn0 & Hf0).
  subst transactionId. rewrite Heq0. cbv beta iota.
  destruct (retryTransaction_refused_step now1 api1 _ _ _ _ Hden0 Hs0
              ltac:(rewrite Hc0; done) H1)
    as (r1 & w1 & t1 & Heq1 & Hden1 & _ & Hs1 & Hc1 & Hn1 & Hf1).
  rewrite Heq1. cbv beta iota.
  rewrite Hc0 in Hs1, Hc1, Hn1, Hf1. simpl in Hs1, Hc1, Hn1, Hf1.
  destruct (retryTransaction_refused_step now2 api2 _ _ _ _ Hden1 Hs1
              ltac:(rewrite Hc1; done) H2)
    as (r2 & w2 & t2 & Heq2 & Hden2 & _ & Hs2 & Hc2 & Hn2 & Hf2).
  rewrite Heq2. cbv beta iota.
  rewrite Hc1 in Hs2, Hc2, Hn2, Hf2. simpl in Hs2, Hc2, Hn2, Hf2.
  destruct (retryTransaction_refused_step now3 api3 _ _ _ _ Hden2 Hs2
              ltac:(rewrite Hc2; done) H3)
    as (r3 & w3 & t3 & Heq3 & Hden3 & Hr3 & Hs3 & Hc3 & Hn3 & Hf3).
  rewrite Heq3. cbv beta iota.
  rewrite Hc2 in Hr3, Hs3, Hc3, Hn3, Hf3. simpl in Hr3, Hs3, Hc3, Hn3, Hf3.
  rewrite (retry_bookkeeping_denoted _ _ _ _ Hden0),
    (retry_bookkeeping_denoted _ _ _ _ Hden1),
    (retry_bookkeeping_denoted _ _ _ _ Hden2),
    (retry_bookkeeping_denoted _ _ _ _ Hden3).
  rewrite Hs0, Hc0, Hn0, Hf0, Hs1, Hc1, Hn1, Hf1, Hf0, Hs2, Hc2, Hn2, Hf2, Hf1,
    Hf0, Hs3, Hc3, Hn3, Hf3, Hr3.
  repeat split; try reflexivity.
  intros retryCount. apply calculateRetryDelay_le_max.
Qed.

End Backoff.

(** ** Terminal states are not re-entered *)

Section Frames.

(** A write leaves alone every document whose state has no transition to
    the new state. *)
Lemma transitionState_frame now transactionId newState reason source
    metadata w id t :
  transactions_india w !! id = Some t →
  isValidTransition (Txn.state t) newState = false →
  transactions_india
    (transitionState now transactionId newState reason source metadata w).2
  !! id = Some t.
Proof.
  intros Hd Hinvalid. unfold transitionState.
  destruct (listDocuments _ _ 1) as [|[k d] rest] eqn:E; [done|].
  apply listDocuments_head in E as [Hk _].
  destruct (isValidTransition (Txn.state d) newState) eqn:Hvalid; simpl; [|done].
  assert (Hne : k ≠ id).
  { intros ->. rewrite Hd in Hk. injection Hk as ->. congruence. }
  destruct (updateDocument k _ _ !! k); simpl;
    by rewrite updateDocument_lookup_ne.
Qed.

Lemma processPayoutEvent_frame now event w id t :
  transactions_india w !! id = Some t →
  (∀ newState, isValidTransition (Txn.state t) newState = false) →
  transactions_india (processPayoutEvent now event w).2 !! id = Some t.
Proof.
  intros Hd Hterm. unfold processPayoutEvent.
  destruct (WebhookEvent.payout event) as [payout|]; [|done].
  set (found := match listDocuments _ _ 1, truthy _ with
                | [], true => _ | _, _ => _ end).
  assert (Hfound : ∀ k d rest, found = (k, d) :: rest →
                               transactions_india w !! k = Some d).
  { intros k d rest. subst found.
    destruct (listDocuments _ _ 1) as [|[k1 d1] rest1] eqn:E1.
    - destruct (truthy _); [|done].
      intros E2. by apply listDocuments_head in E2 as [? _].
    - intros [= -> -> ->]. by apply listDocuments_head in E1 as [? _]. }
  destruct found as [|[k d] rest]; [done|].
  specialize (Hfound k d rest eq_refl).
  destruct (bool_decide _); [done|].
  destruct (isValidTransition (Txn.state d) _) eqn:Hvalid; simpl; [|done].
  pose proof (transitionState_frame now (Txn.transactionId d)
                (mapPayoutStatusToState (Payout.status payout))
                (Some ("Webhook: " +:+ WebhookEvent.event event))
                (Some webhook) (Some (payout_metadata payout)) w id t Hd
                (Hterm _)) as Hframe.
  destruct (transitionState _ _ _ _ _ _ w) as [result w1]. simpl in Hframe.
  destruct (transition_success result); simpl; [|done].
  assert (Hne : k ≠ id).
  { intros ->. rewrite Hd in Hfound. injection Hfound as ->.
    by rewrite Hterm in Hvalid. }
  by rewrite updateDocument_lookup_ne.
Qed.

Lemma reconcileTransaction_frame now api transactionId w id t :
  transactions_india w !! id = Some t →
  (∀ newState, isValidTransition (Txn.state t) newState = false) →
  transactions_india (reconcileTransaction now api transactionId w).2 !! id
  = Some t.
Proof.
  intros Hd Hterm. unfold reconcileTransaction.
  destruct (listDocuments _ _ 1) as [|[k d] rest]; [done|].
  destruct (negb _); [done|]. simpl.
  destruct (getPayout api _) as [e|payout]; [done|].
  destruct (bool_decide _); [done|].
  destruct (isValidTransition (Txn.state d) _); [|done].
  match goal with
  | |- context [transitionState ?n ?i ?s ?r ?src ?m ?w0] =>
    pose proof (transitionState_frame n i s r src m w0 id t Hd (Hterm _))
      as Hframe;
    destruct (transitionState n i s r src m w0) as [result w1]
  end.
  exact Hframe.
Qed.

Lemma reconcileAllPending_frame now api w id t :
  transactions_india w !! id = Some t →
  (∀ newState, isValidTransition (Txn.state t) newState = false) →
  transactions_india (reconcileAllPending now api w).2 !! id = Some t.
Proof.
  intros Hd Hterm. unfold reconcileAllPending.
  generalize (listDocuments (transactions_india w) pending_with_payout 100)
    at 2 as documents.
  generalize ({| rec_total := Z.of_nat (length (listDocuments
                   (transactions_india w) pending_with_payout 100));
                 rec_reconciled := 0; rec_discrepancies := 0;
                 rec_results := [] |}) as summary.
  intros summary documents. revert summary w Hd.
  induction documents as [|doc documents IH]; intros summary w Hd; [done|].
  simpl.
  pose proof (reconcileTransaction_frame now api (Txn.transactionId doc.2)
                w id t Hd Hterm) as Hframe.
  destruct (reconcileTransaction _ _ _ w) as [result w1].
  by apply IH.
Qed.

Variable account : string.
Variable verifyWebhookSignature : string → string → Exn + bool.
Variable JSON_parse : string → Exn + WebhookEvent.t.
Variable sha256_hex : string → string.

Lemma POST_frame newId now rawBody signature w id t :
  transactions_india w !! id = Some t →
  (∀ newState, isValidTransition (Txn.state t) newState = false) →
  transactions_india
    (POST verifyWebhookSignature JSON_parse sha256_hex newId now rawBody
       signature w).2 !! id
  = Some t.
Proof.
  intros Hd Hterm. unfold POST.
  destruct (negb (truthy signature)); [done|]. cbv zeta.
  destruct (verifyWebhookSignature _ _) as [e|[|]]; [done| |done].
  destruct (JSON_parse rawBody) as [e|event]; [done|].
  destruct (listDocuments _ _ 1); [|done].
  destruct (createDocument _ _ _) as [events|]; [|done].
  destruct (isPayoutEvent _).
  - match goal with
    | |- context [processPayoutEvent ?n ?e ?w0] =>
      pose proof (processPayoutEvent_frame n e w0 id t Hd Hterm) as Hframe;
      destruct (processPayoutEvent n e w0) as [result w1]
    end.
    by destruct (negb _).
  - done.
Qed.

(** A retry leaves alone every document that is not retryable or is out
    of retries. *)
Lemma retryTransaction_frame now api transactionId w id t :
  transactions_india w !! id = Some t →
  includes ["submitted"; "failed"] (Txn.state t) = false
  ∨ maxRetries RETRY_CONFIG ≤ Txn.retryCount t →
  transactions_india (retryTransaction account now api transactionId w).2 !! id
  = Some t.
Proof.
  intros Hd Hkept. unfold retryTransaction.
  destruct (listDocuments _ _ 1) as [|[k d] rest] eqn:E; [done|].
  apply listDocuments_head in E as [Hk _].
  destruct (includes _ (Txn.state d)) eqn:Hstate; simpl; [|done].
  case_bool_decide as Hcount; [done|].
  assert (Hne : k ≠ id).
  { intros ->. rewrite Hd in Hk. injection Hk as ->.
    destruct Hkept; [congruence|contradiction]. }
  destruct (createPayout api _); simpl; by rewrite updateDocument_lookup_ne.
Qed.

Lemma processRetries_frame now api w id t :
  transactions_india w !! id = Some t →
  includes ["submitted"; "failed"] (Txn.state t) = false
  ∨ maxRetries RETRY_CONFIG ≤ Txn.retryCount t →
  transactions_india (processRetries account now api w).2 !! id = Some t.
Proof.
  intros Hd Hkept. unfold processRetries.
  generalize (getTransactionsForRetry now w) as due.
  generalize ({| rs_success := true; rs_processed := 0; rs_succeeded := 0;
                 rs_failed := 0; rs_errors := [] |}) as summary.
  intros summary due. revert summary w Hd.
  induction due as [|transaction due IH]; intros summary w Hd; [done|].
  simpl.
  pose proof (retryTransaction_frame now api (Txn.transactionId transaction)
                w id t Hd Hkept) as Hframe.
  destruct (retryTransaction _ _ _ _ w) as [result w1].
  destruct (RetryResult.success result); by apply IH.
Qed.

(** C1, as the specification states it, fails: a failed transaction with
    retries left is retryable. The retry scheduler picks it up and, the
    processor accepting the payout, moves it out of failed to queued. *)
Lemma failed_transaction_is_retried :
  let t := sample_transaction "failed" 0 (Some 1700000060000) None in
  let w := sample_world t in
  Txn.state t ∈ spec_terminal_states
  ∧ getTransactionsForRetry 1700000100000 w = [t]
  ∧ stored_state
      (retryTransaction "acc_x" 1700000100000 (answering "queued")
         (Txn.transactionId t) w).2 "doc_1" = Some "queued"
  ∧ stored_state
      (processRetries "acc_x" 1700000100000 (answering "queued") w).2 "doc_1"
    = Some "queued".
Proof. split; [by_compute|]. vm_compute. repeat split; reflexivity. Qed.

(** What the scheduler selects of the terminal states: failed
    transactions with retries left whose retry time is set and reached. *)
Lemma getTransactionsForRetry_selects now w t :
  t ∈ getTransactionsForRetry now w →
  Txn.state t ∈ spec_terminal_states →
  Txn.state t = "failed"
  ∧ Txn.retryCount t < maxRetries RETRY_CONFIG
  ∧ ∃ nextRetryAt, Txn.nextRetryAt t = Some nextRetryAt ∧ nextRetryAt ≤ now.
Proof.
  unfold getTransactionsForRetry. intros Hin Hterm.
  apply list_elem_of_fmap in Hin as ([id' t'] & -> & Hin).
  apply listDocuments_elem in Hin as [_ Hdue]. simpl in *.
  unfold due_for_retry in Hdue.
  apply andb_prop in Hdue as [Hdue Hcount].
  apply andb_prop in Hdue as [Hstate Hat].
  apply bool_decide_eq_true in Hcount.
  split.
  - unfold spec_terminal_states in Hterm.
    repeat (apply elem_of_cons in Hterm as [Hs|Hterm];
            [first [exact Hs|rewrite Hs in Hstate; vm_compute in Hstate; done]|]).
    by apply elem_of_nil in Hterm.
  - split; [done|].
    destruct (Txn.nextRetryAt t') as [nextRetryAt|]; [|done].
    apply bool_decide_eq_true in Hat. by exists nextRetryAt.
Qed.

(** C1, amended. For a transaction whose stored state is failed, reversed,
    cancelled or refund_completed: no webhook delivery and no
    reconciliation ([reconcileTransaction], [reconcileAllPending]) changes
    the stored document; no retry ([retryTransaction], [processRetries])
    changes it either when the state is reversed, cancelled or
    refund_completed, or when it is failed with the retry count at the
    maximum. [getTransactionsForRetry], which only reads, selects it only
    when it is failed with retries left and its retry time set and
    reached. A failed transaction with retries left is not protected:
    [retryTransaction] on its transaction id resubmits it and, the
    processor answering with a payout, stores the status of that payout as
    the state (completed for processed). *)
Theorem terminal_state_kept w id t :
  transactions_india w !! id = Some t →
  Txn.state t ∈ spec_terminal_states →
  (∀ newId now rawBody signature,
     transactions_india
       (POST verifyWebhookSignature JSON_parse sha256_hex newId now rawBody
          signature w).2 !! id = Some t)
  ∧ (∀ now api transactionId,
       transactions_india (reconcileTransaction now api transactionId w).2
       !! id = Some t)
  ∧ (∀ now api,
       transactions_india (reconcileAllPending now api w).2 !! id = Some t)
  ∧ (Txn.state t ≠ "failed" ∨ maxRetries RETRY_CONFIG ≤ Txn.retryCount t →
     (∀ now api transactionId,
        transactions_india
          (retryTransaction account now api transactionId w).2 !! id
        = Some t)
     ∧ (∀ now api,
          transactions_india (processRetries account now api w).2 !! id
          = Some t))
  ∧ (∀ now,
       t ∈ getTransactionsForRetry now w →
       Txn.state t = "failed"
       ∧ Txn.retryCount t < maxRetries RETRY_CONFIG
       ∧ ∃ nextRetryAt,
           Txn.nextRetryAt t = Some nextRetryAt ∧ nextRetryAt ≤ now)
  ∧ (∀ now api transactionId payout,
       denotes w transactionId id t →
       Txn.state t = "failed" →
       Txn.retryCount t < maxRetries RETRY_CONFIG →
       createPayout api
         (retry_request account transactionId t (Txn.retryCount t + 1))
       = inr payout →
       stored_state (retryTransaction account now api transactionId w).2 id
       = Some (if bool_decide (Payout.status payout = "processed")
               then "completed" else Payout.status payout)).
Proof.
  intros Hd Hterm.
  assert (Hnone : ∀ newState, isValidTransition (Txn.state t) newState = false)
    by (intros; by apply terminal_no_transition).
  assert (Hkept : Txn.state t ≠ "failed"
                  ∨ maxRetries RETRY_CONFIG ≤ Txn.retryCount t →
                  includes ["submitted"; "failed"] (Txn.state t) = false
                  ∨ maxRetries RETRY_CONFIG ≤ Txn.retryCount t).
  { intros [Hnf|Hmax]; [|by right].
    left. unfold spec_terminal_states in Hterm.
    repeat (apply elem_of_cons in Hterm as [Hs|Hterm];
            [rewrite Hs in *; try done; vm_compute; reflexivity|]).
    by apply elem_of_nil in Hterm. }
  split; [intros; by apply POST_frame|].
  split; [intros; by apply reconcileTransaction_frame|].
  split; [intros; by apply reconcileAllPending_frame|].
  split.
  { intros Hguard. split; intros.
    - apply retryTransaction_frame; [done|by apply Hkept].
    - apply processRetries_frame; [done|by apply Hkept]. }
  split; [intros now Hin; by apply (getTransactionsForRetry_selects now w)|].
  intros now api transactionId payout Hden Hfailed Hcount Hapi.
  destruct (retryTransaction_accepted account now api transactionId w id t
              payout Hden) as (t' & -> & Hstate & _); [by rewrite Hfailed|done|done|].
  unfold stored_state, retried. simpl. rewrite lookup_insert_eq. simpl.
  f_equal. exact Hstate.
Qed.

End Frames.

(** ** The status mapping *)

Section StatusMapping.

Lemma status_mapping_recognised status state :
  (status, state) ∈ spec_status_mapping →
  mapPayoutStatusToState status = state ∧ reconciled_state status = state.
Proof.
  unfold spec_status_mapping. intros Hin.
  repeat (apply elem_of_cons in Hin as [Hin|Hin];
          [injection Hin as -> ->; split; reflexivity|]).
  by apply elem_of_nil in Hin.
Qed.

Lemma status_mapping_unrecognised status :
  status ∉ payout_status_vocabulary →
  mapPayoutStatusToState status = "pending" ∧ reconciled_state status = status.
Proof.
  unfold payout_status_vocabulary, spec_status_mapping. simpl.
  rewrite !not_elem_of_cons. intros (?&?&?&?&?&?&?&?&_).
  unfold mapPayoutStatusToState, reconciled_state.
  by rewrite !bool_decide_eq_false_2 by done.
Qed.

(** Every state the table leads to is a state of the enum. *)
Lemma isValidTransition_enum fromState toState :
  isValidTransition fromState toState = true →
  is_TransactionState toState = true.
Proof.
  intros Hin%isValidTransition_sound. unfold spec_transition_table in Hin.
  repeat (apply elem_of_cons in Hin as [Hin|Hin];
          [injection Hin as -> ->; reflexivity|]).
  by apply elem_of_nil in Hin.
Qed.

(** C4, as the specification states it, fails on the webhook side: a
    delivery whose payout status is outside the vocabulary is handled as
    pending, here moving a queued transaction to pending and reporting
    success, where the reconciler keeps the state and reports a
    discrepancy. *)
Lemma webhook_unrecognised_status_moves_state :
  ("scheduled" ∉ payout_status_vocabulary)
  ∧ stored_state
      (sample_world (sample_transaction "queued" 0 None (Some "pout_1")))
      "doc_1" = Some "queued"
  ∧ (let '(response, w') :=
       POST sample_verify sample_parse sample_digest "evt_doc_1" 1700000200000
         "body: payout.queued for pout_1, scheduled" (Some "3f5a9c")
         (sample_world (sample_transaction "queued" 0 None (Some "pout_1"))) in
     stored_state w' "doc_1" = Some "pending"
     ∧ body response
       = SuccessBody "Event processed successfully"
           (Some "acc_1:payout.queued:pout_1:17000")
           (Some "txn_1700000000000_ab12cd") None)
  ∧ (let '(result, w') :=
       reconcileTransaction 1700000200000 (answering "scheduled")
         "txn_1700000000000_ab12cd"
         (sample_world (sample_transaction "queued" 0 None (Some "pout_1"))) in
     stored_state w' "doc_1" = Some "queued"
     ∧ Reconciliation.reconciled result = false).
Proof.
  split; [by_compute|]. split; [reflexivity|].
  split; vm_compute; split; reflexivity.
Qed.

(** C4, amended. The webhook processor and the reconciler map the eight
    statuses of the vocabulary by the same table. A status outside the
    vocabulary is mapped to pending by the webhook processor, and is taken
    as it is by the reconciler. When that status is not a state of the enum
    either, the reconciler writes nothing: it reports the transaction
    reconciled, with no discrepancy, if the stored state is that very
    string (the submitter stores raw statuses), and reports a discrepancy
    otherwise. *)
Theorem status_mapping_shared :
  (∀ status state,
     (status, state) ∈ spec_status_mapping →
     mapPayoutStatusToState status = state ∧ reconciled_state status = state)
  ∧ (∀ status,
       status ∉ payout_status_vocabulary →
       mapPayoutStatusToState status = "pending"
       ∧ reconciled_state status = status)
  ∧ (∀ now api transactionId w id t payout,
       denotes w transactionId id t →
       truthy (Txn.razorpayPayoutId t) = true →
       getPayout api (default "" (Txn.razorpayPayoutId t)) = inr payout →
       Payout.status payout ∉ payout_status_vocabulary →
       is_TransactionState (Payout.status payout) = false →
       (Payout.status payout = Txn.state t →
        reconcileTransaction now api transactionId w
        = (Reconciliation.mk transactionId (Txn.state t) (Txn.state t)
             "razorpay_sync" true None,
           called (GetPayout (default "" (Txn.razorpayPayoutId t))) w))
       ∧ (Payout.status payout ≠ Txn.state t →
          ∃ result discrepancy,
            reconcileTransaction now api transactionId w
            = (result,
               called (GetPayout (default "" (Txn.razorpayPayoutId t))) w)
            ∧ Reconciliation.reconciled result = false
            ∧ Reconciliation.discrepancy result = Some discrepancy)).
Proof.
  split; [exact status_mapping_recognised|].
  split; [exact status_mapping_unrecognised|].
  intros now api transactionId w id t payout Hden Hpayout Hapi Hout Hraw.
  unfold reconcileTransaction.
  rewrite (denotes_listed _ _ _ _ Hden), Hpayout. simpl negb. cbv iota zeta.
  rewrite Hapi.
  destruct (status_mapping_unrecognised _ Hout) as [_ ->].
  split.
  - intros Hsame. by rewrite bool_decide_eq_true_2.
  - intros Hother. rewrite bool_decide_eq_false_2 by done.
    destruct (isValidTransition (Txn.state t) (Payout.status payout))
      eqn:Hvalid.
    { apply isValidTransition_enum in Hvalid. congruence. }
    by eexists _, _.
Qed.

End StatusMapping.

(** ** Webhook deduplication *)

Section Deduplication.

Variable verifyWebhookSignature : string → string → Exn + bool.
Variable JSON_parse : string → Exn + WebhookEvent.t.
Variable sha256_hex : string → string.

Lemma transitionState_events now transactionId newState reason source
    metadata w :
  webhook_events
    (transitionState now transactionId newState reason source metadata w).2
  = webhook_events w.
Proof.
  unfold transitionState.
  destruct (listDocuments _ _ 1) as [|[k d] rest]; [done|].
  destruct (negb _); [done|]. simpl.
  by destruct (updateDocument k _ _ !! k).
Qed.

Lemma processPayoutEvent_events now event w :
  webhook_events (processPayoutEvent now event w).2 = webhook_events w.
Proof.
  unfold processPayoutEvent.
  destruct (WebhookEvent.payout event) as [payout|]; [|done].
  destruct (match listDocuments _ _ 1, truthy _ with
            | [], true => _ | _, _ => _ end) as [|[k d] rest]; [done|].
  destruct (bool_decide _); [done|].
  destruct (negb _); [done|].
  match goal with
  | |- context [transitionState ?n ?i ?s ?r ?src ?m ?w0] =>
    pose proof (transitionState_events n i s r src m w0) as Hev;
    destruct (transitionState n i s r src m w0) as [result w1]
  end.
  by destruct (negb _).
Qed.





(** A header that is present and not empty passes the test
    [!signature]. *)
Lemma truthy_signature signature :
  signature ≠ "" → negb (truthy (Some signature)) = false.
Proof. intros Hs. simpl. by rewrite bool_decide_eq_true_2. Qed.

(** A delivery whose event id is already on record: the answer is the
    already-processed one and nothing is written, whatever the record
    says about the earlier processing. *)
Lemma POST_duplicate newId now rawBody signature w event k record :
  signature ≠ "" →
  verifyWebhookSignature rawBody signature = inr true →
  JSON_parse rawBody = inr event →
  webhook_events w !! k = Some record →
  Evt.eventId record = generateEventId sha256_hex event →
  POST verifyWebhookSignature JSON_parse sha256_hex newId now rawBody
    (Some signature) w
  = (already_processed (generateEventId sha256_hex event), w).
Proof.
  intros Hs Hsig Hparse Hrecord Hid. unfold POST.
  rewrite (truthy_signature _ Hs). cbv zeta. simpl default.
  rewrite Hsig, Hparse.
  destruct (listDocuments_found (webhook_events w)
              (λ r, bool_decide (Evt.eventId r = generateEventId sha256_hex event))
              0 k record Hrecord) as (k' & r' & rest & ->).
  - by apply bool_decide_eq_true.
  - reflexivity.
Qed.







(** C10. Deduplication is by the existence of the event record alone: with
    a record stored for the event id, whatever its [processed] flag and
    error, a delivery that passes the signature check and derives that id
    gets the already-processed answer, and nothing is processed or
    written. (An empty signature header never reaches the check: the
    route answers it as a missing one.) *)
Theorem deduplication_ignores_processed_flag
    newId now rawBody signature w event k record :
  verifyWebhookSignature rawBody signature = inr true →
  JSON_parse rawBody = inr event →
  webhook_events w !! k = Some record →
  Evt.eventId record = generateEventId sha256_hex event →
  POST verifyWebhookSignature JSON_parse sha256_hex newId now rawBody
    (Some signature) w
  = (if bool_decide (signature = "") then missing_signature
     else json (SuccessBody "Event already processed"
                  (Some (generateEventId sha256_hex event)) None None), w).
Proof.
  intros Hsig Hparse Hrecord Hid. case_bool_decide as Hs.
  - by rewrite Hs.
  - by apply (POST_duplicate newId now rawBody signature w event k record).
Qed.

End Deduplication.

(** ** States outside the enum *)

(** Every state [transitionState] writes is a state of the enum: the
    webhook processor and the reconciler, which write through it, keep the
    stored state inside the enum. *)
Lemma transitionState_writes_enum now transactionId newState reason source
    metadata w :
  transition_success
    (transitionState now transactionId newState reason source metadata w).1
  = true →
  is_TransactionState newState = true.
Proof.
  unfold transitionState.
  destruct (listDocuments _ _ 1) as [|[k d] rest]; [done|].
  destruct (isValidTransition (Txn.state d) newState) eqn:Hvalid; [|done].
  intros _. by apply isValidTransition_enum in Hvalid.
Qed.

(** The submitter stores the processor's status as the state, whatever
    it is. *)
Lemma initiatePayoutIndia_stores_status account status :
  stored_state
    (initiatePayoutIndia account sample_drawn 1700000000000 (answering status)
       "user_1" "fund_1" (500 # 1) UPI "payout" None None empty_world).2
    "doc_1"
  = Some status.
Proof. vm_compute. reflexivity. Qed.

(** C8, the failing inputs evaluated. A payout the processor reports as
    processed at submission is stored with state processed, and a retried
    payout the processor reports as rejected is stored with state rejected:
    neither is one of the eleven states of the enum. *)
Theorem stored_state_outside_enum :
  stored_state
    (initiatePayoutIndia "2323230041626905" sample_drawn 1700000000000
       (answering "processed") "user_1" "fund_1" (500 # 1) UPI "payout" None
       None empty_world).2 "doc_1"
  = Some "processed"
  ∧ is_TransactionState "processed" = false
  ∧ stored_state
      (retryTransaction "2323230041626905" 1700000100000 (answering "rejected")
         "txn_1700000000000_ab12cd"
         (sample_world
            (sample_transaction "submitted" 0 (Some 1700000060000) None))).2
      "doc_1"
    = Some "rejected"
  ∧ is_TransactionState "rejected" = false.
Proof. vm_compute. repeat split; reflexivity. Qed.

(** ** Cancellation and status sync *)

(** Only a queued payout is cancelled: a processing one is refused and
    kept, a queued one becomes cancelled. *)
Lemma cancelPayoutIndia_only_queued :
  cancelPayoutIndia 1700000200000 (answering "cancelled")
    "txn_1700000000000_ab12cd" "user_1"
    (sample_world (sample_transaction "processing" 0 None (Some "pout_1")))
  = (Some "Cannot cancel payout in processing state",
     sample_world (sample_transaction "processing" 0 None (Some "pout_1")))
  ∧ stored_state
      (cancelPayoutIndia 1700000200000 (answering "cancelled")
         "txn_1700000000000_ab12cd" "user_1"
         (sample_world (sample_transaction "queued" 0 None (Some "pout_1")))).2
      "doc_1"
    = Some "cancelled".
Proof. split; vm_compute; reflexivity. Qed.

(** [syncPayoutStatus] is outside the reconciler the properties above
    cover: it writes the processor's status without consulting the
    transition table, here moving a reversed transaction to queued. *)
Lemma syncPayoutStatus_skips_the_table :
  stored_state
    (syncPayoutStatus 1700000200000 (answering "queued")
       "txn_1700000000000_ab12cd"
       (sample_world (sample_transaction "reversed" 0 None (Some "pout_1")))).2
    "doc_1"
  = Some "queued".
Proof. vm_compute. reflexivity. Qed.

(** ** The properties at concrete inputs *)

Lemma sample_world_denotes t :
  denotes (sample_world t) (Txn.transactionId t) "doc_1" t.
Proof.
  split; [apply lookup_singleton_eq|]. split; [reflexivity|].
  intros id' t' Hd' _. simpl in Hd'.
  apply lookup_singleton_Some in Hd'. symmetry. apply Hd'.
Defined.

(** C1 at a reversed transaction, which a processed webhook, a
    reconciliation and a retry leave as it is, and at a failed one with
    retries left, which a retry the processor queues moves to queued. *)
Lemma terminal_state_kept_witness :
  let t := sample_transaction "reversed" 0 None (Some "pout_1") in
  let failed := sample_transaction "failed" 0 (Some 1700000060000) None in
  transactions_india
    (POST sample_verify sample_parse sample_digest "evt_doc_1" 1700000200000
       "body: payout.processed for pout_1" (Some "3f5a9c") (sample_world t)).2
    !! "doc_1" = Some t
  ∧ transactions_india
      (reconcileTransaction 1700000200000 (answering "processed")
         "txn_1700000000000_ab12cd" (sample_world t)).2 !! "doc_1"
    = Some t
  ∧ transactions_india
      (retryTransaction "2323230041626905" 1700000200000 (answering "queued")
         "txn_1700000000000_ab12cd" (sample_world t)).2 !! "doc_1"
    = Some t
  ∧ stored_state
      (retryTransaction "2323230041626905" 1700000200000 (answering "queued")
         "txn_1700000000000_ab12cd" (sample_world failed)).2 "doc_1"
    = Some "queued".
Proof.
  intros t failed.
  destruct (terminal_state_kept "2323230041626905" sample_verify sample_parse
              sample_digest (sample_world t) "doc_1" t)
    as (Hwebhook & Hreconcile & _ & Hretry & _).
  { apply lookup_singleton_eq. }
  { by_compute. }
  destruct (terminal_state_kept "2323230041626905" sample_verify sample_parse
              sample_digest (sample_world failed) "doc_1" failed)
    as (_ & _ & _ & _ & _ & Hopen).
  { apply lookup_singleton_eq. }
  { by_compute. }
  split; [apply Hwebhook|]. split; [apply Hreconcile|].
  split; [apply Hretry; left; discriminate|].
  apply (Hopen 1700000200000 (answering "queued") "txn_1700000000000_ab12cd"
           (sample_payout "queued")).
  - apply (sample_world_denotes failed).
  - reflexivity.
  - reflexivity.
  - reflexivity.
Defined.

(** C2 at two pairs, one in the table and one outside. *)
Lemma isValidTransition_table_witness :
  isValidTransition "pending" "completed" = true
  ∧ isValidTransition "completed" "pending" = false
  ∧ isValidTransition "failed" "queued" = false.
Proof.
  destruct isValidTransition_table as (Hiff & Hout & Hterm).
  split; [apply Hiff; by_compute|].
  split; [apply Hout; by_compute|].
  apply Hterm; by_compute.
Defined.

(** C4 at the status scheduled, reconciled against a queued transaction
    and against a transaction stored as scheduled. *)
Lemma status_mapping_shared_witness :
  mapPayoutStatusToState "rejected" = "failed"
  ∧ reconciled_state "rejected" = "failed"
  ∧ mapPayoutStatusToState "scheduled" = "pending"
  ∧ (∃ result discrepancy,
       reconcileTransaction 1700000200000 (answering "scheduled")
         "txn_1700000000000_ab12cd"
         (sample_world (sample_transaction "queued" 0 None (Some "pout_1")))
       = (result,
          called (GetPayout "pout_1")
            (sample_world
               (sample_transaction "queued" 0 None (Some "pout_1"))))
       ∧ Reconciliation.reconciled result = false
       ∧ Reconciliation.discrepancy result = Some discrepancy)
  ∧ reconcileTransaction 1700000200000 (answering "scheduled")
      "txn_1700000000000_ab12cd"
      (sample_world (sample_transaction "scheduled" 0 None (Some "pout_1")))
    = (Reconciliation.mk "txn_1700000000000_ab12cd" "scheduled" "scheduled"
         "razorpay_sync" true None,
       called (GetPayout "pout_1")
         (sample_world
            (sample_transaction "scheduled" 0 None (Some "pout_1")))).
Proof.
  destruct status_mapping_shared as (Hin & Hout & Hreconciler).
  split; [apply (Hin "rejected" "failed"); by_compute|].
  split; [apply (Hin "rejected" "failed"); by_compute|].
  split; [apply (Hout "scheduled"); by_compute|].
  split.
  - apply (Hreconciler 1700000200000 (answering "scheduled")
             "txn_1700000000000_ab12cd" _ "doc_1"
             (sample_transaction "queued" 0 None (Some "pout_1"))
             (sample_payout "scheduled")).
    + apply (sample_world_denotes
               (sample_transaction "queued" 0 None (Some "pout_1"))).
    + reflexivity.
    + reflexivity.
    + by_compute.
    + reflexivity.
    + discriminate.
  - apply (Hreconciler 1700000200000 (answering "scheduled")
             "txn_1700000000000_ab12cd" _ "doc_1"
             (sample_transaction "scheduled" 0 None (Some "pout_1"))
             (sample_payout "scheduled")).
    + apply (sample_world_denotes
               (sample_transaction "scheduled" 0 None (Some "pout_1"))).
    + reflexivity.
    + reflexivity.
    + by_compute.
    + reflexivity.
    + reflexivity.
Defined.

(** C5 on the sample payout, the processor being unreachable throughout. *)
Lemma backoff_schedule_witness :
  let '(_, w0) :=
    initiatePayoutIndia "2323230041626905" sample_drawn 1700000000000
      unreachable "user_1" "fund_1" (500 # 1) UPI "payout" None None
      empty_world in
  let '(_, w1) :=
    retryTransaction "2323230041626905" 1700000061000 unreachable
      "txn_1700000000000_ab12cd" w0 in
  let '(_, w2) :=
    retryTransaction "2323230041626905" 1700000182000 unreachable
      "txn_1700000000000_ab12cd" w1 in
  let '(result, w3) :=
    retryTransaction "2323230041626905" 1700000423000 unreachable
      "txn_1700000000000_ab12cd" w2 in
  retry_bookkeeping w0 "doc_1" = Some ("submitted", 0, Some 1700000060000, None)
  ∧ retry_bookkeeping w1 "doc_1"
    = Some ("submitted", 1, Some 1700000181000, None)
  ∧ retry_bookkeeping w2 "doc_1"
    = Some ("submitted", 2, Some 1700000422000, None)
  ∧ retry_bookkeeping w3 "doc_1" = Some ("failed", 3, None, Some 1700000423000).
Proof.
  pose proof (backoff_schedule "2323230041626905" sample_drawn 1700000000000
    1700000061000 1700000182000 1700000423000 unreachable unreachable
    unreachable unreachable "user_1" "fund_1" (500 # 1) UPI "payout" None None
    empty_world sample_fund_account) as H.
  assert (Hrefuses : refuses unreachable) by (intros request; by eexists).
  specialize (H eq_refl (lookup_singleton_eq _ _) eq_refl eq_refl
                (lookup_empty _)).
  specialize (H ltac:(intros id t Ht; simpl in Ht;
                      by rewrite lookup_empty in Ht)
                Hrefuses Hrefuses Hrefuses Hrefuses).
  cbv zeta in H.
  change (minted_transactionId 1700000000000 sample_drawn)
    with "txn_1700000000000_ab12cd" in H.
  change (documentId sample_drawn) with "doc_1" in H.
  destruct (initiatePayoutIndia _ _ _ _ _ _ _ _ _ _ _ _) as [r0 w0].
  destruct (retryTransaction _ _ _ _ w0) as [r1 w1].
  destruct (retryTransaction _ _ _ _ w1) as [r2 w2].
  destruct (retryTransaction _ _ _ _ w2) as [r3 w3].
  destruct H as (H0 & H1 & H2 & H3 & _).
  repeat split; assumption.
Defined.

(** C6 on a submitted transaction the processor then queues, and on a
    pending one. *)
Lemma retryTransaction_reuses_idempotency_key_witness :
  (∃ request,
     api_calls
       (retryTransaction "2323230041626905" 1700000100000 (answering "queued")
          "txn_1700000000000_ab12cd"
          (sample_world
             (sample_transaction "submitted" 0 (Some 1700000060000) None))).2
     = [CreatePayout request]
     ∧ PayoutRequest.reference_id request
       = "payout_user_1_1700000000000_0011223344556677")
  ∧ api_calls
      (retryTransaction "2323230041626905" 1700000100000 (answering "queued")
         "txn_1700000000000_ab12cd"
         (sample_world (sample_transaction "pending" 0 None (Some "pout_1")))).2
    = [].
Proof.
  split.
  - pose proof (retryTransaction_reuses_idempotency_key "2323230041626905"
      1700000100000 (answering "queued") "txn_1700000000000_ab12cd" _ "doc_1" _
      (sample_world_denotes
         (sample_transaction "submitted" 0 (Some 1700000060000) None))) as H.
    destruct (retryTransaction _ _ _ _ _) as [result w'].
    destruct H as (_ & Hcall & _). apply Hcall; [reflexivity|done].
  - pose proof (retryTransaction_reuses_idempotency_key "2323230041626905"
      1700000100000 (answering "queued") "txn_1700000000000_ab12cd" _ "doc_1" _
      (sample_world_denotes
         (sample_transaction "pending" 0 None (Some "pout_1")))) as H.
    destruct (retryTransaction _ _ _ _ _) as [result w'].
    destruct H as (_ & _ & Hrefused & _).
    destruct (Hrefused eq_refl) as [_ ->]. reflexivity.
Defined.


(** C10 on a reversed webhook for a queued transaction: the processing
    fails and the record is stored with [processed] false; the same
    webhook delivered again is answered as already processed. *)
Lemma deduplication_ignores_processed_flag_witness :
  let w1 :=
    (POST sample_verify sample_parse sample_digest "evt_doc_1" 1700000200000
       "body: payout.reversed for pout_1" (Some "3f5a9c")
       (sample_world (sample_transaction "queued" 0 None (Some "pout_1")))).2 in
  Evt.processed <$> webhook_events w1 !! "evt_doc_1" = Some false
  ∧ POST sample_verify sample_parse sample_digest "evt_doc_2" 1700000200500
      "body: payout.reversed for pout_1" (Some "3f5a9c") w1
    = (json (SuccessBody "Event already processed"
               (Some "acc_1:payout.reversed:pout_1:170") None None), w1).
Proof.
  intros w1. split; [vm_compute; reflexivity|].
  eapply (deduplication_ignores_processed_flag sample_verify sample_parse
            sample_digest "evt_doc_2" 1700000200500
            "body: payout.reversed for pout_1" "3f5a9c" w1
            (sample_event "payout.reversed" "reversed") "evt_doc_1").
  - reflexivity.
  - reflexivity.
  - vm_compute. reflexivity.
  - reflexivity.
Defined.

(** C9 at the state cancelled and at the state queued. *)
Lemma isTerminalState_five_witness :
  isTerminalState "cancelled" = true ∧ isTerminalState "queued" = false.
Proof.
  destruct isTerminalState_five as [Hiff Hother].
  split; [apply Hiff; right; by_compute|apply Hother; by_compute].
Defined.

(** C3 at a concrete write, pending to completed, and at a transaction
    id no document carries. *)
Lemma transitionState_decides_on_stored_state_witness :
  (∃ updated,
     transitionState 1700000200000 "txn_1700000000000_ab12cd" "completed"
       None (Some webhook) None
       (sample_world (sample_transaction "pending" 0 None (Some "pout_1")))
     = (TransitionOk updated,
        with_transactions (insert "doc_1" updated)
          (sample_world (sample_transaction "pending" 0 None (Some "pout_1"))))
     ∧ Txn.state updated = "completed"
     ∧ Txn.completedAt updated = Some 1700000200000)
  ∧ transitionState 1700000200000 "txn_1700000000000_zz99zz" "completed"
      None (Some webhook) None
      (sample_world (sample_transaction "pending" 0 None (Some "pout_1")))
    = (TransitionError "Transaction not found",
       sample_world (sample_transaction "pending" 0 None (Some "pout_1"))).
Proof.
  split.
  - pose proof (proj2 (transitionState_decides_on_stored_state 1700000200000
      "txn_1700000000000_ab12cd" "completed" None (Some webhook) None _)
      "doc_1" _
      (sample_world_denotes
         (sample_transaction "pending" 0 None (Some "pout_1")))) as H.
    change (isValidTransition _ _) with true in H. cbv iota in H.
    destruct H as (updated & Heq & Hs & _ & _ & _ & Hc & _).
    exists updated. repeat split; assumption.
  - apply (proj1 (transitionState_decides_on_stored_state 1700000200000
      "txn_1700000000000_zz99zz" "completed" None (Some webhook) None _)).
    intros id t Hd. simpl in Hd.
    apply lookup_singleton_Some in Hd as [_ <-]. discriminate.
Defined.

(** * Further properties *)

(** ** The life cycle has no cycle *)

Lemma state_rank_bound state : (state_rank state ≤ 7)%nat.
Proof. unfold state_rank. repeat case_bool_decide; lia. Qed.

Lemma valid_path_rank state path :
  valid_path (state :: path) →
  (length (state :: path) + state_rank state ≤ 8)%nat.
Proof.
  revert state. induction path as [|next path IH]; intros state Hpath.
  - pose proof (state_rank_bound state). simpl. lia.
  - destruct Hpath as [Hvalid Hrest].
    apply state_rank_increases in Hvalid. specialize (IH next Hrest).
    simpl in *. lia.
Qed.

(** X1. The transitions the table allows never lead back: no state
    reaches itself, none reaches initiated, and a sequence of states
    linked by valid transitions holds at most eight states, so that a
    transaction takes at most seven transitions. *)
Theorem transitions_never_cycle :
  (∀ state, isValidTransition state state = false)
  ∧ (∀ state, isValidTransition state "initiated" = false)
  ∧ (∀ path, valid_path path → (length path ≤ 8)%nat).
Proof.
  split; [|split].
  - intros state. destruct (isValidTransition state state) eqn:E; [|done].
    apply state_rank_increases in E. lia.
  - intros state. destruct (isValidTransition state "initiated") eqn:E; [|done].
    apply state_rank_increases in E. vm_compute in E. lia.
  - intros [|state path] Hpath; [simpl; lia|].
    pose proof (valid_path_rank state path Hpath). lia.
Qed.

Lemma transitions_never_cycle_witness :
  (length ["initiated"; "submitted"; "queued"; "pending"; "processing";
           "completed"; "refund_pending"; "refund_completed"] ≤ 8)%nat.
Proof.
  apply transitions_never_cycle. vm_compute. repeat split; reflexivity.
Defined.

(** X2. The table stays inside the enum, and among the states of the enum
    exactly failed, reversed, cancelled and refund_completed are dead
    ends: every other state has a valid next state. *)
Theorem transitions_closed_in_enum :
  (∀ fromState toState,
     isValidTransition fromState toState = true →
     is_TransactionState fromState = true
     ∧ is_TransactionState toState = true)
  ∧ (∀ state,
       is_TransactionState state = true →
       ((∀ toState, isValidTransition state toState = false)
        ↔ state ∈ ["failed"; "reversed"; "cancelled"; "refund_completed"])).
Proof.
  split.
  - intros f t Hvalid. split; [|by apply isValidTransition_enum in Hvalid].
    apply isValidTransition_sound in Hvalid. unfold spec_transition_table in Hvalid.
    repeat (apply elem_of_cons in Hvalid as [Hvalid|Hvalid];
            [injection Hvalid as -> ->; reflexivity|]).
    by apply elem_of_nil in Hvalid.
  - intros state Henum. split.
    + intros Hdead. unfold is_TransactionState in Henum.
      apply bool_decide_eq_true in Henum. unfold TransactionState_values in Henum.
      repeat (apply elem_of_cons in Henum as [->|Henum];
              [first [ by_compute
                     | specialize (Hdead "failed"); vm_compute in Hdead;
                       discriminate
                     | specialize (Hdead "reversed"); vm_compute in Hdead;
                       discriminate ]|]).
      by apply elem_of_nil in Henum.
    + intros Hterm toState. by apply terminal_no_transition.
Qed.

Lemma transitions_closed_in_enum_witness :
  is_TransactionState "processing" = true
  ∧ is_TransactionState "completed" = true
  ∧ ∀ toState, isValidTransition "cancelled" toState = false.
Proof.
  destruct transitions_closed_in_enum as [Hclosed Hdead].
  destruct (Hclosed "processing" "completed" eq_refl) as [Hf Ht].
  split; [exact Hf|]. split; [exact Ht|].
  apply (Hdead "cancelled" eq_refl). by_compute.
Defined.

(** ** The backoff delay *)

Lemma pow2_le m n : 0 ≤ m ≤ n → 2 ^ m ≤ 2 ^ n.
Proof. intros. apply Z.pow_le_mono_r; lia. Qed.

(** X3. The retry delay starts at one minute, never decreases with the
    retry count, doubles up to the fifth retry and is one hour from the
    sixth retry on. *)
Theorem calculateRetryDelay_bounds m n :
  0 ≤ m ≤ n →
  calculateRetryDelay m ≤ calculateRetryDelay n
  ∧ 60000 ≤ calculateRetryDelay m ≤ 3600000
  ∧ (m ≤ 5 → calculateRetryDelay m = 60000 * 2 ^ m)
  ∧ (6 ≤ m → calculateRetryDelay m = 3600000).
Proof.
  intros Hmn. unfold calculateRetryDelay. simpl.
  pose proof (pow2_le m n Hmn) as Hpow.
  pose proof (pow2_le 0 m ltac:(lia)) as Hpow0. simpl in Hpow0.
  repeat split; try lia.
  - intros Hm. pose proof (pow2_le m 5 ltac:(lia)) as H5.
    change (2 ^ 5) with 32 in H5. lia.
  - intros Hm. pose proof (pow2_le 6 m ltac:(lia)) as H6.
    change (2 ^ 6) with 64 in H6. lia.
Qed.

Lemma calculateRetryDelay_bounds_witness :
  calculateRetryDelay 2 ≤ calculateRetryDelay 7
  ∧ 60000 ≤ calculateRetryDelay 2 ≤ 3600000.
Proof.
  destruct (calculateRetryDelay_bounds 2 7 ltac:(lia)) as (H1 & H2 & _).
  split; assumption.
Defined.

(** ** Processor statuses and internal states *)

(** X4. The wrapper and the state machine agree on what is final: a
    payout status is terminal for the wrapper exactly when the state the
    webhook maps it to is terminal for the state machine; and a status the
    wrapper lets cancel is mapped to queued, the one state
    [cancelPayoutIndia] accepts, and is not terminal. *)
Theorem terminal_status_agrees status :
  isTerminalStatus status = isTerminalState (mapPayoutStatusToState status)
  ∧ (canCancelPayout status = true →
     mapPayoutStatusToState status = "queued"
     ∧ isTerminalStatus status = false).
Proof.
  split.
  - destruct (decide (status ∈ payout_status_vocabulary)) as [Hin|Hout].
    + unfold payout_status_vocabulary, spec_status_mapping in Hin. simpl in Hin.
      repeat (apply elem_of_cons in Hin as [->|Hin]; [reflexivity|]).
      by apply elem_of_nil in Hin.
    + destruct (status_mapping_unrecognised _ Hout) as [-> _].
      unfold isTerminalStatus. rewrite !includes_cons, includes_nil.
      unfold payout_status_vocabulary, spec_status_mapping in Hout.
      simpl in Hout. rewrite !not_elem_of_cons in Hout.
      destruct Hout as (?&?&?&?&?&?&?&?&_).
      by rewrite !bool_decide_eq_false_2 by done.
  - unfold canCancelPayout. intros ->%bool_decide_eq_true. by split.
Qed.

Lemma terminal_status_agrees_witness :
  mapPayoutStatusToState "queued" = "queued"
  ∧ isTerminalStatus "queued" = false.
Proof. apply (terminal_status_agrees "queued"). reflexivity. Defined.

(** ** Amount limits *)

Lemma Qle_bool_false a b : Qle_bool a b = false → ¬ (a <= b)%Q.
Proof. intros Hf Hle. apply Qle_bool_iff in Hle. congruence. Qed.

(** What the validation accepts, number by number. *)
Lemma validatePayoutAmount_accepts mode amount :
  validatePayoutAmount mode amount = None
  ↔ match amount with
    | Finite q => within_limits mode q
    | NaN => mode ≠ card
    | Infinity => mode = NEFT ∨ mode = RTGS
    | NegInfinity => False
    end.
Proof.
  unfold validatePayoutAmount.
  destruct amount as [| | |q]; destruct mode; simpl;
    try (split; intros H; first [done|discriminate|tauto|by destruct H]).
  all: repeat match goal with
              | |- context [Qle_bool ?a ?b] =>
                let E := fresh "E" in destruct (Qle_bool a b) eqn:E; simpl
              end;
    repeat match goal with
           | H : Qle_bool _ _ = true |- _ => apply Qle_bool_iff in H
           | H : Qle_bool _ _ = false |- _ => apply Qle_bool_false in H
           end;
    (split; intros H); first [done|discriminate|tauto].
Qed.

(** X5. What [validatePayoutAmount] accepts. A finite amount is valid for
    a mode exactly within the limits of the mode: from Rs 1 to Rs 1 lakh
    for UPI, to Rs 5 lakh for IMPS, from Rs 1 for NEFT, from Rs 2 lakh for
    RTGS, and never for card. Of the numbers that are not finite, NaN is
    valid for every mode but card, both comparisons being false of it,
    +Infinity is valid for NEFT and RTGS, which have no upper limit, and
    -Infinity for none. *)
Theorem validatePayoutAmount_limits mode amount :
  validatePayoutAmount mode amount = None
  ↔ match amount with
    | Finite q => within_limits mode q
    | NaN => mode ≠ card
    | Infinity => mode = NEFT ∨ mode = RTGS
    | NegInfinity => False
    end.
Proof. apply validatePayoutAmount_accepts. Qed.

(** X6. The mode recommended for an amount of at least Rs 1 accepts that
    amount, urgent or not, and is never card. *)
Theorem recommended_mode_is_valid amount urgent :
  number_le (Finite (inject_Z 1)) amount = true →
  validatePayoutAmount (getRecommendedPayoutMode amount urgent) amount = None
  ∧ getRecommendedPayoutMode amount urgent ≠ card.
Proof.
  intros Hmin. unfold getRecommendedPayoutMode.
  destruct amount as [| | |q]; [discriminate| |discriminate|].
  { destruct urgent; by vm_compute. }
  simpl in Hmin. apply Qle_bool_iff in Hmin. simpl number_le.
  assert (Hrest :
    validatePayoutAmount
      (if Qle_bool (inject_Z 200000) q then RTGS else NEFT) (Finite q) = None
    ∧ (if Qle_bool (inject_Z 200000) q then RTGS else NEFT) ≠ card).
  { destruct (Qle_bool (inject_Z 200000) q) eqn:E3; (split; [|done]);
      apply validatePayoutAmount_accepts; [by apply Qle_bool_iff in E3|done]. }
  destruct urgent; rewrite ?andb_true_r, ?andb_false_r; [|exact Hrest].
  destruct (Qle_bool q (inject_Z 100000)) eqn:E1.
  { split; [|done]. apply validatePayoutAmount_accepts.
    split; [exact Hmin|by apply Qle_bool_iff]. }
  destruct (Qle_bool q (inject_Z 500000)) eqn:E2; [|exact Hrest].
  split; [|done]. apply validatePayoutAmount_accepts.
  split; [exact Hmin|by apply Qle_bool_iff].
Qed.

Lemma validatePayoutAmount_limits_witness :
  validatePayoutAmount UPI NaN = None
  ∧ validatePayoutAmount UPI (Finite (500 # 1)) = None.
Proof.
  split.
  - apply (validatePayoutAmount_limits UPI NaN). discriminate.
  - apply (validatePayoutAmount_limits UPI (Finite (500 # 1))).
    split; discriminate.
Defined.

Lemma recommended_mode_is_valid_witness :
  validatePayoutAmount (getRecommendedPayoutMode (Finite (750000 # 1)) true)
    (Finite (750000 # 1)) = None.
Proof.
  apply (recommended_mode_is_valid (Finite (750000 # 1)) true). reflexivity.
Defined.

(** ** Rupees to paise *)

(** The product is rounded as a double before [Math.round] sees it: the
    double nearest to 1.045 lies below 1.045, its product by 100 is the
    double 104.5, and the amount in paise is 105, where the exact product
    would give 104. Whole rupees are converted exactly. *)
Lemma rupeesToPaise_rounds_the_product :
  rupeesToPaise (Finite (588282701325271 # 562949953421312))
  = Finite (inject_Z 105)
  ∧ Qfloor (Qplus (Qmult (588282701325271 # 562949953421312) (100 # 1))
              (1 # 2)) = 104
  ∧ rupeesToPaise (Finite (500 # 1)) = Finite (inject_Z 50000)
  ∧ rupeesToPaise NaN = NaN.
Proof. vm_compute. repeat split; reflexivity. Qed.

(** ** How the operations move a record *)

Lemma evolves_refl t : evolves t t.
Proof. split; [done|]. split; [lia|]. by left. Qed.

(** A record that has taken a step and then has fields other than state
    and history rewritten has taken that step. *)
Lemma evolves_keep t t1 t2 :
  evolves t t1 →
  created_fields t2 = created_fields t1 →
  Txn.retryCount t1 ≤ Txn.retryCount t2 →
  Txn.stateHistory t2 = Txn.stateHistory t1 →
  Txn.state t2 = Txn.state t1 →
  evolves t t2.
Proof.
  intros (Hc & Hr & Hh) Hc2 Hr2 Hh2 Hs2.
  split; [congruence|]. split; [lia|].
  rewrite Hh2, Hs2. exact Hh.
Qed.

(** A rewritten record, its fields computed, has taken a step. *)
Ltac by_steps :=
  split; [reflexivity|];
  split; [simpl; lia|];
  first [ left; split; reflexivity
        | right; eexists; split; [reflexivity|]; split; reflexivity ].

Lemma documents_evolve_refl w : documents_evolve w w.
Proof.
  intros id. destruct (transactions_india w !! id); [apply evolves_refl|done].
Qed.

(** Worlds with the same transactions. *)
Lemma documents_evolve_same w w' :
  transactions_india w' = transactions_india w → documents_evolve w w'.
Proof.
  intros Hsame id. rewrite Hsame.
  destruct (transactions_india w !! id); [apply evolves_refl|done].
Qed.

(** A world whose one rewritten document has taken a step. *)
Lemma documents_evolve_update w k (d : Txn.t) data w' :
  transactions_india w !! k = Some d →
  transactions_india w' = updateDocument k data (transactions_india w) →
  evolves d (foldl (λ d set, set d) d data) →
  documents_evolve w w'.
Proof.
  intros Hk Hw' Hstep id. rewrite Hw'.
  destruct (decide (k = id)) as [->|Hne].
  - by rewrite updateDocument_lookup, Hk.
  - rewrite updateDocument_lookup_ne by done.
    destruct (transactions_india w !! id); [apply evolves_refl|done].
Qed.

Lemma transitionState_evolves now transactionId newState reason source
    metadata w :
  documents_evolve w
    (transitionState now transactionId newState reason source metadata w).2.
Proof.
  unfold transitionState.
  destruct (listDocuments _ _ 1) as [|[k d] rest] eqn:E;
    [apply documents_evolve_refl|].
  apply listDocuments_head in E as [Hk _].
  destruct (negb _); [apply documents_evolve_refl|].
  assert (Hstep : documents_evolve w
    (with_transactions
       (updateDocument k
          ([Txn.set_state newState;
            Txn.set_previousState (Some (Txn.state d));
            Txn.set_stateHistory
              (Txn.stateHistory d ++
               [{| fromState := Txn.state d; toState := newState;
                   timestamp := now; reason := reason;
                   source := Some (default system source);
                   metadata := metadata |}]);
            Txn.set_updatedAt now]
           ++ terminal_timestamps now newState reason)) w)).
  { eapply documents_evolve_update; [exact Hk|reflexivity|].
    unfold terminal_timestamps.
    destruct (_ || _);
      [|destruct (includes _ newState); [destruct (truthy reason)|]];
      by_steps. }
  cbv zeta.
  match goal with
  | |- documents_evolve _ (match ?o with _ => _ end).2 => destruct o
  end; exact Hstep.
Qed.

(** Rewriting fields other than state, history, retry count and the
    created fields after a step keeps the step. *)
Lemma documents_evolve_fields w w1 k (data : list (Txn.t → Txn.t)) :
  documents_evolve w w1 →
  (∀ t1, created_fields (foldl (λ d set, set d) t1 data) = created_fields t1
         ∧ Txn.retryCount (foldl (λ d set, set d) t1 data) = Txn.retryCount t1
         ∧ Txn.stateHistory (foldl (λ d set, set d) t1 data)
           = Txn.stateHistory t1
         ∧ Txn.state (foldl (λ d set, set d) t1 data) = Txn.state t1) →
  documents_evolve w (with_transactions (updateDocument k data) w1).
Proof.
  intros Hstep Hdata id. specialize (Hstep id). simpl.
  destruct (decide (k = id)) as [->|Hne].
  - rewrite updateDocument_lookup.
    destruct (transactions_india w !! id) as [t|],
             (transactions_india w1 !! id) as [t1|]; simpl; try done.
    destruct (Hdata t1) as (Hc & Hr & Hh & Hs).
    eapply evolves_keep; [exact Hstep|done|lia|done|done].
  - by rewrite updateDocument_lookup_ne.
Qed.

Section Evolution.

Variable account : string.
Variable verifyWebhookSignature : string → string → Exn + bool.
Variable JSON_parse : string → Exn + WebhookEvent.t.
Variable sha256_hex : string → string.

Lemma retryTransaction_evolves now api transactionId w :
  documents_evolve w (retryTransaction account now api transactionId w).2.
Proof.
  unfold retryTransaction.
  destruct (listDocuments _ _ 1) as [|[k d] rest] eqn:E;
    [by apply documents_evolve_same|].
  apply listDocuments_head in E as [Hk _].
  destruct (negb _); [by apply documents_evolve_same|].
  case_bool_decide as Hmax; [by apply documents_evolve_same|].
  cbv zeta. destruct (createPayout api _) as [e|payout]; simpl.
  - eapply documents_evolve_update; [exact Hk|reflexivity|].
    destruct (bool_decide (_ ≤ _)); by_steps.
  - eapply documents_evolve_update; [exact Hk|reflexivity|].
    destruct (bool_decide (_ = "completed")); by_steps.
Qed.

Lemma reconcileTransaction_evolves now api transactionId w :
  documents_evolve w (reconcileTransaction now api transactionId w).2.
Proof.
  unfold reconcileTransaction.
  destruct (listDocuments _ _ 1) as [|[k d] rest];
    [by apply documents_evolve_same|].
  destruct (negb _); [by apply documents_evolve_same|]. cbv zeta.
  destruct (getPayout api _) as [e|payout]; [by apply documents_evolve_same|].
  destruct (bool_decide _); [by apply documents_evolve_same|].
  destruct (isValidTransition _ _); [|by apply documents_evolve_same].
  match goal with
  | |- context [transitionState ?n ?i ?s ?r ?src ?m ?w0] =>
    pose proof (transitionState_evolves n i s r src m w0) as Hstep;
    destruct (transitionState n i s r src m w0) as [result w1]
  end.
  exact Hstep.
Qed.

Lemma processPayoutEvent_evolves now event w :
  documents_evolve w (processPayoutEvent now event w).2.
Proof.
  unfold processPayoutEvent.
  destruct (WebhookEvent.payout event) as [payout|];
    [|by apply documents_evolve_same].
  destruct (match listDocuments _ _ 1, truthy _ with
            | [], true => _ | _, _ => _ end) as [|[k d] rest];
    [by apply documents_evolve_same|].
  destruct (bool_decide _); [by apply documents_evolve_same|].
  destruct (negb _); [by apply documents_evolve_same|].
  match goal with
  | |- context [transitionState ?n ?i ?s ?r ?src ?m ?w0] =>
    pose proof (transitionState_evolves n i s r src m w0) as Hstep;
    destruct (transitionState n i s r src m w0) as [result w1]
  end.
  simpl in Hstep. destruct (negb _); simpl; [exact Hstep|].
  apply documents_evolve_fields; [exact Hstep|].
  intros t1. by destruct (truthy _).
Qed.

Lemma POST_evolves newId now rawBody signature w :
  documents_evolve w
    (POST verifyWebhookSignature JSON_parse sha256_hex newId now rawBody
       signature w).2.
Proof.
  unfold POST.
  destruct (negb (truthy signature)); [by apply documents_evolve_same|]. cbv zeta.
  destruct (verifyWebhookSignature _ _) as [e|[|]];
    [by apply documents_evolve_same| |by apply documents_evolve_same].
  destruct (JSON_parse rawBody) as [e|event]; [by apply documents_evolve_same|].
  destruct (listDocuments _ _ 1); [|by apply documents_evolve_same].
  destruct (createDocument _ _ _) as [events|]; [|by apply documents_evolve_same].
  destruct (isPayoutEvent _).
  - match goal with
    | |- context [processPayoutEvent ?n ?e ?w0] =>
      pose proof (processPayoutEvent_evolves n e w0) as Hstep;
      destruct (processPayoutEvent n e w0) as [result w1]
    end.
    by destruct (negb _).
  - by apply documents_evolve_same.
Qed.

Lemma cancelPayoutIndia_evolves now api transactionId userId w :
  documents_evolve w (cancelPayoutIndia now api transactionId userId w).2.
Proof.
  unfold cancelPayoutIndia.
  destruct (listDocuments _ _ 1) as [|[k d] rest] eqn:E;
    [by apply documents_evolve_same|].
  apply listDocuments_head in E as [Hk _].
  case_bool_decide; [by apply documents_evolve_same|]. cbv zeta.
  destruct (negb _); simpl.
  - eapply documents_evolve_update; [exact Hk|reflexivity|]. by_steps.
  - destruct (cancelPayout api _); simpl; [by apply documents_evolve_same|].
    eapply documents_evolve_update; [exact Hk|reflexivity|]. by_steps.
Qed.

Lemma syncPayoutStatus_evolves now api transactionId w :
  documents_evolve w (syncPayoutStatus now api transactionId w).2.
Proof.
  unfold syncPayoutStatus.
  destruct (listDocuments _ _ 1) as [|[k d] rest] eqn:E;
    [by apply documents_evolve_same|].
  apply listDocuments_head in E as [Hk _].
  destruct (negb _); [by apply documents_evolve_same|]. cbv zeta.
  destruct (getPayout api _) as [e|payout]; [by apply documents_evolve_same|].
  case_bool_decide; [|by apply documents_evolve_same]. simpl.
  eapply documents_evolve_update; [exact Hk|reflexivity|].
  repeat match goal with
         | |- context [if ?b then _ else _] => destruct b
         end; by_steps.
Qed.

(** X7. Each single operation on a transaction (a state transition, a
    retry, a reconciliation, a webhook delivery, a cancellation, a status
    sync) adds and removes no document and, for every stored document,
    keeps the fields set at creation (owner, transaction id, idempotency
    key, amount, currency, mode, purpose among them), does not decrease
    the retry count, and either keeps state and history or appends exactly
    one transition record leading from the state before to the state
    after. *)
Theorem operations_evolve_documents now api transactionId w :
  (∀ newState reason source metadata,
     documents_evolve w
       (transitionState now transactionId newState reason source metadata w).2)
  ∧ documents_evolve w (retryTransaction account now api transactionId w).2
  ∧ documents_evolve w (reconcileTransaction now api transactionId w).2
  ∧ (∀ newId rawBody signature,
       documents_evolve w
         (POST verifyWebhookSignature JSON_parse sha256_hex newId now rawBody
            signature w).2)
  ∧ (∀ userId,
       documents_evolve w
         (cancelPayoutIndia now api transactionId userId w).2)
  ∧ documents_evolve w (syncPayoutStatus now api transactionId w).2.
Proof.
  split; [intros; apply transitionState_evolves|].
  split; [apply retryTransaction_evolves|].
  split; [apply reconcileTransaction_evolves|].
  split; [intros; apply POST_evolves|].
  split; [intros; apply cancelPayoutIndia_evolves|].
  apply syncPayoutStatus_evolves.
Qed.

End Evolution.

(** ** Batches and invariants *)

Lemma documents_extend_refl w : documents_extend w w.
Proof. intros id. by destruct (transactions_india w !! id). Qed.

Lemma documents_extend_trans w1 w2 w3 :
  documents_extend w1 w2 → documents_extend w2 w3 → documents_extend w1 w3.
Proof.
  intros H12 H23 id. specialize (H12 id). specialize (H23 id).
  destruct (transactions_india w1 !! id), (transactions_india w2 !! id),
           (transactions_india w3 !! id); try done.
  destruct H12 as [Hc1 Hp1], H23 as [Hc2 Hp2].
  split; [congruence|by etrans].
Qed.

Lemma documents_evolve_extend w w' :
  documents_evolve w w' → documents_extend w w'.
Proof.
  intros Hstep id. specialize (Hstep id).
  destruct (transactions_india w !! id), (transactions_india w' !! id);
    try done.
  destruct Hstep as (Hc & _ & [[-> _]|(record & -> & _)]); split; try done.
  by apply prefix_app_r.
Qed.

Lemma documents_evolve_agree w w' :
  documents_evolve w w' → histories_agree w → histories_agree w'.
Proof.
  intros Hstep Hagree id t' Hd'. specialize (Hstep id). rewrite Hd' in Hstep.
  destruct (transactions_india w !! id) as [t|] eqn:Hd; [|done].
  specialize (Hagree id t Hd). unfold history_agrees in *.
  destruct Hstep as (_ & _ & [[-> ->]|(record & -> & _ & <-)]); [done|].
  by rewrite last_snoc.
Qed.

Section Batches.

Variable account : string.
Variable verifyWebhookSignature : string → string → Exn + bool.
Variable JSON_parse : string → Exn + WebhookEvent.t.
Variable sha256_hex : string → string.

(** A property of worlds kept by every retry is kept by a run of the
    retry scheduler. *)
Lemma processRetries_keeps (P : World → Prop) now api w :
  (∀ transactionId w, P w →
     P (retryTransaction account now api transactionId w).2) →
  P w → P (processRetries account now api w).2.
Proof.
  intros Hstep. unfold processRetries.
  generalize (getTransactionsForRetry now w) as due.
  generalize ({| rs_success := true; rs_processed := 0; rs_succeeded := 0;
                 rs_failed := 0; rs_errors := [] |}) as summary.
  intros summary due. revert summary w.
  induction due as [|transaction due IH]; intros summary w Hw; [done|].
  simpl.
  specialize (Hstep (Txn.transactionId transaction) w Hw).
  destruct (retryTransaction _ _ _ _ w) as [result w1].
  destruct (RetryResult.success result); by apply IH.
Qed.

(** A property of worlds kept by every reconciliation is kept by a run
    of the reconciler. *)
Lemma reconcileAllPending_keeps (P : World → Prop) now api w :
  (∀ transactionId w, P w →
     P (reconcileTransaction now api transactionId w).2) →
  P w → P (reconcileAllPending now api w).2.
Proof.
  intros Hstep. unfold reconcileAllPending.
  generalize (listDocuments (transactions_india w) pending_with_payout 100)
    at 2 as documents.
  generalize ({| rec_total := Z.of_nat (length (listDocuments
                   (transactions_india w) pending_with_payout 100));
                 rec_reconciled := 0; rec_discrepancies := 0;
                 rec_results := [] |}) as summary.
  intros summary documents. revert summary w.
  induction documents as [|doc documents IH]; intros summary w Hw; [done|].
  simpl.
  specialize (Hstep (Txn.transactionId doc.2) w Hw).
  destruct (reconcileTransaction _ _ _ w) as [result w1].
  by apply IH.
Qed.

(** X8. A run of the retry scheduler and a run of the reconciler add and
    remove no document, keep the fields set at creation of every document
    and only extend its transition history: no record of a history is
    rewritten or dropped. *)
Theorem batches_extend_documents now api w :
  documents_extend w (processRetries account now api w).2
  ∧ documents_extend w (reconcileAllPending now api w).2.
Proof.
  split.
  - apply (processRetries_keeps (documents_extend w));
      [|apply documents_extend_refl].
    intros transactionId w1 Hw1. eapply documents_extend_trans; [exact Hw1|].
    apply documents_evolve_extend, retryTransaction_evolves.
  - apply (reconcileAllPending_keeps (documents_extend w));
      [|apply documents_extend_refl].
    intros transactionId w1 Hw1. eapply documents_extend_trans; [exact Hw1|].
    apply documents_evolve_extend, reconcileTransaction_evolves.
Qed.

(** The submitter leaves every stored document as it is. *)
Lemma initiatePayoutIndia_frame drawn now api userId fundAccountRecordId
    amount mode purpose narration metadata w id t :
  transactions_india w !! id = Some t →
  transactions_india
    (initiatePayoutIndia account drawn now api userId fundAccountRecordId
       amount mode purpose narration metadata w).2 !! id = Some t.
Proof.
  intros Hd. unfold initiatePayoutIndia.
  destruct (validatePayoutAmount mode (Finite amount)); [done|].
  destruct (razorpay_fund_accounts w !! fundAccountRecordId); [|done].
  destruct (negb _); [done|]. case_bool_decide; [done|]. cbv zeta.
  unfold createDocument.
  destruct (transactions_india w !! documentId drawn) eqn:Hfresh; [done|].
  assert (Hne : documentId drawn ≠ id)
    by (intros Heq; rewrite Heq in Hfresh; congruence).
  destruct (createPayout api _); simpl;
    by rewrite updateDocument_lookup_ne, lookup_insert_ne.
Qed.

(** The document the submitter creates agrees with its history. *)
Lemma initiatePayoutIndia_agrees drawn now api userId fundAccountRecordId
    amount mode purpose narration metadata w t :
  transactions_india w !! documentId drawn = None →
  transactions_india
    (initiatePayoutIndia account drawn now api userId fundAccountRecordId
       amount mode purpose narration metadata w).2 !! documentId drawn
  = Some t →
  history_agrees t.
Proof.
  intros Hfresh. unfold initiatePayoutIndia.
  destruct (validatePayoutAmount mode (Finite amount)); [simpl; by rewrite Hfresh|].
  destruct (razorpay_fund_accounts w !! fundAccountRecordId);
    [|simpl; by rewrite Hfresh].
  destruct (negb _); [simpl; by rewrite Hfresh|].
  case_bool_decide; [simpl; by rewrite Hfresh|]. cbv zeta.
  unfold createDocument. rewrite Hfresh.
  destruct (createPayout api _); simpl;
    rewrite updateDocument_lookup, lookup_insert_eq; simpl;
    by intros [= <-].
Qed.

(** X9. Every operation keeps the history in step with the state: if the
    last record of every stored history leads to the stored state before
    a submission, a state transition, a retry, a reconciliation, a webhook
    delivery, a cancellation, a status sync, a run of the retry scheduler
    or a run of the reconciler, then so it does after. *)
Theorem histories_stay_in_step now api transactionId w :
  histories_agree w →
  (∀ newState reason source metadata,
     histories_agree
       (transitionState now transactionId newState reason source metadata w).2)
  ∧ histories_agree (retryTransaction account now api transactionId w).2
  ∧ histories_agree (reconcileTransaction now api transactionId w).2
  ∧ (∀ newId rawBody signature,
       histories_agree
         (POST verifyWebhookSignature JSON_parse sha256_hex newId now rawBody
            signature w).2)
  ∧ (∀ userId,
       histories_agree (cancelPayoutIndia now api transactionId userId w).2)
  ∧ histories_agree (syncPayoutStatus now api transactionId w).2
  ∧ histories_agree (processRetries account now api w).2
  ∧ histories_agree (reconcileAllPending now api w).2
  ∧ (∀ drawn userId fundAccountRecordId amount mode purpose narration
       metadata,
       histories_agree
         (initiatePayoutIndia account drawn now api userId fundAccountRecordId
            amount mode purpose narration metadata w).2).
Proof.
  intros Hagree.
  split; [intros; eapply documents_evolve_agree;
          [apply transitionState_evolves|done]|].
  split; [eapply documents_evolve_agree;
          [apply retryTransaction_evolves|done]|].
  split; [eapply documents_evolve_agree;
          [apply reconcileTransaction_evolves|done]|].
  split; [intros; eapply documents_evolve_agree;
          [apply POST_evolves|done]|].
  split; [intros; eapply documents_evolve_agree;
          [apply cancelPayoutIndia_evolves|done]|].
  split; [eapply documents_evolve_agree;
          [apply syncPayoutStatus_evolves|done]|].
  split.
  { apply (processRetries_keeps histories_agree); [|done].
    intros tid w1 Hw1. eapply documents_evolve_agree;
      [apply retryTransaction_evolves|done]. }
  split.
  { apply (reconcileAllPending_keeps histories_agree); [|done].
    intros tid w1 Hw1. eapply documents_evolve_agree;
      [apply reconcileTransaction_evolves|done]. }
  intros drawn userId fundAccountRecordId amount mode purpose narration
    metadata id t' Hd'.
  destruct (transactions_india w !! id) as [t|] eqn:Hd.
  - rewrite (initiatePayoutIndia_frame _ _ _ _ _ _ _ _ _ _ _ _ _ Hd) in Hd'.
    injection Hd' as <-. by apply (Hagree id).
  - destruct (decide (id = documentId drawn)) as [->|Hne].
    + by eapply initiatePayoutIndia_agrees.
    + exfalso. revert Hd'. unfold initiatePayoutIndia.
      destruct (validatePayoutAmount mode (Finite amount)); [simpl; by rewrite Hd|].
      destruct (razorpay_fund_accounts w !! fundAccountRecordId);
        [|simpl; by rewrite Hd].
      destruct (negb _); [simpl; by rewrite Hd|].
      case_bool_decide; [simpl; by rewrite Hd|]. cbv zeta.
      unfold createDocument.
      destruct (transactions_india w !! documentId drawn); [simpl; by rewrite Hd|].
      destruct (createPayout api _); simpl;
        by rewrite updateDocument_lookup_ne, lookup_insert_ne, Hd.
Qed.

End Batches.

(** ** The retry scheduler, run after run *)

Lemma listDocuments_length {A} (collection : gmap string A) query limit :
  (length (listDocuments collection query limit) ≤ limit)%nat.
Proof. unfold listDocuments. rewrite length_take. lia. Qed.

Section Scheduler.

Variable account : string.

(** X10. A run of the retry scheduler with no transaction due (none in
    submitted or failed with [nextRetryAt] set and reached and a retry
    count below the maximum) does nothing: no processor call, no write, a
    summary of zeros. A tick before the due time is such a run. *)
Theorem processRetries_nothing_due now api w :
  (∀ id t, transactions_india w !! id = Some t → due_for_retry now t = false) →
  processRetries account now api w = (no_retries, w).
Proof.
  intros Hnone. unfold processRetries, getTransactionsForRetry.
  by rewrite (listDocuments_none _ _ _ Hnone).
Qed.

(** The counters of a run, whatever summary it starts from. *)
Lemma retry_each_counts now api due summary w :
  let summary' := (foldl (retry_each account now api) (summary, w) due).1 in
  rs_processed summary' = rs_processed summary + Z.of_nat (length due)
  ∧ rs_succeeded summary' + rs_failed summary'
    = rs_succeeded summary + rs_failed summary + Z.of_nat (length due)
  ∧ (length (rs_errors summary')
     = length (rs_errors summary)
       + Z.to_nat (rs_failed summary' - rs_failed summary))%nat
  ∧ rs_failed summary ≤ rs_failed summary'
  ∧ rs_succeeded summary ≤ rs_succeeded summary'.
Proof.
  revert summary w. induction due as [|transaction due IH]; intros summary w.
  - simpl. repeat split; lia.
  - cbv zeta. simpl foldl.
    destruct (retry_each account now api (summary, w) transaction)
      as [s1 w1] eqn:E.
    specialize (IH s1 w1). cbv zeta in IH.
    destruct IH as (H1 & H2 & H3 & H4 & H5).
    unfold retry_each in E.
    destruct (retryTransaction _ _ _ _ w) as [result w2].
    destruct (RetryResult.success result); injection E as <- <-;
      simpl in *; rewrite ?length_app in *; simpl in *;
      repeat split; lia.
Qed.

(** X11. The summary of a run of the retry scheduler that has read the
    due transactions adds up: at most 50 transactions are processed, each
    counted once as succeeded or as failed, with one error line per
    failure. *)
Theorem processRetries_summary_adds_up now api w :
  let summary := (processRetries account now api w).1 in
  rs_processed summary = rs_succeeded summary + rs_failed summary
  ∧ rs_processed summary = Z.of_nat (length (getTransactionsForRetry now w))
  ∧ 0 ≤ rs_processed summary ≤ 50
  ∧ Z.of_nat (length (rs_errors summary)) = rs_failed summary.
Proof.
  unfold processRetries.
  pose proof (retry_each_counts now api (getTransactionsForRetry now w)
                no_retries w) as H.
  fold no_retries. cbv zeta in H.
  destruct H as (H1 & H2 & H3 & H4 & H5). simpl in *.
  assert (Hlen : (length (getTransactionsForRetry now w) ≤ 50)%nat).
  { unfold getTransactionsForRetry. rewrite length_fmap.
    apply listDocuments_length. }
  cbv zeta. repeat split; lia.
Qed.

(** A retry keeps the retry counts within the maximum. *)
Lemma retryTransaction_bounded now api transactionId w :
  retries_bounded w →
  retries_bounded (retryTransaction account now api transactionId w).2.
Proof.
  intros Hbound. unfold retryTransaction.
  destruct (listDocuments _ _ 1) as [|[k d] rest] eqn:E; [done|].
  apply listDocuments_head in E as [Hk _].
  destruct (negb _); [done|].
  case_bool_decide as Hmax; [done|]. cbv zeta.
  assert (Hstep : ∀ data,
    Txn.retryCount (foldl (λ d set, set d) d data) = Txn.retryCount d + 1 →
    retries_bounded
      (with_transactions (updateDocument k data)
         (called (CreatePayout
                    (retry_request account transactionId d
                       (Txn.retryCount d + 1))) w))).
  { intros data Hdata id t Hd. simpl in Hd.
    destruct (decide (k = id)) as [->|Hne].
    - rewrite updateDocument_lookup, Hk in Hd. injection Hd as <-.
      rewrite Hdata. lia.
    - rewrite updateDocument_lookup_ne in Hd by done. by apply (Hbound id). }
  destruct (createPayout api _); simpl; apply Hstep;
    repeat match goal with
           | |- context [if ?b then _ else _] => destruct b
           end; reflexivity.
Qed.

(** X12. The retry count never passes the maximum: if every stored retry
    count is at most [maxRetries] before a retry or a run of the retry
    scheduler, so it is after; and a transaction at the maximum is refused
    with no processor call and no write. *)
Theorem retry_count_stays_bounded now api transactionId w :
  retries_bounded w →
  retries_bounded (retryTransaction account now api transactionId w).2
  ∧ retries_bounded (processRetries account now api w).2
  ∧ ∀ id t,
      denotes w transactionId id t →
      includes ["submitted"; "failed"] (Txn.state t) = true →
      Txn.retryCount t = maxRetries RETRY_CONFIG →
      retryTransaction account now api transactionId w
      = (RetryResult.mk false None (Some "Maximum retry attempts reached"), w).
Proof.
  intros Hbound.
  split; [by apply retryTransaction_bounded|]. split.
  - apply (processRetries_keeps account retries_bounded); [|done].
    intros tid w1 Hw1. by apply retryTransaction_bounded.
  - intros id t Hden Hstate Hmax.
    apply (retryTransaction_exhausted account now api _ _ _ _ Hden Hstate).
    lia.
Qed.

(** X13. A payout the processor accepted is not submitted again: after a
    retry the processor answers with a status other than submitted and
    failed, the
    transaction has left the retryable states, and the next retry is
    refused with no processor call and no write. *)
Theorem accepted_retry_is_not_repeated now now' api api' transactionId w id t
    payout :
  denotes w transactionId id t →
  includes ["submitted"; "failed"] (Txn.state t) = true →
  Txn.retryCount t < maxRetries RETRY_CONFIG →
  createPayout api (retry_request account transactionId t (Txn.retryCount t + 1))
  = inr payout →
  Payout.status payout ∉ ["submitted"; "failed"] →
  let '(result, w1) := retryTransaction account now api transactionId w in
  RetryResult.success result = true
  ∧ ∃ state,
      stored_state w1 id = Some state
      ∧ retryTransaction account now' api' transactionId w1
        = (RetryResult.mk false None
             (Some ("Transaction in " +:+ state +:+ " state is not retryable")),
           w1).
Proof.
  intros Hden Hstate Hcount Hapi Hstatus.
  destruct (retryTransaction_accepted account now _ _ _ _ _ _
              Hden Hstate Hcount Hapi) as (t' & -> & Hs & _ & Htid & _).
  split; [done|]. exists (Txn.state t').
  assert (Hden' : denotes
            (retried w id t'
               (retry_request account transactionId t (Txn.retryCount t + 1)))
            transactionId id t').
  { unfold retried. eapply denotes_insert; [exact Hden|].
    rewrite Htid. by destruct Hden as (_ & ? & _). }
  split.
  { unfold stored_state, retried. simpl. by rewrite lookup_insert_eq. }
  apply (retryTransaction_not_retryable account now' api' _ _ _ _ Hden').
  rewrite Hs. rewrite !not_elem_of_cons in Hstatus.
  destruct Hstatus as (Hsub & Hfail & _).
  rewrite !includes_cons, includes_nil.
  case_bool_decide as Hp.
  - reflexivity.
  - by rewrite !bool_decide_eq_false_2 by done.
Qed.

End Scheduler.

(** ** The reconciler, run after run *)

(** A valid write on the one document of a transaction id. *)
Lemma transitionState_valid now transactionId newState reason source metadata
    w id t :
  denotes w transactionId id t →
  isValidTransition (Txn.state t) newState = true →
  ∃ updated,
    transitionState now transactionId newState reason source metadata w
    = (TransitionOk updated,
       mkWorld (<[id := updated]> (transactions_india w)) (webhook_events w)
         (razorpay_fund_accounts w) (api_calls w))
    ∧ Txn.state updated = newState
    ∧ Txn.transactionId updated = Txn.transactionId t
    ∧ Txn.razorpayPayoutId updated = Txn.razorpayPayoutId t.
Proof.
  intros Hden Hvalid. pose proof (denotes_listed _ _ _ _ Hden) as Hlist.
  destruct Hden as (Hd & _ & _).
  unfold transitionState. rewrite Hlist, Hvalid. simpl.
  rewrite updateDocument_lookup, Hd. simpl.
  erewrite with_transactions_update by exact Hd.
  eexists. split; [reflexivity|].
  unfold terminal_timestamps.
  repeat match goal with
         | |- context [if ?b then _ else _] => destruct b
         end; by repeat split.
Qed.

(** X14. Reconciling twice is reconciling once: against the same answers
    of the processor, the second reconciliation of a transaction changes
    no stored transaction and reports the outcome of the first, the same
    [reconciled] flag and the same new state. *)
Theorem reconcileTransaction_twice now now' api transactionId w id t :
  denotes w transactionId id t →
  let '(result1, w1) := reconcileTransaction now api transactionId w in
  let '(result2, w2) := reconcileTransaction now' api transactionId w1 in
  transactions_india w2 = transactions_india w1
  ∧ Reconciliation.reconciled result2 = Reconciliation.reconciled result1
  ∧ Reconciliation.newState result2 = Reconciliation.newState result1.
Proof.
  intros Hden. pose proof (denotes_listed _ _ _ _ Hden) as Hlist.
  unfold reconcileTransaction at 1. rewrite Hlist.
  destruct (truthy (Txn.razorpayPayoutId t)) eqn:Hpayout; simpl negb; cbv iota.
  2:{ unfold reconcileTransaction. rewrite Hlist, Hpayout. by simpl. }
  cbv zeta.
  assert (Hcalled : ∀ c, denotes (called c w) transactionId id t) by done.
  destruct (getPayout api (default "" (Txn.razorpayPayoutId t)))
    as [e|payout] eqn:Hapi.
  { unfold reconcileTransaction.
    rewrite (denotes_listed _ _ _ _ (Hcalled _)), Hpayout. simpl.
    by rewrite Hapi. }
  case_bool_decide as Hsame.
  { unfold reconcileTransaction.
    rewrite (denotes_listed _ _ _ _ (Hcalled _)), Hpayout. simpl.
    rewrite Hapi. by rewrite bool_decide_eq_true_2. }
  destruct (isValidTransition (Txn.state t) _) eqn:Hvalid.
  2:{ unfold reconcileTransaction.
      rewrite (denotes_listed _ _ _ _ (Hcalled _)), Hpayout. simpl.
      rewrite Hapi, bool_decide_eq_false_2, Hvalid by done. done. }
  match goal with
  | |- context [transitionState ?n ?i ?s ?r ?src ?m ?w0] =>
    destruct (transitionState_valid n i s r src m w0 id t (Hcalled _) Hvalid)
      as (updated & -> & Hs & Htid & Hp)
  end.
  cbv beta iota.
  match goal with
  | |- context [reconcileTransaction now' api transactionId ?w1] =>
    assert (Hden1 : denotes w1 transactionId id updated)
  end.
  { eapply denotes_insert; [exact (Hcalled _)|].
    rewrite Htid. by destruct Hden as (_ & ? & _). }
  unfold reconcileTransaction.
  rewrite (denotes_listed _ _ _ _ Hden1), Hp, Hpayout. simpl.
  rewrite Hapi, Hs. by rewrite bool_decide_eq_true_2.
Qed.

(** The counters of a run of the reconciler, whatever summary it starts
    from. *)
Lemma reconcile_each_counts now api documents summary w :
  let summary' := (foldl (reconcile_each now api) (summary, w) documents).1 in
  rec_total summary' = rec_total summary
  ∧ rec_reconciled summary' + rec_discrepancies summary'
    = rec_reconciled summary + rec_discrepancies summary
      + Z.of_nat (length documents)
  ∧ (length (rec_results summary')
     = length (rec_results summary) + length documents)%nat
  ∧ rec_reconciled summary ≤ rec_reconciled summary'
  ∧ rec_discrepancies summary ≤ rec_discrepancies summary'.
Proof.
  revert summary w.
  induction documents as [|doc documents IH]; intros summary w.
  - simpl. repeat split; lia.
  - cbv zeta. simpl foldl.
    destruct (reconcile_each now api (summary, w) doc) as [s1 w1] eqn:E.
    specialize (IH s1 w1). cbv zeta in IH.
    destruct IH as (H1 & H2 & H3 & H4 & H5).
    unfold reconcile_each in E.
    destruct (reconcileTransaction _ _ _ w) as [result w2].
    injection E as <- <-.
    destruct (Reconciliation.reconciled result);
      simpl in *; rewrite ?length_app in *; simpl in *;
      repeat split; lia.
Qed.

(** X15. The summary of a run of the reconciler adds up: at most 100
    transactions are examined, each counted once as reconciled or as a
    discrepancy, with one result per transaction. *)
Theorem reconcileAllPending_summary_adds_up now api w :
  let summary := (reconcileAllPending now api w).1 in
  rec_total summary = rec_reconciled summary + rec_discrepancies summary
  ∧ Z.of_nat (length (rec_results summary)) = rec_total summary
  ∧ 0 ≤ rec_total summary ≤ 100
  ∧ 0 ≤ rec_reconciled summary
  ∧ 0 ≤ rec_discrepancies summary.
Proof.
  unfold reconcileAllPending. cbv zeta.
  pose proof (listDocuments_length (transactions_india w)
                pending_with_payout 100) as Hlen.
  match goal with
  | |- context [foldl _ (?s, w) ?docs] =>
    pose proof (reconcile_each_counts now api docs s w) as H
  end.
  cbv zeta in H. destruct H as (H1 & H2 & H3 & H4 & H5). simpl in *.
  repeat split; lia.
Qed.

(** ** Who calls the processor *)

Lemma transitionState_calls now transactionId newState reason source
    metadata w :
  api_calls
    (transitionState now transactionId newState reason source metadata w).2
  = api_calls w.
Proof.
  unfold transitionState.
  destruct (listDocuments _ _ 1) as [|[k d] rest]; [done|].
  destruct (negb _); [done|]. cbv zeta.
  match goal with
  | |- api_calls (match ?o with _ => _ end).2 = _ => by destruct o
  end.
Qed.

Lemma processPayoutEvent_calls now event w :
  api_calls (processPayoutEvent now event w).2 = api_calls w.
Proof.
  unfold processPayoutEvent.
  destruct (WebhookEvent.payout event) as [payout|]; [|done].
  destruct (match listDocuments _ _ 1, truthy _ with
            | [], true => _ | _, _ => _ end) as [|[k d] rest]; [done|].
  destruct (bool_decide _); [done|].
  destruct (negb _); [done|].
  match goal with
  | |- context [transitionState ?n ?i ?s ?r ?src ?m ?w0] =>
    pose proof (transitionState_calls n i s r src m w0) as Hcalls;
    destruct (transitionState n i s r src m w0) as [result w1]
  end.
  by destruct (negb _).
Qed.

Lemma creates_no_payout_refl w : creates_no_payout w w.
Proof. by intros request. Qed.

Lemma creates_no_payout_trans w1 w2 w3 :
  creates_no_payout w1 w2 → creates_no_payout w2 w3 → creates_no_payout w1 w3.
Proof. intros H12 H23 request Hin. by apply H12, H23. Qed.

Lemma creates_no_payout_app w w' calls :
  api_calls w' = api_calls w ++ calls →
  (∀ request, CreatePayout request ∉ calls) →
  creates_no_payout w w'.
Proof.
  intros Heq Hnone request Hin. rewrite Heq in Hin.
  apply elem_of_app in Hin as [Hin|Hin]; [done|].
  by destruct (Hnone request).
Qed.

Lemma reconcileTransaction_calls now api transactionId w :
  api_calls (reconcileTransaction now api transactionId w).2 = api_calls w
  ∨ ∃ payoutId,
      api_calls (reconcileTransaction now api transactionId w).2
      = api_calls w ++ [GetPayout payoutId].
Proof.
  unfold reconcileTransaction.
  destruct (listDocuments _ _ 1) as [|[k d] rest]; [by left|].
  destruct (negb _); [by left|]. cbv zeta. right. eexists.
  destruct (getPayout api _) as [e|payout]; [done|].
  destruct (bool_decide _); [done|].
  destruct (isValidTransition _ _); [|done].
  match goal with
  | |- context [transitionState ?n ?i ?s ?r ?src ?m ?w0] =>
    pose proof (transitionState_calls n i s r src m w0) as Hcalls;
    destruct (transitionState n i s r src m w0) as [result w1]
  end.
  exact Hcalls.
Qed.

Section Callers.

Variable verifyWebhookSignature : string → string → Exn + bool.
Variable JSON_parse : string → Exn + WebhookEvent.t.
Variable sha256_hex : string → string.

(** X16. Payouts are created by the submitter and the retry only. A
    webhook delivery and a state transition make no processor call at all;
    a reconciliation and a status sync make at most one, a status fetch; a
    cancellation makes at most one, a cancel; a run of the reconciler
    creates no payout. *)
Theorem only_submission_creates_payouts now api transactionId w :
  (∀ newId rawBody signature,
     api_calls
       (POST verifyWebhookSignature JSON_parse sha256_hex newId now rawBody
          signature w).2 = api_calls w)
  ∧ (∀ newState reason source metadata,
       api_calls
         (transitionState now transactionId newState reason source metadata
            w).2 = api_calls w)
  ∧ (api_calls (reconcileTransaction now api transactionId w).2 = api_calls w
     ∨ ∃ payoutId,
         api_calls (reconcileTransaction now api transactionId w).2
         = api_calls w ++ [GetPayout payoutId])
  ∧ (api_calls (syncPayoutStatus now api transactionId w).2 = api_calls w
     ∨ ∃ payoutId,
         api_calls (syncPayoutStatus now api transactionId w).2
         = api_calls w ++ [GetPayout payoutId])
  ∧ (∀ userId,
       api_calls (cancelPayoutIndia now api transactionId userId w).2
       = api_calls w
       ∨ ∃ payoutId,
           api_calls (cancelPayoutIndia now api transactionId userId w).2
           = api_calls w ++ [CancelPayout payoutId])
  ∧ creates_no_payout w (reconcileAllPending now api w).2.
Proof.
  split.
  { intros newId rawBody signature. unfold POST.
    destruct (negb (truthy signature)); [done|]. cbv zeta.
    destruct (verifyWebhookSignature _ _) as [e|[|]]; [done| |done].
    destruct (JSON_parse rawBody) as [e|event]; [done|].
    destruct (listDocuments _ _ 1); [|done].
    destruct (createDocument _ _ _) as [events|]; [|done].
    destruct (isPayoutEvent _); [|done].
    match goal with
    | |- context [processPayoutEvent ?n ?e ?w0] =>
      pose proof (processPayoutEvent_calls n e w0) as Hcalls;
      destruct (processPayoutEvent n e w0) as [result w1]
    end.
    by destruct (negb _). }
  split; [intros; apply transitionState_calls|].
  split; [apply reconcileTransaction_calls|].
  split.
  { unfold syncPayoutStatus.
    destruct (listDocuments _ _ 1) as [|[k d] rest]; [by left|].
    destruct (negb _); [by left|]. cbv zeta. right. eexists.
    destruct (getPayout api _) as [e|payout]; [done|].
    by destruct (bool_decide _). }
  split.
  { intros userId. unfold cancelPayoutIndia.
    destruct (listDocuments _ _ 1) as [|[k d] rest]; [by left|].
    destruct (bool_decide _); [by left|]. cbv zeta.
    destruct (negb _); [by left|]. right. eexists.
    by destruct (cancelPayout api _). }
  apply (reconcileAllPending_keeps (creates_no_payout w));
    [|apply creates_no_payout_refl].
  intros tid w1 Hw1. eapply creates_no_payout_trans; [exact Hw1|].
  destruct (reconcileTransaction_calls now api tid w1) as [Heq|[p Heq]].
  - intros request. by rewrite Heq.
  - eapply creates_no_payout_app; [exact Heq|].
    intros request Hin. by apply list_elem_of_singleton in Hin.
Qed.

(** ** The answers of the webhook route *)

(** Settles the conjuncts on the status and the body of one answer. *)
Ltac settle :=
  simpl; repeat split;
  first [ done
        | by left
        | by right
        | by (right; left)
        | by (right; right)
        | by (intros Hne; destruct Hne)
        | by (intros [?|?]; simplify_eq)
        | by (intros (? & ? & ? & ?); simplify_eq; congruence)
        | by (intros (? & ? & ? & ? & ?); simplify_eq)
        | by (intros _; eexists _, _, _, _)
        | by (intros _; eexists; repeat split; eassumption) ].

(** X17. The webhook route rejects a delivery in two cases only, a
    signature header that is missing or empty (400) and a signature that
    does not verify (401), and then writes nothing; every other delivery,
    whether it is processed, already on record, fails in processing or
    throws, is answered 200 with a success body. *)
Theorem POST_answers newId now rawBody signature w :
  let '(response, w') :=
    POST verifyWebhookSignature JSON_parse sha256_hex newId now rawBody
      signature w in
  (http_status response = 400 ↔ signature = None ∨ signature = Some "")
  ∧ (http_status response = 401
     ↔ ∃ s, signature = Some s ∧ s ≠ ""
            ∧ verifyWebhookSignature rawBody s = inr false)
  ∧ (http_status response = 200
     ∨ http_status response = 400 ∨ http_status response = 401)
  ∧ (http_status response ≠ 200 → w' = w)
  ∧ (http_status response = 200
     ↔ ∃ message eventId transactionId error,
         body response = SuccessBody message eventId transactionId error).
Proof.
  unfold POST.
  destruct signature as [s|]; [|settle].
  destruct (decide (s = "")) as [->|Hs]; [settle|].
  rewrite (truthy_signature _ Hs). cbv zeta. simpl default.
  destruct (verifyWebhookSignature rawBody s) as [e|[|]] eqn:Hsig;
    [settle| |settle].
  destruct (JSON_parse rawBody) as [e|event]; [settle|].
  destruct (listDocuments _ _ 1); [|settle].
  destruct (createDocument _ _ _) as [events|]; [|settle].
  destruct (if isPayoutEvent _ then _ else _) as [result w1].
  destruct (negb _); settle.
Qed.

End Callers.

(** ** Event records *)

Section EventRecords.

Variable verifyWebhookSignature : string → string → Exn + bool.
Variable JSON_parse : string → Exn + WebhookEvent.t.
Variable sha256_hex : string → string.

(** X18. The event id is derived from the account, the event type, the
    payout id and the creation time alone. Two events that agree on these
    get the same id whatever else differs (status, fees, reference), so
    that, the first being on record, a delivery of the second is answered
    as already processed and nothing is written. (An empty signature
    header never reaches the check: the route answers it as a missing
    one.) *)
Theorem mutated_redelivery_is_dropped event event' :
  WebhookEvent.account_id event' = WebhookEvent.account_id event →
  WebhookEvent.event event' = WebhookEvent.event event →
  WebhookEvent.created_at event' = WebhookEvent.created_at event →
  Payout.id <$> WebhookEvent.payout event'
  = Payout.id <$> WebhookEvent.payout event →
  generateEventId sha256_hex event' = generateEventId sha256_hex event
  ∧ ∀ newId now rawBody signature w k record,
      verifyWebhookSignature rawBody signature = inr true →
      JSON_parse rawBody = inr event' →
      webhook_events w !! k = Some record →
      Evt.eventId record = generateEventId sha256_hex event →
      POST verifyWebhookSignature JSON_parse sha256_hex newId now rawBody
        (Some signature) w
      = (if bool_decide (signature = "") then missing_signature
         else already_processed (generateEventId sha256_hex event), w).
Proof.
  intros Haccount Hevent Hcreated Hpayout.
  assert (Hid : generateEventId sha256_hex event'
                = generateEventId sha256_hex event).
  { unfold generateEventId. rewrite Haccount, Hevent, Hcreated.
    destruct (WebhookEvent.payout event') as [p'|],
             (WebhookEvent.payout event) as [p|]; simpl in Hpayout;
      try discriminate; [|done].
    injection Hpayout as ->. done. }
  split; [exact Hid|].
  intros newId now rawBody signature w k record Hsig Hparse Hrecord Hrec.
  case_bool_decide as Hs; [by rewrite Hs|].
  rewrite <- Hid.
  apply (POST_duplicate verifyWebhookSignature JSON_parse sha256_hex newId now
           rawBody signature w event' k record Hs Hsig Hparse Hrecord).
  by rewrite Hid.
Qed.

(** X19. A webhook delivery never rewrites or removes an event record
    that is on record: it stores at most one record, a new one, under a
    [$id] that was free. *)
Theorem event_records_are_kept newId now rawBody signature w :
  let w' :=
    (POST verifyWebhookSignature JSON_parse sha256_hex newId now rawBody
       signature w).2 in
  (∀ k record, webhook_events w !! k = Some record →
               webhook_events w' !! k = Some record)
  ∧ (∀ k, k ≠ newId → webhook_events w' !! k = webhook_events w !! k).
Proof.
  cbv zeta. unfold POST.
  destruct (negb (truthy signature)); [done|]. cbv zeta.
  destruct (verifyWebhookSignature _ _) as [e|[|]]; [done| |done].
  destruct (JSON_parse rawBody) as [e|event]; [done|].
  destruct (listDocuments _ _ 1); [|done].
  unfold createDocument.
  destruct (webhook_events w !! newId) eqn:Hfresh; [done|].
  set (w0 := with_events _ w).
  assert (Hw0 : ∀ k, k ≠ newId → webhook_events w0 !! k = webhook_events w !! k).
  { intros k Hne. subst w0. simpl. by rewrite lookup_insert_ne. }
  clearbody w0.
  assert (Hgoal : ∀ w1, webhook_events w1 = webhook_events w0 → ∀ data,
    (∀ k record, webhook_events w !! k = Some record →
       webhook_events (with_events (updateDocument newId data) w1) !! k
       = Some record)
    ∧ (∀ k, k ≠ newId →
         webhook_events (with_events (updateDocument newId data) w1) !! k
         = webhook_events w !! k)).
  { intros w1 Hw1 data.
    assert (Hother : ∀ k, k ≠ newId →
      webhook_events (with_events (updateDocument newId data) w1) !! k
      = webhook_events w !! k).
    { intros k Hne. simpl.
      rewrite updateDocument_lookup_ne, Hw1 by done. by apply Hw0. }
    split; [|exact Hother].
    intros k record Hk. rewrite Hother; [done|]. intros ->. congruence. }
  destruct (isPayoutEvent _).
  - pose proof (processPayoutEvent_events now event w0) as Hev.
    destruct (processPayoutEvent now event w0) as [result w1]. simpl in Hev.
    destruct (negb _); apply (Hgoal w1 Hev).
  - simpl negb. cbv iota. by apply (Hgoal w0).
Qed.

End EventRecords.

(** ** Finding the transaction of a webhook *)

(** X20. A webhook whose payout id is on no transaction yet is matched by
    its reference id: the transaction whose idempotency key it is takes
    the transition, and the payout id is recorded on it. *)
Theorem webhook_falls_back_to_reference_id now event payout w id t :
  WebhookEvent.payout event = Some payout →
  (∀ id' t', transactions_india w !! id' = Some t' →
             Txn.razorpayPayoutId t' ≠ Some (Payout.id payout)) →
  Payout.reference_id payout = Some (Txn.idempotencyKey t) →
  Txn.idempotencyKey t ≠ "" →
  (∀ id' t', transactions_india w !! id' = Some t' →
             Txn.idempotencyKey t' = Txn.idempotencyKey t → id' = id) →
  denotes w (Txn.transactionId t) id t →
  isValidTransition (Txn.state t)
    (mapPayoutStatusToState (Payout.status payout)) = true →
  let '(result, w') := processPayoutEvent now event w in
  result = Processing.mk true (Some (Txn.transactionId t)) None
  ∧ stored_state w' id
    = Some (mapPayoutStatusToState (Payout.status payout))
  ∧ Txn.razorpayPayoutId <$> transactions_india w' !! id
    = Some (Some (Payout.id payout))
  ∧ ∀ id', id' ≠ id →
      transactions_india w' !! id' = transactions_india w !! id'.
Proof.
  intros Hpayout Hnone Href Hkey Huniq Hden Hvalid.
  unfold processPayoutEvent. rewrite Hpayout.
  rewrite listDocuments_none.
  2:{ intros id' t' Hd'. apply bool_decide_eq_false. by apply (Hnone id'). }
  assert (Htruthy : truthy (Payout.reference_id payout) = true).
  { rewrite Href. simpl. by apply bool_decide_eq_true. }
  rewrite Htruthy.
  rewrite (listDocuments_unique _ _ id t).
  2:{ by destruct Hden. }
  2:{ apply bool_decide_eq_true. by rewrite Href. }
  2:{ intros id' t' Hd' Hq. apply bool_decide_eq_true in Hq.
      apply (Huniq id' t' Hd'). rewrite Href in Hq. by injection Hq. }
  rewrite bool_decide_eq_false_2.
  2:{ intros Heq. rewrite Heq in Hvalid.
      apply state_rank_increases in Hvalid. lia. }
  rewrite Hvalid. simpl negb. cbv iota.
  match goal with
  | |- context [transitionState ?n ?i ?s ?r ?src ?m ?w0] =>
    destruct (transitionState_valid n i s r src m w0 id t Hden Hvalid)
      as (updated & -> & Hs & _ & _)
  end.
  simpl. rewrite updateDocument_lookup, lookup_insert_eq. simpl.
  split; [done|]. unfold stored_state. simpl.
  rewrite updateDocument_lookup, lookup_insert_eq. simpl.
  destruct (truthy (Payout.failure_reason payout)); simpl;
    (split; [by rewrite Hs|]); (split; [done|]);
    intros id' Hne;
    by rewrite updateDocument_lookup_ne, lookup_insert_ne.
Qed.

(** ** Submission *)

Section Submission.

Variable account : string.


(** The document a submission has created is the one its transaction id
    denotes, the id being new. *)
Lemma initiatePayoutIndia_denotes drawn now api userId fundAccountRecordId
    amount mode purpose narration metadata w transactionId :
  (∀ id t, transactions_india w !! id = Some t →
           Txn.transactionId t ≠ minted_transactionId now drawn) →
  let '(result, w') :=
    initiatePayoutIndia account drawn now api userId fundAccountRecordId
      amount mode purpose narration metadata w in
  Initiated.transactionId result = Some transactionId →
  ∃ t, denotes w' transactionId (documentId drawn) t
       ∧ Some (Txn.state t) = Initiated.state result
       ∧ Txn.idempotencyKey t = minted_idempotencyKey now drawn userId.
Proof.
  intros Hnew. unfold initiatePayoutIndia.
  destruct (validatePayoutAmount mode (Finite amount)); [done|].
  destruct (razorpay_fund_accounts w !! fundAccountRecordId); [|done].
  destruct (negb _); [done|]. case_bool_decide; [done|]. cbv zeta.
  unfold createDocument.
  destruct (transactions_india w !! documentId drawn) eqn:Hfresh; [done|].
  assert (∀ data t0,
            transactions_india w !! documentId drawn = None →
            ∀ id' t',
              updateDocument (documentId drawn) data
                (<[documentId drawn := t0]> (transactions_india w)) !! id'
              = Some t' →
              Txn.transactionId t' = minted_transactionId now drawn →
              id' = documentId drawn) as Hone.
  { intros data t0 _ id' t' Hd' Ht'.
    destruct (decide (documentId drawn = id')) as [|Hne]; [done|].
    rewrite updateDocument_lookup_ne, lookup_insert_ne in Hd' by done.
    by destruct (Hnew _ _ Hd'). }
  destruct (createPayout api _); simpl; intros [= <-].
  - eexists. split.
    + unfold denotes. simpl.
      split; [by rewrite updateDocument_lookup, lookup_insert_eq|].
      split; [reflexivity|]. by apply Hone.
    + by split.
  - eexists. split.
    + unfold denotes. simpl.
      split; [by rewrite updateDocument_lookup, lookup_insert_eq|].
      split; [reflexivity|]. by apply Hone.
    + by split.
Qed.

(** A submission that reports no transaction id has changed nothing. *)
Lemma initiatePayoutIndia_unreported drawn now api userId fundAccountRecordId
    amount mode purpose narration metadata w :
  let '(result, w') :=
    initiatePayoutIndia account drawn now api userId fundAccountRecordId
      amount mode purpose narration metadata w in
  Initiated.transactionId result = None → w' = w.
Proof.
  unfold initiatePayoutIndia.
  destruct (validatePayoutAmount mode (Finite amount)); [done|].
  destruct (razorpay_fund_accounts w !! fundAccountRecordId); [|done].
  destruct (negb _); [done|]. case_bool_decide; [done|]. cbv zeta.
  unfold createDocument.
  destruct (transactions_india w !! documentId drawn); [done|].
  by destruct (createPayout api _).
Qed.

(** X22. What a submission reports can be read back: with a transaction
    id that is new, [getTransaction] on the reported id returns the
    created document, in the reported state; and on an id no document
    carries it answers not found. *)
Theorem submitted_transaction_is_found drawn now api userId
    fundAccountRecordId amount mode purpose narration metadata w :
  (∀ id t, transactions_india w !! id = Some t →
           Txn.transactionId t ≠ minted_transactionId now drawn) →
  let '(result, w') :=
    initiatePayoutIndia account drawn now api userId fundAccountRecordId
      amount mode purpose narration metadata w in
  (∀ transactionId,
     Initiated.transactionId result = Some transactionId →
     ∃ t, getTransaction transactionId w' = inr t
          ∧ Txn.transactionId t = transactionId
          ∧ Some (Txn.state t) = Initiated.state result)
  ∧ (Initiated.transactionId result = None →
     getTransaction (minted_transactionId now drawn) w'
     = inl "Transaction not found").
Proof.
  intros Hnew.
  pose proof (λ tid, initiatePayoutIndia_denotes drawn now api userId
                fundAccountRecordId amount mode purpose narration metadata w
                tid Hnew) as Hden.
  pose proof (initiatePayoutIndia_unreported drawn now api userId
                fundAccountRecordId amount mode purpose narration metadata w)
    as Hout.
  destruct (initiatePayoutIndia _ _ _ _ _ _ _ _ _ _ _ w) as [result w'].
  split.
  - intros tid Htid. destruct (Hden tid Htid) as (t & Ht & Hs & _).
    exists t. unfold getTransaction. rewrite (denotes_listed _ _ _ _ Ht).
    destruct Ht as (_ & ? & _). by repeat split.
  - intros Hnone. rewrite (Hout Hnone).
    unfold getTransaction. rewrite listDocuments_none; [done|].
    intros id t Hd. apply bool_decide_eq_false. by apply (Hnew id).
Qed.

End Submission.

(** ** The stored state stays in the enum *)

Lemma writes_enum_states_same w w' :
  transactions_india w' = transactions_india w → writes_enum_states w w'.
Proof.
  intros Hsame id. rewrite Hsame.
  destruct (transactions_india w !! id); [by left|done].
Qed.

Lemma writes_enum_states_update w k (d : Txn.t) data w' :
  transactions_india w !! k = Some d →
  transactions_india w' = updateDocument k data (transactions_india w) →
  Txn.state (foldl (λ d set, set d) d data) = Txn.state d
  ∨ is_TransactionState (Txn.state (foldl (λ d set, set d) d data)) = true →
  writes_enum_states w w'.
Proof.
  intros Hk Hw' Hstep id. rewrite Hw'.
  destruct (decide (k = id)) as [->|Hne].
  - by rewrite updateDocument_lookup, Hk.
  - rewrite updateDocument_lookup_ne by done.
    destruct (transactions_india w !! id); [by left|done].
Qed.

(** Rewriting fields other than the state keeps what was written. *)
Lemma writes_enum_states_fields w w1 k (data : list (Txn.t → Txn.t)) :
  writes_enum_states w w1 →
  (∀ t1, Txn.state (foldl (λ d set, set d) t1 data) = Txn.state t1) →
  writes_enum_states w (with_transactions (updateDocument k data) w1).
Proof.
  intros Hstep Hdata id. specialize (Hstep id). simpl.
  destruct (decide (k = id)) as [->|Hne].
  - rewrite updateDocument_lookup.
    destruct (transactions_india w !! id) as [t|],
             (transactions_india w1 !! id) as [t1|]; simpl; try done.
    by rewrite Hdata.
  - by rewrite updateDocument_lookup_ne.
Qed.

Lemma writes_enum_states_keeps w w' :
  writes_enum_states w w' → states_in_enum w → states_in_enum w'.
Proof.
  intros Hstep Henum id t' Hd'. specialize (Hstep id). rewrite Hd' in Hstep.
  destruct (transactions_india w !! id) as [t|] eqn:Hd; [|done].
  destruct Hstep as [->|]; [by apply (Henum id)|done].
Qed.

Lemma synced_state_enum status current :
  synced_state status current = current
  ∨ is_TransactionState (synced_state status current) = true.
Proof.
  unfold synced_state.
  repeat (case_bool_decide; [by right|]). by left.
Qed.

Lemma transitionState_enum_states now transactionId newState reason source
    metadata w :
  writes_enum_states w
    (transitionState now transactionId newState reason source metadata w).2.
Proof.
  unfold transitionState.
  destruct (listDocuments _ _ 1) as [|[k d] rest] eqn:E;
    [by apply writes_enum_states_same|].
  apply listDocuments_head in E as [Hk _].
  destruct (isValidTransition (Txn.state d) newState) eqn:Hvalid;
    [|by apply writes_enum_states_same].
  apply isValidTransition_enum in Hvalid.
  assert (Hstep : writes_enum_states w
    (with_transactions
       (updateDocument k
          ([Txn.set_state newState;
            Txn.set_previousState (Some (Txn.state d));
            Txn.set_stateHistory
              (Txn.stateHistory d ++
               [{| fromState := Txn.state d; toState := newState;
                   timestamp := now; reason := reason;
                   source := Some (default system source);
                   metadata := metadata |}]);
            Txn.set_updatedAt now]
           ++ terminal_timestamps now newState reason)) w)).
  { eapply writes_enum_states_update; [exact Hk|reflexivity|].
    right. unfold terminal_timestamps.
    destruct (_ || _);
      [|destruct (includes _ newState); [destruct (truthy reason)|]];
      exact Hvalid. }
  simpl. cbv zeta.
  match goal with
  | |- writes_enum_states _ (match ?o with _ => _ end).2 => destruct o
  end; exact Hstep.
Qed.

Lemma reconcileTransaction_enum_states now api transactionId w :
  writes_enum_states w (reconcileTransaction now api transactionId w).2.
Proof.
  unfold reconcileTransaction.
  destruct (listDocuments _ _ 1) as [|[k d] rest];
    [by apply writes_enum_states_same|].
  destruct (negb _); [by apply writes_enum_states_same|]. cbv zeta.
  destruct (getPayout api _) as [e|payout]; [by apply writes_enum_states_same|].
  destruct (bool_decide _); [by apply writes_enum_states_same|].
  destruct (isValidTransition _ _); [|by apply writes_enum_states_same].
  match goal with
  | |- context [transitionState ?n ?i ?s ?r ?src ?m ?w0] =>
    pose proof (transitionState_enum_states n i s r src m w0) as Hstep;
    destruct (transitionState n i s r src m w0) as [result w1]
  end.
  exact Hstep.
Qed.

Lemma processPayoutEvent_enum_states now event w :
  writes_enum_states w (processPayoutEvent now event w).2.
Proof.
  unfold processPayoutEvent.
  destruct (WebhookEvent.payout event) as [payout|];
    [|by apply writes_enum_states_same].
  destruct (match listDocuments _ _ 1, truthy _ with
            | [], true => _ | _, _ => _ end) as [|[k d] rest];
    [by apply writes_enum_states_same|].
  destruct (bool_decide _); [by apply writes_enum_states_same|].
  destruct (negb _); [by apply writes_enum_states_same|].
  match goal with
  | |- context [transitionState ?n ?i ?s ?r ?src ?m ?w0] =>
    pose proof (transitionState_enum_states n i s r src m w0) as Hstep;
    destruct (transitionState n i s r src m w0) as [result w1]
  end.
  simpl in Hstep. destruct (negb _); simpl; [exact Hstep|].
  apply writes_enum_states_fields; [exact Hstep|].
  intros t1. by destruct (truthy _).
Qed.

Section EnumStates.

Variable verifyWebhookSignature : string → string → Exn + bool.
Variable JSON_parse : string → Exn + WebhookEvent.t.
Variable sha256_hex : string → string.

Lemma POST_enum_states newId now rawBody signature w :
  writes_enum_states w
    (POST verifyWebhookSignature JSON_parse sha256_hex newId now rawBody
       signature w).2.
Proof.
  unfold POST.
  destruct (negb (truthy signature)); [by apply writes_enum_states_same|]. cbv zeta.
  destruct (verifyWebhookSignature _ _) as [e|[|]];
    [by apply writes_enum_states_same| |by apply writes_enum_states_same].
  destruct (JSON_parse rawBody) as [e|event];
    [by apply writes_enum_states_same|].
  destruct (listDocuments _ _ 1); [|by apply writes_enum_states_same].
  destruct (createDocument _ _ _) as [events|];
    [|by apply writes_enum_states_same].
  destruct (isPayoutEvent _).
  - match goal with
    | |- context [processPayoutEvent ?n ?e ?w0] =>
      pose proof (processPayoutEvent_enum_states n e w0) as Hstep;
      destruct (processPayoutEvent n e w0) as [result w1]
    end.
    by destruct (negb _).
  - by apply writes_enum_states_same.
Qed.

Lemma cancelPayoutIndia_enum_states now api transactionId userId w :
  writes_enum_states w (cancelPayoutIndia now api transactionId userId w).2.
Proof.
  unfold cancelPayoutIndia.
  destruct (listDocuments _ _ 1) as [|[k d] rest] eqn:E;
    [by apply writes_enum_states_same|].
  apply listDocuments_head in E as [Hk _].
  case_bool_decide; [by apply writes_enum_states_same|]. cbv zeta.
  destruct (negb _); simpl.
  - eapply writes_enum_states_update; [exact Hk|reflexivity|]. by right.
  - destruct (cancelPayout api _); simpl; [by apply writes_enum_states_same|].
    eapply writes_enum_states_update; [exact Hk|reflexivity|]. by right.
Qed.

Lemma syncPayoutStatus_enum_states now api transactionId w :
  writes_enum_states w (syncPayoutStatus now api transactionId w).2.
Proof.
  unfold syncPayoutStatus.
  destruct (listDocuments _ _ 1) as [|[k d] rest] eqn:E;
    [by apply writes_enum_states_same|].
  apply listDocuments_head in E as [Hk _].
  destruct (negb _); [by apply writes_enum_states_same|]. cbv zeta.
  destruct (getPayout api _) as [e|payout]; [by apply writes_enum_states_same|].
  case_bool_decide; [|by apply writes_enum_states_same]. simpl.
  eapply writes_enum_states_update; [exact Hk|reflexivity|].
  pose proof (synced_state_enum (Payout.status payout) (Txn.state d)) as Hs.
  repeat match goal with
         | |- context [if ?b then _ else _] => destruct b
         end; exact Hs.
Qed.

(** X23. Where every stored state is a state of the enum, it stays so
    under a state transition, a reconciliation and a run of the
    reconciler, a webhook delivery, a cancellation and a status sync,
    whatever the processor answers: these write a state only after mapping
    the processor's status, or after the transition table has accepted
    it. *)
Theorem mapped_writers_keep_states_in_enum now api w :
  states_in_enum w →
  (∀ transactionId newState reason source metadata,
     states_in_enum
       (transitionState now transactionId newState reason source metadata w).2)
  ∧ (∀ transactionId,
       states_in_enum (reconcileTransaction now api transactionId w).2)
  ∧ states_in_enum (reconcileAllPending now api w).2
  ∧ (∀ newId rawBody signature,
       states_in_enum
         (POST verifyWebhookSignature JSON_parse sha256_hex newId now rawBody
            signature w).2)
  ∧ (∀ transactionId userId,
       states_in_enum (cancelPayoutIndia now api transactionId userId w).2)
  ∧ (∀ transactionId,
       states_in_enum (syncPayoutStatus now api transactionId w).2).
Proof.
  intros Henum.
  split; [intros; eapply writes_enum_states_keeps;
          [apply transitionState_enum_states|done]|].
  split; [intros; eapply writes_enum_states_keeps;
          [apply reconcileTransaction_enum_states|done]|].
  split.
  { apply (reconcileAllPending_keeps states_in_enum); [|done].
    intros tid w1 Hw1. eapply writes_enum_states_keeps;
      [apply reconcileTransaction_enum_states|done]. }
  split; [intros; eapply writes_enum_states_keeps;
          [apply POST_enum_states|done]|].
  split; [intros; eapply writes_enum_states_keeps;
          [apply cancelPayoutIndia_enum_states|done]|].
  intros; eapply writes_enum_states_keeps;
    [apply syncPayoutStatus_enum_states|done].
Qed.

End EnumStates.

(** ** Resubmission, cancellation, statistics and fund accounts *)

Section Resubmission.

Variable account : string.

(** X24. A submission the processor refuses and the retry that follows it
    ask the processor for the same payout: the two requests, the only ones
    sent, carry the same reference id, amount, fund account, mode, purpose,
    currency and account number, whatever the processor answers to the
    retry. *)
Theorem retry_resends_the_submitted_payout drawn now api now1 api1 userId
    fundAccountRecordId amount mode purpose narration metadata w
    fundAccountRecord e :
  validatePayoutAmount mode (Finite amount) = None →
  razorpay_fund_accounts w !! fundAccountRecordId = Some fundAccountRecord →
  FundAccount.active fundAccountRecord = true →
  FundAccount.userId fundAccountRecord = userId →
  transactions_india w !! documentId drawn = None →
  (∀ id t, transactions_india w !! id = Some t →
           Txn.transactionId t ≠ minted_transactionId now drawn) →
  createPayout api
    (initial_request account drawn now userId fundAccountRecord amount mode
       purpose narration) = inl e →
  ∃ first again,
    api_calls
      (retryTransaction account now1 api1 (minted_transactionId now drawn)
         (initiatePayoutIndia account drawn now api userId fundAccountRecordId
            amount mode purpose narration metadata w).2).2
    = api_calls w ++ [CreatePayout first; CreatePayout again]
    ∧ PayoutRequest.reference_id again = PayoutRequest.reference_id first
    ∧ PayoutRequest.amount again = PayoutRequest.amount first
    ∧ PayoutRequest.fund_account_id again = PayoutRequest.fund_account_id first
    ∧ PayoutRequest.mode again = PayoutRequest.mode first
    ∧ PayoutRequest.purpose again = PayoutRequest.purpose first
    ∧ PayoutRequest.currency again = PayoutRequest.currency first
    ∧ PayoutRequest.account_number again = PayoutRequest.account_number first.
Proof.
  intros Hvalid Hfund Hactive Huser Hfresh Hnew Hapi.
  unfold initiatePayoutIndia.
  rewrite Hvalid, Hfund, Hactive. simpl negb. cbv iota.
  rewrite bool_decide_eq_false_2 by (intros H; by apply H).
  unfold createDocument. rewrite Hfresh. cbv zeta. rewrite Hapi.
  match goal with
  | |- context [retryTransaction _ _ _ _ (_, ?w1).2] => set (w0 := w1)
  end.
  assert (∃ t, denotes w0 (minted_transactionId now drawn) (documentId drawn) t
               ∧ Txn.state t = "submitted" ∧ Txn.retryCount t = 0
               ∧ Txn.idempotencyKey t = minted_idempotencyKey now drawn userId
               ∧ Txn.amount t = integer_of (rupeesToPaise (Finite amount))
               ∧ Txn.razorpayFundAccountId t
                 = Some (FundAccount.razorpayFundAccountId fundAccountRecord)
               ∧ Txn.mode t = mode ∧ Txn.purpose t = purpose)
    as (t & Hden & Hstate & Hcount & Hkey & Hamount & Hfa & Hmode & Hpurpose).
  { eexists. split.
    - unfold denotes, w0. simpl.
      split; [by rewrite updateDocument_lookup, lookup_insert_eq|].
      split; [reflexivity|].
      intros id' t' Hd' Ht'.
      destruct (decide (documentId drawn = id')) as [|Hne]; [done|].
      rewrite updateDocument_lookup_ne, lookup_insert_ne in Hd' by done.
      by destruct (Hnew _ _ Hd').
    - by repeat split. }
  assert (Hcalls : api_calls w0
                   = api_calls w ++
                     [CreatePayout
                        (initial_request account drawn now userId
                           fundAccountRecord amount mode purpose narration)])
    by reflexivity.
  clearbody w0. simpl snd.
  unfold retryTransaction. rewrite (denotes_listed _ _ _ _ Hden).
  rewrite Hstate, Hcount. simpl negb. cbv iota.
  rewrite bool_decide_eq_false_2 by (simpl; lia). cbv zeta.
  eexists _, (retry_request account (minted_transactionId now drawn) t (0 + 1)).
  split.
  - destruct (createPayout api1 _); simpl; rewrite Hcalls, <- app_assoc;
      reflexivity.
  - simpl. by rewrite Hkey, Hamount, Hfa, Hmode, Hpurpose.
Qed.

End Resubmission.

(** X25. A cancellation touches at most the one queued document of the
    given owner and transaction id: every other document is left as it is,
    the one written moves from queued to cancelled, a reported error means
    no document has changed, and the processor is asked at most once, to
    cancel. *)
Theorem cancelPayoutIndia_guards now api transactionId userId w :
  let '(error, w') := cancelPayoutIndia now api transactionId userId w in
  (is_Some error → transactions_india w' = transactions_india w)
  ∧ (api_calls w' = api_calls w
     ∨ ∃ payoutId, api_calls w' = api_calls w ++ [CancelPayout payoutId])
  ∧ ∀ id t, transactions_india w !! id = Some t →
      transactions_india w' !! id = Some t
      ∨ (error = None
         ∧ Txn.state t = "queued" ∧ Txn.userId t = userId
         ∧ Txn.transactionId t = transactionId
         ∧ ∃ t', transactions_india w' !! id = Some t'
                 ∧ Txn.state t' = "cancelled"
                 ∧ Txn.previousState t' = Some "queued").
Proof.
  unfold cancelPayoutIndia.
  destruct (listDocuments _ _ 1) as [|[k d] rest] eqn:E; [by auto|].
  apply listDocuments_head in E as [Hk Hq].
  apply andb_prop in Hq as [Htid%bool_decide_eq_true Huser%bool_decide_eq_true].
  unfold by_transactionId in Htid.
  case_bool_decide as Hstate; [by auto|].
  cbv zeta.
  assert (∀ w0 : World,
            transactions_india w0 = transactions_india w →
            ∀ data id t,
              Txn.state (foldl (λ d set, set d) d data) = "cancelled" →
              Txn.previousState (foldl (λ d set, set d) d data)
              = Some "queued" →
              transactions_india w !! id = Some t →
              transactions_india (with_transactions (updateDocument k data) w0)
                !! id = Some t
              ∨ ((None : option string) = None
                 ∧ Txn.state t = "queued" ∧ Txn.userId t = userId
                 ∧ Txn.transactionId t = transactionId
                 ∧ ∃ t', transactions_india
                           (with_transactions (updateDocument k data) w0)
                           !! id = Some t'
                         ∧ Txn.state t' = "cancelled"
                         ∧ Txn.previousState t' = Some "queued")) as Hwrite.
  { intros w0 Hw0 data id t Hs Hp Hd. simpl. rewrite Hw0.
    destruct (decide (k = id)) as [<-|Hne].
    - right. rewrite Hd in Hk. injection Hk as ->.
      repeat split; try done.
      eexists. rewrite updateDocument_lookup, Hd. by repeat split.
    - left. by rewrite updateDocument_lookup_ne. }
  destruct (negb _).
  - split; [by intros [? [=]]|]. split; [by left|].
    intros id1 t1 Hd. apply Hwrite; [done| |by rewrite Hstate|done]; done.
  - destruct (cancelPayout api _).
    + split; [done|]. split; [right; by eexists|]. by auto.
    + split; [by intros [? [=]]|]. split; [right; by eexists|].
      intros id1 t1 Hd. apply Hwrite; [done| |by rewrite Hstate|done]; done.
Qed.

(** The counters of the statistics loop. *)
Lemma count_transaction_fold docs stats :
  let result := foldl count_transaction stats docs in
  st_total result = st_total stats
  ∧ st_completed result + st_pending result + st_failed result
    = st_completed stats + st_pending stats + st_failed stats
      + Z.of_nat (length docs)
  ∧ st_completed stats ≤ st_completed result
  ∧ st_pending stats ≤ st_pending result
  ∧ st_failed stats ≤ st_failed result
  ∧ (Forall (λ tx, 0 ≤ Txn.amount tx) docs →
     st_completedAmount stats ≤ st_completedAmount result
     ∧ st_completedAmount result - st_completedAmount stats
       ≤ st_totalAmount result - st_totalAmount stats).
Proof.
  revert stats. induction docs as [|tx docs IH]; intros stats.
  - simpl. repeat split; try lia.
  - simpl foldl. specialize (IH (count_transaction stats tx)).
    cbv zeta in IH. destruct IH as (Ht & Hsum & Hc & Hp & Hf & Ha).
    cbv zeta. rewrite Ht.
    assert (st_total (count_transaction stats tx) = st_total stats
            ∧ st_completed (count_transaction stats tx)
              + st_pending (count_transaction stats tx)
              + st_failed (count_transaction stats tx)
              = st_completed stats + st_pending stats + st_failed stats + 1
            ∧ st_completed stats ≤ st_completed (count_transaction stats tx)
            ∧ st_pending stats ≤ st_pending (count_transaction stats tx)
            ∧ st_failed stats ≤ st_failed (count_transaction stats tx)
            ∧ st_totalAmount (count_transaction stats tx)
              = st_totalAmount stats + Txn.amount tx
            ∧ (st_completedAmount (count_transaction stats tx)
               = st_completedAmount stats
               ∨ st_completedAmount (count_transaction stats tx)
                 = st_completedAmount stats + Txn.amount tx))
      as (Ht1 & Hsum1 & Hc1 & Hp1 & Hf1 & Hta1 & Hca1).
    { unfold count_transaction.
      destruct (_ || _); [|destruct (includes _ _)]; simpl;
        repeat split; try lia; auto. }
    split; [done|]. split; [simpl length; lia|].
    split; [lia|]. split; [lia|]. split; [lia|].
    intros Hall. apply Forall_cons in Hall as [Htx Hall].
    specialize (Ha Hall). lia.
Qed.

Section Statistics.

Variable defaultLimit : nat.

(** X26. The statistics of a user add up: the total is the number of
    documents counted, each of them is counted as exactly one of
    completed, pending and failed, and, the amounts being non-negative,
    the completed amount lies between zero and the total amount. *)
Theorem getTransactionStats_adds_up userId w :
  (∀ id t, transactions_india w !! id = Some t → 0 ≤ Txn.amount t) →
  let stats := getTransactionStats defaultLimit userId w in
  st_total stats = st_completed stats + st_pending stats + st_failed stats
  ∧ 0 ≤ st_completed stats ∧ 0 ≤ st_pending stats ∧ 0 ≤ st_failed stats
  ∧ 0 ≤ st_completedAmount stats ≤ st_totalAmount stats.
Proof.
  intros Hamounts. unfold getTransactionStats. cbv zeta.
  match goal with
  | |- context [foldl count_transaction ?s ?l] =>
    pose proof (count_transaction_fold l s) as Hfold;
    cbv zeta in Hfold; simpl in Hfold;
    destruct Hfold as (Ht & Hsum & Hc & Hp & Hf & Ha)
  end.
  destruct Ha as [Ha1 Ha2].
  { apply Forall_forall. intros tx Hin.
    apply list_elem_of_fmap in Hin as ([id t] & -> & Hin).
    apply listDocuments_elem in Hin as [Hd _]. by apply (Hamounts id). }
  repeat split; lia.
Qed.

End Statistics.

(** X27. A fund account that has been deactivated takes no more payouts:
    after a successful deactivation every submission on it fails with the
    validation error of the amount or, the amount being valid, with
    the account not being active, and stores and sends nothing; the
    deactivation itself touches no transaction and no other account, and
    when it reports an error it has changed nothing. *)
Theorem deactivated_account_takes_no_payout setFundAccountActive
    fundAccountRecordId w :
  let '(error, w1) :=
    deactivateFundAccount setFundAccountActive fundAccountRecordId w in
  match error with
  | Some _ => w1 = w
  | None =>
    transactions_india w1 = transactions_india w
    ∧ api_calls w1 = api_calls w
    ∧ (∀ id, id ≠ fundAccountRecordId →
             razorpay_fund_accounts w1 !! id = razorpay_fund_accounts w !! id)
    ∧ ∀ account drawn now api userId amount mode purpose narration metadata,
        initiatePayoutIndia account drawn now api userId fundAccountRecordId
          amount mode purpose narration metadata w1
        = (Initiated.mk false None None None
             (Some (default "Fund account is not active"
                      (validatePayoutAmount mode (Finite amount)))), w1)
  end.
Proof.
  unfold deactivateFundAccount.
  destruct (razorpay_fund_accounts w !! fundAccountRecordId) as [record|]
    eqn:Hrecord; [|done].
  destruct (setFundAccountActive _ _); [done|].
  split; [done|]. split; [done|].
  split; [intros id Hne; simpl; by rewrite updateDocument_lookup_ne|].
  intros. unfold initiatePayoutIndia.
  destruct (validatePayoutAmount mode (Finite amount)); [done|].
  simpl razorpay_fund_accounts. rewrite updateDocument_lookup, Hrecord.
  reflexivity.
Qed.

(** ** The further properties at concrete inputs *)

(** Facts about the one document of the sample world. *)
Lemma sample_world_documents (P : Txn.t → Prop) t :
  P t → ∀ id t', transactions_india (sample_world t) !! id = Some t' → P t'.
Proof.
  intros Ht id t' Hd. simpl in Hd.
  apply lookup_singleton_Some in Hd as [_ <-]. exact Ht.
Defined.

Lemma processRetries_nothing_due_witness :
  processRetries "2323230041626905" 1700000030000 (answering "queued")
    (sample_world (sample_transaction "submitted" 0 (Some 1700000060000) None))
  = (no_retries,
     sample_world (sample_transaction "submitted" 0 (Some 1700000060000) None)).
Proof.
  apply processRetries_nothing_due. intros id t Hd. simpl in Hd.
  apply lookup_singleton_Some in Hd as [_ <-]. reflexivity.
Defined.

(** An initiated transaction moved to submitted. *)
Lemma histories_stay_in_step_witness :
  histories_agree
    (transitionState 1700000200000 "txn_1700000000000_ab12cd" "submitted"
       None None None
       (sample_world (sample_transaction "initiated" 0 None None))).2.
Proof.
  apply (histories_stay_in_step "2323230041626905" sample_verify sample_parse
           sample_digest 1700000200000 unreachable "txn_1700000000000_ab12cd"
           (sample_world (sample_transaction "initiated" 0 None None))).
  refine (sample_world_documents history_agrees _ _). reflexivity.
Defined.

(** The third retry of a submitted transaction, refused. *)
Lemma retry_count_stays_bounded_witness :
  retries_bounded
    (retryTransaction "2323230041626905" 1700000423000 unreachable
       "txn_1700000000000_ab12cd"
       (sample_world
          (sample_transaction "submitted" 2 (Some 1700000422000) None))).2.
Proof.
  apply (retry_count_stays_bounded "2323230041626905" 1700000423000
           unreachable "txn_1700000000000_ab12cd").
  refine (sample_world_documents
           (λ t, Txn.retryCount t ≤ maxRetries RETRY_CONFIG) _ _).
  vm_compute. discriminate.
Defined.

(** A retry the processor queues, then a second retry. *)
Lemma accepted_retry_is_not_repeated_witness :
  let '(result, w1) :=
    retryTransaction "2323230041626905" 1700000061000 (answering "queued")
      "txn_1700000000000_ab12cd"
      (sample_world
         (sample_transaction "submitted" 0 (Some 1700000060000) None)) in
  RetryResult.success result = true
  ∧ ∃ state,
      stored_state w1 "doc_1" = Some state
      ∧ retryTransaction "2323230041626905" 1700000182000 unreachable
          "txn_1700000000000_ab12cd" w1
        = (RetryResult.mk false None
             (Some ("Transaction in " +:+ state +:+ " state is not retryable")),
           w1).
Proof.
  pose proof (accepted_retry_is_not_repeated "2323230041626905" 1700000061000
    1700000182000 (answering "queued") unreachable "txn_1700000000000_ab12cd"
    _ "doc_1" _ (sample_payout "queued")
    (sample_world_denotes
       (sample_transaction "submitted" 0 (Some 1700000060000) None))) as H.
  apply H; [reflexivity|vm_compute; reflexivity|reflexivity|by_compute].
Defined.

(** A pending transaction the processor reports as processed. *)
Lemma reconcileTransaction_twice_witness :
  let '(result1, w1) :=
    reconcileTransaction 1700000200000 (answering "processed")
      "txn_1700000000000_ab12cd"
      (sample_world (sample_transaction "pending" 0 None (Some "pout_1"))) in
  let '(result2, w2) :=
    reconcileTransaction 1700000300000 (answering "processed")
      "txn_1700000000000_ab12cd" w1 in
  transactions_india w2 = transactions_india w1
  ∧ Reconciliation.reconciled result2 = Reconciliation.reconciled result1
  ∧ Reconciliation.newState result2 = Reconciliation.newState result1.
Proof.
  exact (reconcileTransaction_twice 1700000200000 1700000300000
           (answering "processed") "txn_1700000000000_ab12cd" _ "doc_1" _
           (sample_world_denotes
              (sample_transaction "pending" 0 None (Some "pout_1")))).
Defined.

(** Two queued events for the same payout, the second with another
    status. *)
Lemma mutated_redelivery_is_dropped_witness :
  generateEventId sample_digest (sample_event "payout.queued" "scheduled")
  = generateEventId sample_digest (sample_event "payout.queued" "queued").
Proof.
  exact (proj1 (mutated_redelivery_is_dropped sample_verify sample_parse
                  sample_digest (sample_event "payout.queued" "queued")
                  (sample_event "payout.queued" "scheduled")
                  eq_refl eq_refl eq_refl eq_refl)).
Defined.

(** A processing webhook for a queued transaction that has no payout id
    yet. *)
Lemma webhook_falls_back_to_reference_id_witness :
  let '(result, w') :=
    processPayoutEvent 1700000200000
      (sample_event "payout.processing" "processing")
      (sample_world (sample_transaction "queued" 0 None None)) in
  result = Processing.mk true (Some "txn_1700000000000_ab12cd") None
  ∧ stored_state w' "doc_1" = Some "processing"
  ∧ Txn.razorpayPayoutId <$> transactions_india w' !! "doc_1"
    = Some (Some "pout_1").
Proof.
  pose proof (webhook_falls_back_to_reference_id 1700000200000
    (sample_event "payout.processing" "processing")
    (sample_payout "processing")
    (sample_world (sample_transaction "queued" 0 None None)) "doc_1"
    (sample_transaction "queued" 0 None None) eq_refl) as H.
  destruct (processPayoutEvent _ _ _) as [result w'].
  destruct H as (H1 & H2 & H3 & _).
  - refine (sample_world_documents
             (λ t, Txn.razorpayPayoutId t ≠ Some "pout_1") _ _). discriminate.
  - reflexivity.
  - discriminate.
  - intros id' t' Hd' _. simpl in Hd'.
    apply lookup_singleton_Some in Hd'. symmetry. apply Hd'.
  - apply (sample_world_denotes (sample_transaction "queued" 0 None None)).
  - reflexivity.
  - by repeat split.
Defined.

(** A first submission of Rs 500, queued by the processor. *)
Lemma submitted_transaction_is_found_witness :
  let '(result, w') :=
    initiatePayoutIndia "2323230041626905" sample_drawn 1700000000000
      (answering "queued") "user_1" "fund_1" (500 # 1) UPI "payout" None None
      empty_world in
  (∀ transactionId,
     Initiated.transactionId result = Some transactionId →
     ∃ t, getTransaction transactionId w' = inr t
          ∧ Txn.transactionId t = transactionId
          ∧ Some (Txn.state t) = Initiated.state result)
  ∧ (Initiated.transactionId result = None →
     getTransaction (minted_transactionId 1700000000000 sample_drawn) w'
     = inl "Transaction not found").
Proof.
  apply (submitted_transaction_is_found "2323230041626905" sample_drawn
           1700000000000 (answering "queued") "user_1" "fund_1" (500 # 1) UPI
           "payout" None None empty_world).
  intros id t Hd. simpl in Hd. by rewrite lookup_empty in Hd.
Defined.

(** A status sync of a pending transaction. *)
Lemma mapped_writers_keep_states_in_enum_witness :
  states_in_enum
    (syncPayoutStatus 1700000200000 (answering "processed")
       "txn_1700000000000_ab12cd"
       (sample_world (sample_transaction "pending" 0 None (Some "pout_1")))).2.
Proof.
  apply (mapped_writers_keep_states_in_enum sample_verify sample_parse
           sample_digest 1700000200000 (answering "processed")
           (sample_world (sample_transaction "pending" 0 None (Some "pout_1")))).
  refine (sample_world_documents
           (λ t, is_TransactionState (Txn.state t) = true) _ _).
  reflexivity.
Defined.

(** A submission while the processor cannot be reached, then a retry it
    queues. *)
Lemma retry_resends_the_submitted_payout_witness :
  ∃ first again,
    api_calls
      (retryTransaction "2323230041626905" 1700000061000 (answering "queued")
         (minted_transactionId 1700000000000 sample_drawn)
         (initiatePayoutIndia "2323230041626905" sample_drawn 1700000000000
            unreachable "user_1" "fund_1" (500 # 1) UPI "payout" None None
            empty_world).2).2
    = api_calls empty_world ++ [CreatePayout first; CreatePayout again]
    ∧ PayoutRequest.reference_id again = PayoutRequest.reference_id first
    ∧ PayoutRequest.amount again = PayoutRequest.amount first
    ∧ PayoutRequest.fund_account_id again = PayoutRequest.fund_account_id first
    ∧ PayoutRequest.mode again = PayoutRequest.mode first
    ∧ PayoutRequest.purpose again = PayoutRequest.purpose first
    ∧ PayoutRequest.currency again = PayoutRequest.currency first
    ∧ PayoutRequest.account_number again = PayoutRequest.account_number first.
Proof.
  apply (retry_resends_the_submitted_payout "2323230041626905" sample_drawn
           1700000000000 unreachable 1700000061000 (answering "queued")
           "user_1" "fund_1" (500 # 1) UPI "payout" None None empty_world
           sample_fund_account (JsError "connect ETIMEDOUT")).
  - reflexivity.
  - apply lookup_singleton_eq.
  - reflexivity.
  - reflexivity.
  - apply lookup_empty.
  - intros id t Hd. simpl in Hd. by rewrite lookup_empty in Hd.
  - reflexivity.
Defined.

(** The statistics of a user with one completed payout. *)
Lemma getTransactionStats_adds_up_witness :
  let stats :=
    getTransactionStats 25 "user_1"
      (sample_world (sample_transaction "completed" 0 None (Some "pout_1"))) in
  st_total stats = st_completed stats + st_pending stats + st_failed stats
  ∧ 0 ≤ st_completed stats ∧ 0 ≤ st_pending stats ∧ 0 ≤ st_failed stats
  ∧ 0 ≤ st_completedAmount stats ≤ st_totalAmount stats.
Proof.
  apply (getTransactionStats_adds_up 25 "user_1").
  refine (sample_world_documents (λ t, 0 ≤ Txn.amount t) _ _).
  vm_compute. discriminate.
Defined.
